(** * Jellyfin landscape generator: worker pool, sampling plan and batch ETA

    A shallow embedding of [jellyfin_mp4_to_webp_gui.pyw]:
    - [get_video_duration], [process_video] and [worker_process] (the worker
      side), as computations that return the trace of their external effects;
    - [_scan_videos_and_start], [_finalize_scan_and_start],
      [monitor_progress], [stop_processing] and [_finish_stop] (the
      coordinator side), as transformers of the fields of the GUI object;
    - [cleanup_old_landscapes], the methods of [WorkerPanel] with the panel
      updates of the monitor, and [get_config], [save_settings] and
      [load_settings] on the values of the Tk variables.

    Conventions of the model.
    - A Python [int] is [Z].  A finite Python [float] is the rational it
      denotes ([Q]).  The arithmetic of the sampling plan is that of
      binary64: each operation is the exact one followed by [round64],
      rounding to nearest with ties to even, subnormals included.  No
      operation overflows: infinities and NaN are not values of the model.
      The elapsed times, rates and percentages of the progress reports are
      computed exactly.
    - The builtins [float()] and [int()] applied to text are the section
      variables [float_of_string] and [int_of_string] ([None] stands for
      [ValueError]).
    - Readings of [time.time()], the standard output of the external tools
      and the liveness of the worker processes are inputs of the model.
    - One execution context at a time: a queue is the list of its items,
      callbacks scheduled with [self.after] run where they are scheduled.
      Two places are modelled closer to the run: the drain loop of
      [stop_processing] works on the queue that the worker processes read,
      and what [empty()] and [get_nowait()] meet there at each turn is an
      input ([queue_turn]); the callback of the exception handler of
      [monitor_progress] runs after the handler has ended ([monitor_turn]).
    - What [folder.glob] gives for the old outputs of a video, the files
      found or an exception, is an input ([glob_outcome]).
    - A Python [str] is a Rocq string, one character per code point. *)

From Stdlib Require Import ZArith QArith Qround Qabs Qpower Lia Lqa.
From Stdlib Require Import String Ascii List.
From stdpp Require Import base gmap strings list.
Import ListNotations.

Local Open Scope string_scope.
Local Open Scope list_scope.
Local Open Scope Z_scope.

(** ** Python numbers *)

(** Exceptions that the modelled code can meet. *)
Inductive exn :=
| ZeroDivisionError
| TypeError
| ValueError (msg : string)
| OSError (msg : string).

Inductive outcome (A : Type) :=
| Ok (a : A)
| Raise (e : exn).
Arguments Ok {A} a.
Arguments Raise {A} e.

Definition Qltb (x y : Q) : bool := negb (Qle_bool y x).

(** [x / y] computed exactly: division by zero raises. *)
Definition py_div (x y : Q) : outcome Q :=
  if Qeq_bool y 0 then Raise ZeroDivisionError else Ok (x / y)%Q.

(** [int(x)] on a float: truncation toward zero. *)
Definition py_int (x : Q) : Z := Z.quot (Qnum x) (Zpos (Qden x)).

(** [min(100, x)]: the first argument wins ties. *)
Definition py_min100 (x : Q) : Q := if Qltb x 100 then x else 100%Q.

(** Rounding to the nearest integer, ties to the even one. *)
Definition round_nearest (x : Q) : Z :=
  let f := Qfloor x in
  match ((x - inject_Z f) ?= (1 # 2))%Q with
  | Lt => f
  | Gt => f + 1
  | Eq => if Z.even f then f else f + 1
  end.

(** *** binary64 *)

(** The exponent of the leading binary digit of a positive rational:
    [2 ^ Qlog2 q <= q < 2 ^ (Qlog2 q + 1)]. *)
Definition Qlog2 (q : Q) : Z :=
  let k := Z.log2 (Qnum q) - Z.log2 (Zpos (Qden q)) in
  if Qle_bool (2 ^ k) q then k else k - 1.

(** The binary64 value nearest to [q], ties to the even significand: a
    significand of 53 bits at the exponent of [q], or the multiple of
    [2 ^ -1074] nearest to [q] in the subnormal range.  The result is in
    lowest terms. *)
Definition round64 (q : Q) : Q :=
  if Qeq_bool q 0 then 0%Q
  else
    let e := Z.max (Qlog2 (Qabs q) - 52) (-1074) in
    Qred (inject_Z (round_nearest (q / 2 ^ e)) * 2 ^ e).

(** [float(z)], as in the mixed operations of an [int] with a [float]. *)
Definition float_of_int (z : Z) : Q := round64 (inject_Z z).

(** [x + y] and [x * y] on floats. *)
Definition fadd (x y : Q) : Q := round64 (x + y).

Definition fmul (x y : Q) : Q := round64 (x * y).

(** [x / y] on floats: division by zero raises. *)
Definition fdiv (x y : Q) : outcome Q :=
  if Qeq_bool y 0 then Raise ZeroDivisionError else Ok (round64 (x / y)).

(** The finite values of binary64: a significand of 53 bits and an exponent
    not below that of the subnormals. *)
Definition binary64 (q : Q) : Prop :=
  exists m e : Z,
    Z.abs m < 2 ^ 53 /\ -1074 <= e /\ (q == inject_Z m * 2 ^ e)%Q.

(** ** Python text *)

(** [str.isspace] on the ASCII range. *)
Definition is_space (c : ascii) : bool :=
  let n := nat_of_ascii c in
  ((9 <=? n)%nat && (n <=? 13)%nat) || ((28 <=? n)%nat && (n <=? 32)%nat).

Fixpoint lstrip (s : string) : string :=
  match s with
  | EmptyString => EmptyString
  | String c rest => if is_space c then lstrip rest else s
  end.

Fixpoint string_rev (s : string) : string :=
  match s with
  | EmptyString => EmptyString
  | String c rest => (string_rev rest ++ String c EmptyString)%string
  end.

Definition rstrip (s : string) : string := string_rev (lstrip (string_rev s)).

(** [s.strip()] *)
Definition strip (s : string) : string := rstrip (lstrip s).

(** [needle in hay] *)
Fixpoint contains (needle hay : string) : bool :=
  String.prefix needle hay ||
  match hay with
  | EmptyString => false
  | String _ rest => contains needle rest
  end.

(** [s.split(sep)] for a separator of one character. *)
Fixpoint split_on (sep : ascii) (s : string) : list string :=
  match s with
  | EmptyString => [EmptyString]
  | String c rest =>
      if Ascii.eqb c sep then EmptyString :: split_on sep rest
      else match split_on sep rest with
           | [] => [String c EmptyString]
           | hd :: tl => String c hd :: tl
           end
  end.

Definition digit (n : Z) : ascii := ascii_of_nat (48 + Z.to_nat n).

(** ["%02d"] for a value below one hundred. *)
Definition two_digits (n : Z) : string :=
  String (digit (n / 10)) (String (digit (n mod 10)) EmptyString).

(** [time.strftime("%H:%M:%S", time.gmtime(secs))]: the time of day of the
    instant [secs] seconds after the epoch. *)
Definition strftime_HMS (secs : Z) : string :=
  let d := secs mod 86400 in
  (two_digits (d / 3600) ++ ":" ++ two_digits ((d mod 3600) / 60) ++ ":"
     ++ two_digits (d mod 60))%string.

(** Plain decimal text, the part of what [int()] and [float()] accept that
    the tools print: an optional sign, digits, and for a float an optional
    fraction, read as the nearest binary64 value.  Used to run the model
    on concrete text. *)
Definition digit_value (c : ascii) : option Z :=
  let n := nat_of_ascii c in
  if ((48 <=? n)%nat && (n <=? 57)%nat) then Some (Z.of_nat n - 48) else None.

Fixpoint parse_digits (s : string) (acc : Z) : option Z :=
  match s with
  | EmptyString => Some acc
  | String c rest =>
      match digit_value c with
      | Some d => parse_digits rest (10 * acc + d)
      | None => None
      end
  end.

Definition unsigned_int (s : string) : option Z :=
  match s with
  | EmptyString => None
  | String _ _ => parse_digits s 0
  end.

Definition decimal_int (s : string) : option Z :=
  match s with
  | String "-" rest => option_map Z.opp (unsigned_int rest)
  | String "+" rest => unsigned_int rest
  | _ => unsigned_int s
  end.

Definition unsigned_float (s : string) : option Q :=
  match split_on "." s with
  | [whole] => option_map float_of_int (unsigned_int whole)
  | [whole; frac] =>
      match unsigned_int whole, unsigned_int frac with
      | Some w, Some f =>
          Some (round64
                  (inject_Z w
                   + inject_Z f
                     / inject_Z (10 ^ Z.of_nat (String.length frac))))
      | _, _ => None
      end
  | _ => None
  end.

Definition decimal_float (s : string) : option Q :=
  match s with
  | String "-" rest => option_map Qopp (unsigned_float rest)
  | String "+" rest => unsigned_float rest
  | _ => unsigned_float s
  end.

(** ** Paths *)

(** A path is the list of its components; [str] joins them. *)
Definition Path := list string.

Definition path_str (p : Path) : string := String.concat "/" p.

(** [p.name] *)
Definition path_name (p : Path) : string := List.last p "".

(** [video.relative_to(base)]: [None] stands for [ValueError]. *)
Fixpoint relative_to (video base : Path) : option Path :=
  match base, video with
  | [], _ => Some video
  | b :: base', v :: video' =>
      if String.eqb b v then relative_to video' base' else None
  | _ :: _, [] => None
  end.

(** ** Data classes *)

Module VideoJob.
Record t := mk {
  video_path : Path;
  index : Z;
  total : Z;
  base_path : option Path;
  overwrite_existing : bool;
  video_duration : Q
}.
End VideoJob.

Module ProgressUpdate.
Record t := mk {
  worker_id : Z;
  video_name : string;
  progress : Q;
  eta : string;
  fps : Q;
  current_frame : Z;
  total_frames : Z
}.
End ProgressUpdate.

Module JobComplete.
Record t := mk {
  worker_id : Z;
  video_name : string;
  success : bool;
  message : string;
  deleted_files : option (list string);
  video_duration : Q
}.
End JobComplete.

Module WorkerConfig.
Record t := mk {
  fps : Z;
  width : Z;
  quality : Z;
  interval_count : Z;
  clip_length : Q;
  bridge_percent : Q;
  bridge_interval_abs : Q;
  bridge_window : Q
}.
End WorkerConfig.

(** What travels on [progress_queue]. *)
Inductive msg :=
| MsgProgress (u : ProgressUpdate.t)
| MsgComplete (c : JobComplete.t).

(** ** The sampling plan computed inside [process_video] *)

Definition interval (duration : Q) (config : WorkerConfig.t) : outcome Q :=
  fdiv duration (float_of_int (WorkerConfig.interval_count config)).

(** The "Bridge logic" block, given the value of [interval]. *)
Definition bridge_interval (interval : Q) (config : WorkerConfig.t) : Q :=
  if Qltb 0 (WorkerConfig.bridge_percent config) then
    fmul interval (WorkerConfig.bridge_percent config)
  else if Qltb 0 (WorkerConfig.bridge_interval_abs config) then
    WorkerConfig.bridge_interval_abs config
  else 0%Q.

(** [config.interval_count * config.clip_length * config.fps]: two
    products, from the left. *)
Definition main_frames (config : WorkerConfig.t) : Q :=
  fmul (fmul (float_of_int (WorkerConfig.interval_count config))
             (WorkerConfig.clip_length config))
       (float_of_int (WorkerConfig.fps config)).

Definition bridge_frames (duration bridge_interval : Q)
  (config : WorkerConfig.t) : outcome Q :=
  if Qltb 0 bridge_interval then
    match fdiv duration bridge_interval with
    | Ok bridge_count =>
        Ok (fmul (fmul bridge_count (WorkerConfig.bridge_window config))
                 (float_of_int (WorkerConfig.fps config)))
    | Raise e => Raise e
    end
  else Ok 0%Q.

Record SamplingPlan := mkPlan {
  plan_interval : Q;
  plan_bridge_interval : Q;
  plan_expected_frames : Z
}.

(** Lines 166 to 183 of [process_video]. *)
Definition sampling_plan (duration : Q) (config : WorkerConfig.t)
  : outcome SamplingPlan :=
  match interval duration config with
  | Raise e => Raise e
  | Ok iv =>
      let bi := bridge_interval iv config in
      match bridge_frames duration bi config with
      | Raise e => Raise e
      | Ok bf =>
          Ok (mkPlan iv bi (Z.max 1 (py_int (fadd (main_frames config) bf))))
      end
  end.

(** *** The planner as the specification words it *)

(** The formulas of the specification, in the arithmetic of the code; the
    count is rounded to the nearest integer ([round_nearest]) where the
    code truncates. *)
Definition spec_interval (D : Q) (C : WorkerConfig.t) : Q :=
  round64 (D / float_of_int (WorkerConfig.interval_count C)).

Definition spec_bridge_interval (D : Q) (C : WorkerConfig.t) : Q :=
  if Qltb 0 (WorkerConfig.bridge_percent C) then
    fmul (spec_interval D C) (WorkerConfig.bridge_percent C)
  else if Qltb 0 (WorkerConfig.bridge_interval_abs C) then
    WorkerConfig.bridge_interval_abs C
  else 0%Q.

Definition spec_main_units (C : WorkerConfig.t) : Q :=
  fmul (fmul (float_of_int (WorkerConfig.interval_count C))
             (WorkerConfig.clip_length C))
       (float_of_int (WorkerConfig.fps C)).

Definition spec_bridge_units (D : Q) (C : WorkerConfig.t) : Q :=
  if Qltb 0 (spec_bridge_interval D C) then
    fmul (fmul (round64 (D / spec_bridge_interval D C))
               (WorkerConfig.bridge_window C))
         (float_of_int (WorkerConfig.fps C))
  else 0%Q.

Definition spec_expected_unit_count (D : Q) (C : WorkerConfig.t) : Z :=
  Z.max 1 (round_nearest (fadd (spec_main_units C) (spec_bridge_units D C))).

(** ** The coordinator: fields of the GUI object that the engine uses *)

(** The text of [overall_label], by its format and the values in it. *)
Inductive label :=
| LabelReady
| LabelEta (completed total remaining : Z) (eta_str : string)
    (speed_multiplier : Q)
| LabelCalculating (completed total remaining : Z)
| LabelStopping (count : Z)
| LabelStopped (completed total cancelled : Z).

(** The lines written with [self.log], by format and values. *)
Inductive log_entry :=
| LogNoFiles
| LogFound (n : Z)
| LogTotalDuration (hours minutes seconds : Z)
| LogStartingWorkers (n : Z)
| LogJob (success : bool) (completed total : Z) (name message : string)
    (deleted : list string)
| LogAllDone (completed total : Z) (timing : option (string * Q))
| LogStopping (active : Z)
| LogStopped (completed : Z) (cancelled : option Z).

Record JellyfinLandscapeGUI := mkGUI {
  total_videos : Z;
  completed_videos : Z;
  is_running : bool;
  is_stopping : bool;
  batch_start_time : option Q;
  video_completion_times : list Q;
  total_video_duration : Q;
  processed_video_duration : Q;
  video_durations : gmap string Q;
  job_queue : list (option VideoJob.t);
  workers : list Z;
  overall_progress : Q;
  overall_label : label;
  log : list log_entry
}.

Definition set_total_videos (v : Z) (self : JellyfinLandscapeGUI)
  : JellyfinLandscapeGUI :=
  mkGUI v (completed_videos self) (is_running self) (is_stopping self)
    (batch_start_time self) (video_completion_times self)
    (total_video_duration self) (processed_video_duration self)
    (video_durations self) (job_queue self) (workers self) (overall_progress
    self) (overall_label self) (log self).

Definition set_completed_videos (v : Z) (self : JellyfinLandscapeGUI)
  : JellyfinLandscapeGUI :=
  mkGUI (total_videos self) v (is_running self) (is_stopping self)
    (batch_start_time self) (video_completion_times self)
    (total_video_duration self) (processed_video_duration self)
    (video_durations self) (job_queue self) (workers self) (overall_progress
    self) (overall_label self) (log self).

Definition set_is_running (v : bool) (self : JellyfinLandscapeGUI)
  : JellyfinLandscapeGUI :=
  mkGUI (total_videos self) (completed_videos self) v (is_stopping self)
    (batch_start_time self) (video_completion_times self)
    (total_video_duration self) (processed_video_duration self)
    (video_durations self) (job_queue self) (workers self) (overall_progress
    self) (overall_label self) (log self).

Definition set_is_stopping (v : bool) (self : JellyfinLandscapeGUI)
  : JellyfinLandscapeGUI :=
  mkGUI (total_videos self) (completed_videos self) (is_running self) v
    (batch_start_time self) (video_completion_times self)
    (total_video_duration self) (processed_video_duration self)
    (video_durations self) (job_queue self) (workers self) (overall_progress
    self) (overall_label self) (log self).

Definition set_batch_start_time (v : option Q) (self : JellyfinLandscapeGUI)
  : JellyfinLandscapeGUI :=
  mkGUI (total_videos self) (completed_videos self) (is_running self)
    (is_stopping self) v (video_completion_times self) (total_video_duration
    self) (processed_video_duration self) (video_durations self) (job_queue
    self) (workers self) (overall_progress self) (overall_label self) (log
    self).

Definition set_video_completion_times (v : list Q) (self : JellyfinLandscapeGUI)
  : JellyfinLandscapeGUI :=
  mkGUI (total_videos self) (completed_videos self) (is_running self)
    (is_stopping self) (batch_start_time self) v (total_video_duration self)
    (processed_video_duration self) (video_durations self) (job_queue self)
    (workers self) (overall_progress self) (overall_label self) (log self).

Definition set_total_video_duration (v : Q) (self : JellyfinLandscapeGUI)
  : JellyfinLandscapeGUI :=
  mkGUI (total_videos self) (completed_videos self) (is_running self)
    (is_stopping self) (batch_start_time self) (video_completion_times self)
    v (processed_video_duration self) (video_durations self) (job_queue
    self) (workers self) (overall_progress self) (overall_label self) (log
    self).

Definition set_processed_video_duration (v : Q) (self : JellyfinLandscapeGUI)
  : JellyfinLandscapeGUI :=
  mkGUI (total_videos self) (completed_videos self) (is_running self)
    (is_stopping self) (batch_start_time self) (video_completion_times self)
    (total_video_duration self) v (video_durations self) (job_queue self)
    (workers self) (overall_progress self) (overall_label self) (log self).

Definition set_video_durations (v : gmap string Q) (self : JellyfinLandscapeGUI)
  : JellyfinLandscapeGUI :=
  mkGUI (total_videos self) (completed_videos self) (is_running self)
    (is_stopping self) (batch_start_time self) (video_completion_times self)
    (total_video_duration self) (processed_video_duration self) v (job_queue
    self) (workers self) (overall_progress self) (overall_label self) (log
    self).

Definition set_job_queue (v : list (option VideoJob.t)) (self : JellyfinLandscapeGUI)
  : JellyfinLandscapeGUI :=
  mkGUI (total_videos self) (completed_videos self) (is_running self)
    (is_stopping self) (batch_start_time self) (video_completion_times self)
    (total_video_duration self) (processed_video_duration self)
    (video_durations self) v (workers self) (overall_progress self)
    (overall_label self) (log self).

Definition set_workers (v : list Z) (self : JellyfinLandscapeGUI)
  : JellyfinLandscapeGUI :=
  mkGUI (total_videos self) (completed_videos self) (is_running self)
    (is_stopping self) (batch_start_time self) (video_completion_times self)
    (total_video_duration self) (processed_video_duration self)
    (video_durations self) (job_queue self) v (overall_progress self)
    (overall_label self) (log self).

Definition set_overall_progress (v : Q) (self : JellyfinLandscapeGUI)
  : JellyfinLandscapeGUI :=
  mkGUI (total_videos self) (completed_videos self) (is_running self)
    (is_stopping self) (batch_start_time self) (video_completion_times self)
    (total_video_duration self) (processed_video_duration self)
    (video_durations self) (job_queue self) (workers self) v (overall_label
    self) (log self).

Definition set_overall_label (v : label) (self : JellyfinLandscapeGUI)
  : JellyfinLandscapeGUI :=
  mkGUI (total_videos self) (completed_videos self) (is_running self)
    (is_stopping self) (batch_start_time self) (video_completion_times self)
    (total_video_duration self) (processed_video_duration self)
    (video_durations self) (job_queue self) (workers self) (overall_progress
    self) v (log self).

Definition set_log (v : list log_entry) (self : JellyfinLandscapeGUI)
  : JellyfinLandscapeGUI :=
  mkGUI (total_videos self) (completed_videos self) (is_running self)
    (is_stopping self) (batch_start_time self) (video_completion_times self)
    (total_video_duration self) (processed_video_duration self)
    (video_durations self) (job_queue self) (workers self) (overall_progress
    self) (overall_label self) v.

(** ** External effects *)

(** Everything a worker does to the outside world, in order. *)
Inductive effect :=
| RunFfprobe (video : Path)
| Sleep (seconds : Q)
| RunFfmpeg (video : Path) (plan : SamplingPlan) (config : WorkerConfig.t)
| Unlink (name : string)
| Put (m : msg)
| PrintError (worker_id : Z) (e : exn).

(** A computation: the effects it performed, then its value or the
    exception that ended it. *)
Definition eff (A : Type) : Type := list effect * outcome A.

Definition ret {A} (a : A) : eff A := ([], Ok a).
Definition raise {A} (e : exn) : eff A := ([], Raise e).
Definition perform (x : effect) : eff unit := ([x], Ok tt).

Definition bind {A B} (m : eff A) (k : A -> eff B) : eff B :=
  match m with
  | (t, Ok a) => let (t', r) := k a in ((t ++ t')%list, r)
  | (t, Raise e) => (t, Raise e)
  end.

(** [try: m except Exception as e: handler e] *)
Definition try_except {A} (m : eff A) (handler : exn -> eff A) : eff A :=
  match m with
  | (t, Raise e) => let (t', r) := handler e in ((t ++ t')%list, r)
  | (t, Ok a) => (t, Ok a)
  end.

Definition lift {A} (o : outcome A) : eff A := ([], o).

Declare Scope eff_scope.
Delimit Scope eff_scope with eff.
Notation "x <- m ;; k" := (bind m (fun x => k))
  (at level 100, m at next level, right associativity) : eff_scope.
Notation "m ;;; k" := (bind m (fun _ => k))
  (at level 100, right associativity) : eff_scope.

(** What one run of an external tool gives back. *)
Inductive probe_outcome :=
| ProbeRaises (e : exn)
| ProbeStdout (stdout : string).

Inductive sampler_outcome :=
| PopenRaises (e : exn)
| PopenRuns (lines : list (string * Q)) (returncode : Z).

(** A file that [folder.glob(f"{stem}-landscape.*")] finds. *)
Record sibling := mkSibling {
  sib_name : string;
  sib_suffix : string;
  sib_unlink_ok : bool
}.

(** What iterating [folder.glob(f"{stem}-landscape.*")] gives: the files
    that match, or the exception of a pattern that [glob] refuses, as
    [ValueError] for a stem with two asterisks in a row. *)
Inductive glob_outcome :=
| GlobRaises (e : exn)
| GlobFinds (files : list sibling).

(** The surroundings of one call of [process_video]. *)
Record world := mkWorld {
  output_exists : bool;
  ffprobe : nat -> probe_outcome;
  ffmpeg : sampler_outcome;
  start_time : Q;
  siblings : glob_outcome
}.

Definition exn_str (e : exn) : string :=
  match e with
  | ZeroDivisionError => "division by zero"
  | TypeError => "unsupported operand type(s)"
  | ValueError s => s
  | OSError s => s
  end.

Definition lower_ascii (c : ascii) : ascii :=
  let n := nat_of_ascii c in
  if ((65 <=? n)%nat && (n <=? 90)%nat) then ascii_of_nat (n + 32) else c.

Fixpoint lower (s : string) : string :=
  match s with
  | EmptyString => EmptyString
  | String c rest => String (lower_ascii c) (lower rest)
  end.

Definition is_job_complete (x : effect) : bool :=
  match x with
  | Put (MsgComplete _) => true
  | _ => false
  end.

Definition is_tool_run (x : effect) : bool :=
  match x with
  | RunFfprobe _ | RunFfmpeg _ _ _ => true
  | _ => false
  end.

(** ** Worker panels *)

(** The text of a panel's [video_label] and [stats_label], by format. *)
Inductive panel_label :=
| PanelIdle
| PanelName (text : string)
| PanelDone (text : string).

Inductive panel_stats :=
| StatsIdle
| Stats (progress : Q) (eta : string) (fps : Q).

Module WorkerPanel.
Record t := mk {
  worker_id : Z;
  video_label : panel_label;
  progress : Q;
  stats_label : panel_stats
}.
End WorkerPanel.

(** ["..." + display_name[-37:]] when the name has more than 40
    characters. *)
Definition shorten (display_name : string) : string :=
  if (40 <? String.length display_name)%nat then
    ("..." ++ String.substring (String.length display_name - 37) 37
                display_name)%string
  else display_name.

Definition update_progress (update : ProgressUpdate.t) (panel : WorkerPanel.t)
  : WorkerPanel.t :=
  WorkerPanel.mk (WorkerPanel.worker_id panel)
    (PanelName (shorten (ProgressUpdate.video_name update)))
    (ProgressUpdate.progress update / 100)%Q
    (Stats (ProgressUpdate.progress update) (ProgressUpdate.eta update)
       (ProgressUpdate.fps update)).

Definition set_idle (panel : WorkerPanel.t) : WorkerPanel.t :=
  WorkerPanel.mk (WorkerPanel.worker_id panel) PanelIdle 0%Q StatsIdle.

Definition set_complete (video_name : string) (panel : WorkerPanel.t)
  : WorkerPanel.t :=
  WorkerPanel.mk (WorkerPanel.worker_id panel)
    (PanelDone (shorten video_name)) 1%Q (WorkerPanel.stats_label panel).

(** [if 0 < worker_id <= len(self.worker_panels):
       self.worker_panels[worker_id - 1].f()] *)
Definition on_panel (worker_id : Z) (f : WorkerPanel.t -> WorkerPanel.t)
  (worker_panels : list WorkerPanel.t) : list WorkerPanel.t :=
  if (0 <? worker_id) && (worker_id <=? Z.of_nat (length worker_panels)) then
    alter f (Z.to_nat (worker_id - 1)) worker_panels
  else worker_panels.

Definition show_result (m : JobComplete.t)
  (worker_panels : list WorkerPanel.t) : list WorkerPanel.t :=
  on_panel (JobComplete.worker_id m)
    (if JobComplete.success m
     then set_complete (JobComplete.video_name m) else set_idle)
    worker_panels.

(** ** Settings *)

(** What the getters of the Tk variables return in [get_config] and
    [save_settings], under the keys of the settings file. *)
Module Entries.
Record t := mk {
  folder : string;
  workers : Z;
  fps : Z;
  width : Z;
  quality : Z;
  intervals : Z;
  clip_length : Q;
  bridge_percent : Q;
  bridge_abs : Q;
  bridge_window : Q;
  recursive : bool;
  overwrite : bool
}.
End Entries.

Definition get_config (e : Entries.t) : WorkerConfig.t :=
  WorkerConfig.mk (Entries.fps e) (Entries.width e) (Entries.quality e)
    (Entries.intervals e) (Entries.clip_length e)
    (round64 (Entries.bridge_percent e / 100)) (Entries.bridge_abs e)
    (Entries.bridge_window e).

(** A scalar of the settings file. *)
Inductive value :=
| VStr (s : string)
| VInt (z : Z)
| VFloat (q : Q)
| VBool (b : bool).

(** The dictionary that [save_settings] hands to [save_config]. *)
Definition save_settings (e : Entries.t) : gmap string value :=
  <["folder" := VStr (Entries.folder e)]>
  (<["workers" := VInt (Entries.workers e)]>
  (<["fps" := VInt (Entries.fps e)]>
  (<["width" := VInt (Entries.width e)]>
  (<["quality" := VInt (Entries.quality e)]>
  (<["intervals" := VInt (Entries.intervals e)]>
  (<["clip_length" := VFloat (Entries.clip_length e)]>
  (<["bridge_percent" := VFloat (Entries.bridge_percent e)]>
  (<["bridge_abs" := VFloat (Entries.bridge_abs e)]>
  (<["bridge_window" := VFloat (Entries.bridge_window e)]>
  (<["recursive" := VBool (Entries.recursive e)]>
  (<["overwrite" := VBool (Entries.overwrite e)]> ∅))))))))))).

(** The Tk variables, each as the value last given to its [set]. *)
Module Vars.
Record t := mk {
  folder_var : value;
  workers_var : value;
  fps_var : value;
  width_var : value;
  quality_var : value;
  intervals_var : value;
  clip_length_var : value;
  bridge_percent_var : value;
  bridge_abs_var : value;
  bridge_window_var : value;
  recursive_var : value;
  overwrite_var : value
}.
End Vars.

Inductive load_report :=
| NothingSaved
| SettingsLoaded
| CouldNotLoad (e : exn).

(** The "Set folder" block: [Path(folder_path)] raises on a value that is
    not text. *)
Definition load_folder (folder_exists : string -> bool)
  (saved_config : gmap string value) (vars : Vars.t) : outcome Vars.t :=
  match saved_config !! "folder" with
  | None => Ok vars
  | Some (VStr folder_path) =>
      if folder_exists folder_path then
        Ok (Vars.mk (VStr folder_path) (Vars.workers_var vars)
              (Vars.fps_var vars) (Vars.width_var vars)
              (Vars.quality_var vars) (Vars.intervals_var vars)
              (Vars.clip_length_var vars) (Vars.bridge_percent_var vars)
              (Vars.bridge_abs_var vars) (Vars.bridge_window_var vars)
              (Vars.recursive_var vars) (Vars.overwrite_var vars))
      else Ok vars
  | Some _ => Raise TypeError
  end.

(** [if key in self.saved_config: var.set(self.saved_config[key])] *)
Definition saved (saved_config : gmap string value) (key : string)
  (current : value) : value :=
  default current (saved_config !! key).

Definition load_settings (folder_exists : string -> bool)
  (saved_config : gmap string value) (vars : Vars.t)
  : Vars.t * load_report :=
  if decide (saved_config = ∅) then (vars, NothingSaved)
  else
    match load_folder folder_exists saved_config vars with
    | Raise e => (vars, CouldNotLoad e)
    | Ok vars =>
        (Vars.mk (Vars.folder_var vars)
           (saved saved_config "workers" (Vars.workers_var vars))
           (saved saved_config "fps" (Vars.fps_var vars))
           (saved saved_config "width" (Vars.width_var vars))
           (saved saved_config "quality" (Vars.quality_var vars))
           (saved saved_config "intervals" (Vars.intervals_var vars))
           (saved saved_config "clip_length" (Vars.clip_length_var vars))
           (saved saved_config "bridge_percent"
              (Vars.bridge_percent_var vars))
           (saved saved_config "bridge_abs" (Vars.bridge_abs_var vars))
           (saved saved_config "bridge_window"
              (Vars.bridge_window_var vars))
           (saved saved_config "recursive" (Vars.recursive_var vars))
           (saved saved_config "overwrite" (Vars.overwrite_var vars)),
         SettingsLoaded)
    end.

(** The variables after the values of [e] have been set. *)
Definition vars_of (e : Entries.t) : Vars.t :=
  Vars.mk (VStr (Entries.folder e)) (VInt (Entries.workers e))
    (VInt (Entries.fps e)) (VInt (Entries.width e))
    (VInt (Entries.quality e)) (VInt (Entries.intervals e))
    (VFloat (Entries.clip_length e)) (VFloat (Entries.bridge_percent e))
    (VFloat (Entries.bridge_abs e)) (VFloat (Entries.bridge_window e))
    (VBool (Entries.recursive e)) (VBool (Entries.overwrite e)).

Section Program.

(** [float(text)] and [int(text)]; [None] is [ValueError]. *)
Variable float_of_string : string -> option Q.
Variable int_of_string : string -> option Z.

Local Open Scope eff_scope.

(** The body of [for attempt in range(retries)], from attempt [attempt]
    on, with [left] attempts to go. *)
Fixpoint probe_attempts (video_path : Path) (ffprobe : nat -> probe_outcome)
  (attempt left : nat) : eff (option Q) :=
  match left with
  | O => ret None
  | S left' =>
      perform (RunFfprobe video_path) ;;;
      match ffprobe attempt with
      | ProbeRaises e => raise e
      | ProbeStdout stdout =>
          let output := strip stdout in
          match (if String.eqb output "" then None
                 else float_of_string output) with
          | Some d => ret (Some d)
          | None =>
              perform (Sleep (1 # 2)) ;;;
              probe_attempts video_path ffprobe (S attempt) left'
          end
      end
  end.

Definition get_video_duration_retries (video_path : Path)
  (ffprobe : nat -> probe_outcome) (retries : nat) : eff (option Q) :=
  probe_attempts video_path ffprobe 0 retries.

Definition get_video_duration (video_path : Path)
  (ffprobe : nat -> probe_outcome) : eff (option Q) :=
  get_video_duration_retries video_path ffprobe 3.

(** The loop of [cleanup_old_landscapes] over the files found: a file
    whose [unlink] raises is passed over. *)
Fixpoint unlink_old (files : list sibling) : eff (list string) :=
  match files with
  | [] => ret []
  | file :: rest =>
      if negb (String.eqb (lower (sib_suffix file)) ".webp") then
        if sib_unlink_ok file then
          perform (Unlink (sib_name file)) ;;;
          deleted <- unlink_old rest ;;
          ret (sib_name file :: deleted)
        else unlink_old rest
      else unlink_old rest
  end.

(** The [for] statement iterates the result of [glob] outside the [try]
    that guards [unlink]: an exception of [glob] leaves the function. *)
Definition cleanup_old_landscapes (found : glob_outcome)
  : eff (list string) :=
  match found with
  | GlobRaises e => raise e
  | GlobFinds files => unlink_old files
  end.

Definition display_name (job : VideoJob.t) : string :=
  let video := VideoJob.video_path job in
  match VideoJob.base_path job with
  | Some base =>
      match relative_to video base with
      | Some rel => path_str rel
      | None => path_name video
      end
  | None => path_name video
  end.

(** The progress record built from a parsed frame count. *)
Definition progress_update (worker_id : Z) (name : string)
  (expected_frames current_frame : Z) (elapsed : Q)
  : outcome ProgressUpdate.t :=
  match py_div (inject_Z current_frame) (inject_Z expected_frames) with
  | Raise e => Raise e
  | Ok ratio =>
      let percent := py_min100 (ratio * 100)%Q in
      let speed :=
        if Qltb 0 elapsed then (inject_Z current_frame / elapsed)%Q
        else 0%Q in
      let remaining_frames := Z.max 0 (expected_frames - current_frame) in
      let eta :=
        if Qltb 0 speed then py_int (inject_Z remaining_frames / speed)%Q
        else 0 in
      let eta_str := strftime_HMS eta in
      Ok (ProgressUpdate.mk worker_id name percent eta_str speed
            current_frame expected_frames)
  end.

(** One turn of [for line in process.stdout]; [now] is what [time.time()]
    reads there.  The bare [except: pass] swallows every failure. *)
Definition on_line (worker_id : Z) (name : string) (expected_frames : Z)
  (start_time : Q) (line : string) (now : Q) : eff unit :=
  if contains "frame=" line then
    let parts := split_on "=" line in
    if (2 <=? length parts)%nat then
      match nth_error parts 1 with
      | Some field =>
          match int_of_string (strip field) with
          | Some current_frame =>
              match progress_update worker_id name expected_frames
                      current_frame (now - start_time)%Q with
              | Ok u => perform (Put (MsgProgress u))
              | Raise _ => ret tt
              end
          | None => ret tt
          end
      | None => ret tt
      end
    else ret tt
  else ret tt.

Fixpoint read_lines (worker_id : Z) (name : string) (expected_frames : Z)
  (start_time : Q) (lines : list (string * Q)) : eff unit :=
  match lines with
  | [] => ret tt
  | (line, now) :: rest =>
      on_line worker_id name expected_frames start_time line now ;;;
      read_lines worker_id name expected_frames start_time rest
  end.

Definition job_complete (worker_id : Z) (name : string) (success : bool)
  (message : string) (deleted : option (list string)) (job : VideoJob.t)
  : effect :=
  Put (MsgComplete (JobComplete.mk worker_id name success message deleted
                      (VideoJob.video_duration job))).

Definition process_video (job : VideoJob.t) (config : WorkerConfig.t)
  (worker_id : Z) (w : world) : eff unit :=
  let video := VideoJob.video_path job in
  let name := display_name job in
  let file_existed := output_exists w in
  if file_existed && negb (VideoJob.overwrite_existing job) then
    perform (job_complete worker_id name true "SKIP (exists)" None job)
  else
    duration <- get_video_duration video (ffprobe w) ;;
    match duration with
    | None =>
        perform (job_complete worker_id name false "Duration read failed"
                   None job)
    | Some duration =>
        plan <- lift (sampling_plan duration config) ;;
        try_except
          (match ffmpeg w with
           | PopenRaises e => raise e
           | PopenRuns lines returncode =>
               perform (RunFfmpeg video plan config) ;;;
               read_lines worker_id name (plan_expected_frames plan)
                 (start_time w) lines ;;;
               if (returncode =? 0)%Z then
                 deleted_files <- cleanup_old_landscapes (siblings w) ;;
                 let message :=
                   if file_existed then "OK (overwritten)" else "OK" in
                 perform (job_complete worker_id name true message
                            (Some deleted_files) job)
               else
                 perform (job_complete worker_id name false "ffmpeg error"
                            None job)
           end)
          (fun e =>
             perform (job_complete worker_id name false (exn_str e) None
                        job))
    end.

(** How a worker's loop stands when the items it was given are used up. *)
Inductive worker_end :=
| Exited (rest : list (option VideoJob.t))
| Polling.

(** [worker_process] on the items it pops, in order.  An empty queue makes
    [get(timeout=1)] raise [Empty] and the loop polls again. *)
Fixpoint worker_process (worker_id : Z) (world_of : VideoJob.t -> world)
  (config : WorkerConfig.t) (job_queue : list (option VideoJob.t))
  : list effect * worker_end :=
  match job_queue with
  | [] => ([], Polling)
  | None :: rest => ([], Exited rest)
  | Some job :: rest =>
      let (t, r) := process_video job config worker_id (world_of job) in
      let (t', fin) := worker_process worker_id world_of config rest in
      match r with
      | Ok _ => ((t ++ t')%list, fin)
      | Raise e => ((t ++ PrintError worker_id e :: t')%list, fin)
      end
  end.


(** *** Batch start *)

(** Truth value of a float: zero is false. *)
Definition truthy (d : Q) : bool := negb (Qeq_bool d 0).

(** [x // m] and [x % m] on floats, for a positive [m]. *)
Definition py_floordiv (x m : Q) : Q := inject_Z (Qfloor (x / m)).
Definition py_mod (x m : Q) : Q := (x - m * inject_Z (Qfloor (x / m)))%Q.

(** The assignments of [start_processing] once the files are listed. *)
Definition start_processing (mp4_files : list Path)
  (self : JellyfinLandscapeGUI) : JellyfinLandscapeGUI :=
  match mp4_files with
  | [] => set_log (log self ++ [LogNoFiles])%list self
  | _ :: _ =>
      let self := set_total_videos (Z.of_nat (length mp4_files)) self in
      let self := set_completed_videos 0 self in
      let self := set_is_running true self in
      let self := set_is_stopping false self in
      let self := set_batch_start_time None self in
      let self := set_video_completion_times [] self in
      let self := set_total_video_duration 0%Q self in
      let self := set_processed_video_duration 0%Q self in
      let self := set_video_durations ∅ self in
      set_log (log self ++ [LogFound (total_videos self)])%list self
  end.

(** The loop of [_scan_videos_and_start]; [probe_of (str(video))] is what
    ffprobe answers when run on that argument, attempt by attempt. *)
Fixpoint _scan_videos (probe_of : string -> nat -> probe_outcome)
  (mp4_files : list Path) (self : JellyfinLandscapeGUI)
  : eff JellyfinLandscapeGUI :=
  match mp4_files with
  | [] => ret self
  | video :: rest =>
      duration <- get_video_duration video (probe_of (path_str video)) ;;
      let self :=
        match duration with
        | Some d =>
            if truthy d then
              let self :=
                set_video_durations
                  (<[path_str video := d]> (video_durations self)) self in
              set_total_video_duration (total_video_duration self + d)%Q self
            else self
        | None => self
        end in
      _scan_videos probe_of rest self
  end.

(** The jobs of [for idx, video in enumerate(mp4_files, 1)]. *)
Fixpoint make_jobs (mp4_files : list Path) (idx : Z) (folder : Path)
  (overwrite : bool) (self : JellyfinLandscapeGUI) : list VideoJob.t :=
  match mp4_files with
  | [] => []
  | video :: rest =>
      let duration :=
        default 0%Q (video_durations self !! path_str video) in
      VideoJob.mk video idx (total_videos self) (Some folder) overwrite
        duration
      :: make_jobs rest (idx + 1) folder overwrite self
  end.

(** [range(n)] shifted by one: the worker ids. *)
Definition worker_ids (n : Z) : list Z :=
  List.map (fun i => Z.of_nat i + 1) (List.seq 0 (Z.to_nat n)).

Definition _finalize_scan_and_start (mp4_files : list Path) (folder : Path)
  (overwrite : bool) (workers_var : Z) (now : Q)
  (self : JellyfinLandscapeGUI) : JellyfinLandscapeGUI :=
  let total := total_video_duration self in
  let hours := py_int (py_floordiv total 3600) in
  let minutes := py_int (py_floordiv (py_mod total 3600) 60) in
  let seconds := py_int (py_mod total 60) in
  let self :=
    set_log (log self ++ [LogTotalDuration hours minutes seconds;
                          LogStartingWorkers workers_var])%list self in
  let jobs := make_jobs mp4_files 1 folder overwrite self in
  let pills := List.repeat None (Z.to_nat workers_var) in
  let self := set_job_queue (List.map Some jobs ++ pills)%list self in
  let self := set_workers (worker_ids workers_var) self in
  set_batch_start_time (Some now) self.

(** The scan thread, then the callback it schedules.  An exception in the
    scan ends the thread before the callback is scheduled. *)
Definition _scan_videos_and_start (probe_of : string -> nat -> probe_outcome)
  (mp4_files : list Path) (folder : Path) (overwrite : bool)
  (workers_var : Z) (now : Q) (self : JellyfinLandscapeGUI)
  : eff JellyfinLandscapeGUI :=
  self <- _scan_videos probe_of mp4_files self ;;
  ret (_finalize_scan_and_start mp4_files folder overwrite workers_var now
         self).

(** *** Stopping *)

(** What one turn of the drain loop meets on [job_queue], the
    [multiprocessing.Queue] shared with the workers.  With items pending,
    [empty()] answers true while they are still in the buffer of the feeder
    thread, and [get_nowait()] raises [queue.Empty] when it finds the pipe
    without data or the reader lock held by a worker. *)
Inductive queue_turn :=
| Steady
| LooksEmpty
| GetRaises.

(** [job_queue.empty()] at a turn. *)
Definition queue_empty {A} (turn : queue_turn) (q : list A) : bool :=
  match q, turn with
  | [], _ => true
  | _ :: _, LooksEmpty => true
  | _ :: _, _ => false
  end.

(** [job_queue.get_nowait()] at a turn: [None] stands for [queue.Empty]. *)
Definition get_nowait {A} (turn : queue_turn) (q : list A)
  : option (A * list A) :=
  match q, turn with
  | x :: q', Steady => Some (x, q')
  | _, _ => None
  end.

(** [while not self.job_queue.empty(): try get_nowait() except: break].
    The turns past the end of [turns] are steady. *)
Fixpoint clear_queue {A} (turns : list queue_turn) (q : list A) : list A :=
  match q with
  | [] => []
  | _ :: rest =>
      let turn := List.hd Steady turns in
      if queue_empty turn q then q
      else match get_nowait turn q with
           | Some (_, _) => clear_queue (List.tl turns) rest
           | None => q
           end
  end.

Definition stop_processing (turns : list queue_turn)
  (self : JellyfinLandscapeGUI) : JellyfinLandscapeGUI :=
  if negb (is_running self) then self
  else
    let self := set_is_stopping true self in
    let self := set_is_running false self in
    let active_workers := Z.of_nat (length (workers self)) in
    let self := set_overall_label (LabelStopping active_workers) self in
    let self := set_log (log self ++ [LogStopping active_workers])%list self in
    let q := clear_queue turns (job_queue self) in
    let self := set_job_queue q self in
    set_job_queue
      (job_queue self ++ List.repeat None (length (workers self)))%list self.

Definition _finish_stop (self : JellyfinLandscapeGUI)
  : JellyfinLandscapeGUI :=
  let completed := completed_videos self in
  let total := total_videos self in
  let cancelled := total - completed in
  let self :=
    if 0 <? cancelled then
      set_log (log self ++ [LogStopped completed (Some cancelled)])%list self
    else set_log (log self ++ [LogStopped completed None])%list self in
  let self := set_workers [] self in
  let self := set_is_stopping false self in
  set_overall_label (LabelStopped completed total cancelled) self.

(** *** The monitor thread *)

(** [processing_complete] is scheduled from the branch that has read
    [batch_start_time] as a number. *)
Definition processing_complete (now : Q) (self : JellyfinLandscapeGUI)
  : JellyfinLandscapeGUI :=
  let elapsed := (now - default 0%Q (batch_start_time self))%Q in
  let timing :=
    if Qltb 0 elapsed then
      Some (strftime_HMS (py_int elapsed),
            (processed_video_duration self / elapsed)%Q)
    else None in
  let self :=
    set_log (log self ++ [LogAllDone (completed_videos self)
                            (total_videos self) timing])%list self in
  set_is_running false self.

(** A [JobComplete] received while stopping. *)
Definition on_complete_stopping (m : JobComplete.t) (alive_workers : Z)
  (self : JellyfinLandscapeGUI) : JellyfinLandscapeGUI * bool :=
  let self :=
    if JobComplete.success m
       && negb (String.eqb (JobComplete.message m) "SKIP (exists)") then
      set_completed_videos (completed_videos self + 1) self
    else self in
  let self := set_overall_label (LabelStopping alive_workers) self in
  if alive_workers =? 0 then (_finish_stop self, true)
  else (self, false).

(** The "Calculate duration-based ETA" block: the new label and progress,
    or the exception of a division. *)
Definition eta_report (elapsed_since_start : Q)
  (self : JellyfinLandscapeGUI) : outcome (Q * label) :=
  let remaining := total_videos self - completed_videos self in
  let remaining_duration :=
    (total_video_duration self - processed_video_duration self)%Q in
  let ratio :=
    py_div (inject_Z (completed_videos self))
      (inject_Z (total_videos self)) in
  let calculating :=
    match ratio with
    | Raise e => Raise e
    | Ok progress =>
        Ok (progress,
            LabelCalculating (completed_videos self) (total_videos self)
              remaining)
    end in
  if (2 <=? completed_videos self) || Qle_bool 10 elapsed_since_start then
    match py_div (processed_video_duration self) elapsed_since_start with
    | Raise e => Raise e
    | Ok processing_rate =>
        if Qltb 0 processing_rate then
          let eta_seconds := (remaining_duration / processing_rate)%Q in
          let eta_str := strftime_HMS (py_int eta_seconds) in
          let speed_multiplier := processing_rate in
          match ratio with
          | Raise e => Raise e
          | Ok progress =>
              Ok (progress,
                  LabelEta (completed_videos self) (total_videos self)
                    remaining eta_str speed_multiplier)
          end
        else calculating
    end
  else calculating.

(** A [JobComplete] received while running.  The fields keep what was
    assigned before an exception. *)
Definition on_complete_running (m : JobComplete.t) (now : Q)
  (self : JellyfinLandscapeGUI) : JellyfinLandscapeGUI * outcome unit :=
  let self :=
    set_processed_video_duration
      (processed_video_duration self + JobComplete.video_duration m)%Q
      self in
  match batch_start_time self with
  | None => (self, Raise TypeError)
  | Some t0 =>
      let elapsed_since_start := (now - t0)%Q in
      let self :=
        set_video_completion_times
          (video_completion_times self ++ [elapsed_since_start])%list self in
      let self := set_completed_videos (completed_videos self + 1) self in
      let deleted :=
        if JobComplete.success m
        then default [] (JobComplete.deleted_files m) else [] in
      let self :=
        set_log (log self ++ [LogJob (JobComplete.success m)
                                (completed_videos self) (total_videos self)
                                (JobComplete.video_name m)
                                (JobComplete.message m) deleted])%list
          self in
      match eta_report elapsed_since_start self with
      | Raise e => (self, Raise e)
      | Ok (progress, text) =>
          let self := set_overall_progress progress self in
          let self := set_overall_label text self in
          if total_videos self <=? completed_videos self then
            (processing_complete now self, Ok tt)
          else (self, Ok tt)
      end
  end.

(** One turn of the [while] loop of [monitor_progress]: [got] is what
    [progress_queue.get(timeout=0.1)] returns ([None] for [Empty]), [now]
    what [time.time()] reads and [alive_workers] how many workers
    [is_alive()] counts.  The boolean tells whether the loop breaks.

    The handler of [except Exception as e] schedules a callback that reads
    [e] when the main loop calls it, after the [except] clause has ended
    and unbound the name: the callback raises [NameError] there and
    [self.log] is not called.  The turn that raised logs nothing. *)
Definition monitor_turn (got : option msg) (now : Q) (alive_workers : Z)
  (self : JellyfinLandscapeGUI) : JellyfinLandscapeGUI * bool :=
  match got with
  | Some (MsgProgress _) => (self, false)
  | Some (MsgComplete m) =>
      if is_stopping self then on_complete_stopping m alive_workers self
      else
        match on_complete_running m now self with
        | (self, Ok _) => (self, false)
        | (self, Raise _) => (self, false)
        end
  | None =>
      if is_stopping self then
        if alive_workers =? 0 then (_finish_stop self, true)
        else (self, false)
      else (self, false)
  end.

Fixpoint monitor_progress (inputs : list (option msg * Q * Z))
  (self : JellyfinLandscapeGUI) : JellyfinLandscapeGUI :=
  match inputs with
  | [] => self
  | (got, now, alive_workers) :: rest =>
      if is_running self || is_stopping self then
        let (self, broke) := monitor_turn got now alive_workers self in
        if broke then self else monitor_progress rest self
      else self
  end.


(** *** The panels in the monitor *)

(** The panels that [_finalize_scan_and_start] creates. *)
Definition new_panels (workers_var : Z) : list WorkerPanel.t :=
  List.map (fun id => WorkerPanel.mk id PanelIdle 0%Q StatsIdle)
    (worker_ids workers_var).

(** What one turn of [monitor_progress] does to the panels, with the
    calls of [processing_complete] and [_finish_stop] that it schedules. *)
Definition monitor_turn_panels (got : option msg) (now : Q)
  (alive_workers : Z) (self : JellyfinLandscapeGUI)
  (worker_panels : list WorkerPanel.t) : list WorkerPanel.t :=
  match got with
  | Some (MsgProgress u) =>
      on_panel (ProgressUpdate.worker_id u) (update_progress u) worker_panels
  | Some (MsgComplete m) =>
      if is_stopping self then
        let shown := show_result m worker_panels in
        if alive_workers =? 0 then List.map set_idle shown else shown
      else
        match batch_start_time self with
        | None => worker_panels
        | Some _ =>
            let shown := show_result m worker_panels in
            match on_complete_running m now self with
            | (self', Ok _) =>
                if total_videos self' <=? completed_videos self'
                then List.map set_idle shown else shown
            | (_, Raise _) => shown
            end
        end
  | None =>
      if is_stopping self && (alive_workers =? 0)
      then List.map set_idle worker_panels else worker_panels
  end.

(** *** Reading the scan, the trace and the queue *)

(** The duration that the scan records for [video]: the probed one unless
    it is missing or zero. *)
Definition recorded (probe_of : string -> nat -> probe_outcome)
  (video : Path) : option Q :=
  match snd (get_video_duration video (probe_of (path_str video))) with
  | Ok (Some d) => if truthy d then Some d else None
  | _ => None
  end.

(** The seconds slept in a trace. *)
Fixpoint slept (t : list effect) : Q :=
  match t with
  | [] => 0%Q
  | Sleep seconds :: rest => (seconds + slept rest)%Q
  | _ :: rest => slept rest
  end.

Definition results_of (t : list effect) : list JobComplete.t :=
  omap (fun x => match x with
                 | Put (MsgComplete c) => Some c
                 | _ => None
                 end) t.

Definition updates_of (t : list effect) : list ProgressUpdate.t :=
  omap (fun x => match x with
                 | Put (MsgProgress u) => Some u
                 | _ => None
                 end) t.

Definition unlinked (t : list effect) : list string :=
  omap (fun x => match x with
                 | Unlink name => Some name
                 | _ => None
                 end) t.

Definition jobs_of (q : list (option VideoJob.t)) : list VideoJob.t :=
  omap id q.

(** The names that [cleanup_old_landscapes] deletes: the siblings that
    are not WebP files and that [unlink] can remove. *)
Definition to_delete (files : list sibling) : list string :=
  List.map sib_name
    (List.filter
       (fun file =>
          negb (String.eqb (lower (sib_suffix file)) ".webp")
          && sib_unlink_ok file) files).

(** What every [ProgressUpdate] of a job has. *)
Definition update_of_job (worker_id : Z) (name : string)
  (expected_frames : Z) (u : ProgressUpdate.t) : Prop :=
  ProgressUpdate.worker_id u = worker_id /\
  ProgressUpdate.video_name u = name /\
  ProgressUpdate.total_frames u = expected_frames /\
  (ProgressUpdate.progress u <= 100)%Q.


(** *** Reading one attempt of the probe *)

(** What one attempt amounts to in [get_video_duration]. *)
Inductive attempt_result :=
| Accepted (d : Q)
| Rejected
| Raised (e : exn).

Definition classify (o : probe_outcome) : attempt_result :=
  match o with
  | ProbeRaises e => Raised e
  | ProbeStdout stdout =>
      let output := strip stdout in
      if String.eqb output "" then Rejected
      else match float_of_string output with
           | Some d => Accepted d
           | None => Rejected
           end
  end.

(** The effects of [k] rejected attempts. *)
Fixpoint attempt_trace (video_path : Path) (k : nat) : list effect :=
  match k with
  | O => []
  | S k' =>
      RunFfprobe video_path :: Sleep (1 # 2) :: attempt_trace video_path k'
  end.

Definition is_ffprobe_run (x : effect) : bool :=
  match x with
  | RunFfprobe _ => true
  | _ => false
  end.

Definition count_ffprobe (t : list effect) : nat :=
  length (List.filter is_ffprobe_run t).

(** *** Reading the pre-pass *)

(** The probe can be run: none of the three attempts raises. *)
Definition probe_runs (stub : nat -> probe_outcome) : Prop :=
  forall k, (k < 3)%nat -> exists stdout, stub k = ProbeStdout stdout.

(** What [get_video_duration] returns for [video] in the pre-pass. *)
Definition probed (probe_of : string -> nat -> probe_outcome)
  (video : Path) : option Q :=
  match snd (get_video_duration video (probe_of (path_str video))) with
  | Ok r => r
  | Raise _ => None
  end.

Definition Qsum (l : list Q) : Q := List.fold_right Qplus 0%Q l.

(** ** Concrete data for the examples *)

Definition movie : Path := ["media"; "films"; "a.mp4"].

(** ffprobe prints nothing, then a message, then a duration. *)
Definition fails_twice (attempt : nat) : probe_outcome :=
  match attempt with
  | O => ProbeStdout ""
  | S O => ProbeStdout "N/A
"
  | _ => ProbeStdout "12.5
"
  end.

(** ffprobe prints a zero, resp. a negative, duration at once. *)
Definition prints_zero (attempt : nat) : probe_outcome := ProbeStdout "0
".
Definition prints_negative (attempt : nat) : probe_outcome :=
  ProbeStdout "-2
".

(** ffprobe cannot be started. *)
Definition not_installed (attempt : nat) : probe_outcome :=
  ProbeRaises (OSError "[Errno 2] No such file or directory: 'ffprobe'").

Definition first_job : VideoJob.t :=
  VideoJob.mk movie 1 1 (Some ["media"]) false 0.

(** The output file is already there. *)
Definition world_with_output : world :=
  mkWorld true fails_twice (PopenRuns [] 0) 0 (GlobFinds []).

(** No output file yet, and no ffprobe to run. *)
Definition world_without_ffprobe : world :=
  mkWorld false not_installed (PopenRuns [] 0) 0 (GlobFinds []).

(** The defaults of [WorkerConfig], with the 5 percent of the GUI. *)
Definition default_config : WorkerConfig.t :=
  WorkerConfig.mk 10 480 50 10 (round64 (3 # 10)) (round64 (5 # 100)) 0
    (round64 (3 # 100)).


(** One interval, clips of 0.29 s at 100 frames per second, no bridge
    sampling. *)
Definition fine_clip_config : WorkerConfig.t :=
  WorkerConfig.mk 100 480 50 1 (round64 (29 # 100)) 0 0 (round64 (3 # 100)).

(** The defaults with bridge windows of 0.04 s. *)
Definition wide_bridge_config : WorkerConfig.t :=
  WorkerConfig.mk 10 480 50 10 (round64 (3 # 10)) (round64 (5 # 100)) 0
    (round64 (4 # 100)).

Definition plan_of (r : outcome SamplingPlan) : option SamplingPlan :=
  match r with
  | Ok p => Some p
  | Raise _ => None
  end.

(** Bridge sampling by absolute interval only. *)
Definition abs_bridge_config : WorkerConfig.t :=
  WorkerConfig.mk 10 480 50 10 (1 # 4) 0 (1 # 2) (1 # 8).

Definition second_job : VideoJob.t :=
  VideoJob.mk ["media"; "films"; "b.mp4"] 2 3 (Some ["media"]) false 100.

Definition third_job : VideoJob.t :=
  VideoJob.mk ["media"; "films"; "c.mp4"] 3 3 (Some ["media"]) false 100.

(** A batch of three videos of 100 s each, started at time 0 with two
    workers; one video is done, two jobs and the pills are still queued. *)
Definition running_state : JellyfinLandscapeGUI :=
  mkGUI 3 1 true false (Some 0%Q) [5%Q] 300 100 ∅
    [Some second_job; Some third_job; None; None] [1; 2] (1 # 3)
    (LabelCalculating 1 3 2) [].

Definition failed_result : JobComplete.t :=
  JobComplete.mk 1 "films/b.mp4" false "ffmpeg error" None 100.

Definition skipped_result : JobComplete.t :=
  JobComplete.mk 2 "films/c.mp4" true "SKIP (exists)" None 100.

Definition ok_result : JobComplete.t :=
  JobComplete.mk 1 "films/b.mp4" true "OK" (Some []) 100.

Definition movie_b : Path := ["media"; "films"; "b.mp4"].

(** ffprobe reads nothing from a.mp4 and 12.5 s from any other file. *)
Definition probe_a_fails (arg : string) (attempt : nat) : probe_outcome :=
  if String.eqb arg "media/films/a.mp4" then ProbeStdout ""
  else ProbeStdout "12.5
".

(** ffprobe reads 12.5 s from a.mp4 and cannot be started on any other
    file. *)
Definition probe_b_raises (arg : string) (attempt : nat) : probe_outcome :=
  if String.eqb arg "media/films/a.mp4" then ProbeStdout "12.5
"
  else ProbeRaises (OSError "[Errno 12] Cannot allocate memory").

Definition fresh_gui : JellyfinLandscapeGUI :=
  mkGUI 0 0 false false None [] 0 0 ∅ [] [] 0 LabelReady [].

(** ffprobe prints nothing once, then cannot be run. *)
Definition rejects_then_raises (attempt : nat) : probe_outcome :=
  match attempt with
  | O => ProbeStdout ""
  | _ => ProbeRaises (OSError "[Errno 12] Cannot allocate memory")
  end.

Definition prints_duration (attempt : nat) : probe_outcome :=
  ProbeStdout "12.5
".

Definition prints_nothing (attempt : nat) : probe_outcome := ProbeStdout "".

Definition overwrite_job : VideoJob.t :=
  VideoJob.mk movie 1 1 (Some ["media"]) true 0.

(** The siblings of a.mp4: an old GIF, a WebP in capitals and a JPEG that
    cannot be removed. *)
Definition old_outputs : list sibling :=
  [mkSibling "a-landscape.gif" ".gif" true;
   mkSibling "a-landscape.WEBP" ".WEBP" true;
   mkSibling "a-landscape.jpg" ".jpg" false].

(** A video whose stem is not a pattern that [glob] accepts. *)
Definition starred_job : VideoJob.t :=
  VideoJob.mk ["media"; "films"; "a**.mp4"] 1 1 (Some ["media"]) false 0.

Definition one_status_line : list (string * Q) := [("frame=45
", 9%Q)].

(** The output is there and is overwritten; ffmpeg succeeds. *)
Definition world_overwrite : world :=
  mkWorld true prints_duration (PopenRuns one_status_line 0) 0
    (GlobFinds old_outputs).

Definition world_unreadable : world :=
  mkWorld false prints_nothing (PopenRuns one_status_line 0) 0
    (GlobFinds old_outputs).


Definition world_without_ffmpeg : world :=
  mkWorld false prints_duration
    (PopenRaises (OSError "[Errno 2] No such file or directory: 'ffmpeg'"))
    0 (GlobFinds old_outputs).

Definition world_plain : world :=
  mkWorld false prints_duration (PopenRuns one_status_line 0) 0
    (GlobFinds []).

(** ffmpeg succeeds on the starred video; listing its old outputs
    raises. *)
Definition world_starred : world :=
  mkWorld false prints_duration (PopenRuns one_status_line 0) 0
    (GlobRaises
       (ValueError
          "Invalid pattern: '**' can only be an entire path component")).

Definition zero_intervals_config : WorkerConfig.t :=
  WorkerConfig.mk 10 480 50 0 (round64 (3 # 10)) (round64 (5 # 100)) 0
    (round64 (3 # 100)).

(** The entries of the GUI as it starts. *)
Definition default_entries : Entries.t :=
  Entries.mk "/media" 2 10 480 50 10 (round64 (3 # 10)) 5 0
    (round64 (3 # 100)) false false.

Definition two_results : list (JobComplete.t * Q * Z) :=
  [(ok_result, 20%Q, 2); (ok_result, 30%Q, 1)].

Definition one_panel_busy : list WorkerPanel.t :=
  [WorkerPanel.mk 1 (PanelName "films/b.mp4") (1 # 2)
     (Stats 50 "00:00:09" 5);
   WorkerPanel.mk 2 PanelIdle 0 StatsIdle].

(** A settings file whose folder is a number. *)
Definition odd_settings : gmap string value :=
  <["folder" := VInt 3]> (<["fps" := VInt 24]> ∅).

Definition some_vars : Vars.t :=
  Vars.mk (VStr "/home") (VInt 2) (VInt 10) (VInt 480) (VInt 50) (VInt 10)
    (VFloat (round64 (3 # 10))) (VFloat 5) (VFloat 0)
    (VFloat (round64 (3 # 100))) (VBool false) (VBool false).

(** ** Numbers: auxiliary facts *)

Lemma Qltb_lt (x y : Q) : Qltb x y = true <-> (x < y)%Q.
Proof.
  unfold Qltb. rewrite negb_true_iff.
  destruct (Qle_bool y x) eqn:E.
  - apply Qle_bool_iff in E. split; [discriminate | intros H; lra].
  - split; [intros _ | reflexivity].
    apply Qnot_le_lt. intros H. apply Qle_bool_iff in H. congruence.
Qed.

Lemma Qltb_nlt (x y : Q) : Qltb x y = false <-> ~ (x < y)%Q.
Proof.
  rewrite <- Qltb_lt. destruct (Qltb x y); split; congruence.
Qed.

Lemma inject_Z_nonzero (z : Z) : z <> 0 -> ~ (inject_Z z == 0)%Q.
Proof. unfold Qeq. simpl. lia. Qed.

Lemma py_div_ok (x y : Q) : ~ (y == 0)%Q -> py_div x y = Ok (x / y)%Q.
Proof.
  intros H. unfold py_div.
  destruct (Qeq_bool y 0) eqn:E; [| reflexivity].
  apply Qeq_bool_iff in E. contradiction.
Qed.

Lemma py_div_zero (x y : Q) : (y == 0)%Q -> py_div x y = Raise ZeroDivisionError.
Proof.
  intros H. unfold py_div. apply Qeq_bool_iff in H. now rewrite H.
Qed.

(** [int()] is the floor on non-negative values and the ceiling below. *)
Lemma py_int_nonneg (x : Q) : (0 <= x)%Q -> py_int x = Qfloor x.
Proof.
  destruct x as [n d]. unfold Qle, py_int, Qfloor. simpl. intros H.
  apply Z.quot_div_nonneg; lia.
Qed.

Lemma py_int_neg (x : Q) : (x <= 0)%Q -> py_int x = - Qfloor (- x).
Proof.
  destruct x as [n d]. unfold Qle, py_int, Qfloor, Qopp. simpl. intros H.
  rewrite <- (Z.opp_involutive n) at 1. rewrite Z.quot_opp_l by lia.
  f_equal. apply Z.quot_div_nonneg; lia.
Qed.


Lemma round_nearest_cases (x : Q) :
  round_nearest x = Qfloor x \/ round_nearest x = Qfloor x + 1.
Proof.
  unfold round_nearest.
  destruct (_ ?= _)%Q; [destruct (Z.even _) | |]; auto.
Qed.


(** ** binary64: auxiliary facts *)

Lemma round_nearest_comp (x y : Q) :
  (x == y)%Q -> round_nearest x = round_nearest y.
Proof.
  intros H. unfold round_nearest. rewrite (Qfloor_comp _ _ H).
  now rewrite H.
Qed.

Lemma round_nearest_Z (z : Z) : round_nearest (inject_Z z) = z.
Proof.
  unfold round_nearest. rewrite Qfloor_Z.
  assert (H : ((inject_Z z - inject_Z z) ?= (1 # 2))%Q = Lt).
  { apply -> Qlt_alt. lra. }
  now rewrite H.
Qed.

Lemma round_nearest_between (x : Q) (lo hi : Z) :
  (inject_Z lo <= x)%Q -> (x <= inject_Z hi)%Q ->
  lo <= round_nearest x <= hi.
Proof.
  intros Hlo Hhi.
  assert (Hf1 : lo <= Qfloor x).
  { rewrite <- (Qfloor_Z lo). now apply Qfloor_resp_le. }
  assert (Hf2 : Qfloor x <= hi).
  { rewrite <- (Qfloor_Z hi). now apply Qfloor_resp_le. }
  destruct (Z.eq_dec (Qfloor x) hi) as [E | E].
  - assert (Hx : (x == inject_Z hi)%Q).
    { apply Qle_antisym; [assumption |]. rewrite <- E. apply Qfloor_le. }
    rewrite (round_nearest_comp _ _ Hx), round_nearest_Z. lia.
  - destruct (round_nearest_cases x); lia.
Qed.

Lemma two_power_pos (k : Z) : (0 < 2 ^ k)%Q.
Proof. apply Qpower_0_lt. reflexivity. Qed.

Lemma two_power_nonzero (k : Z) : ~ (2 ^ k == 0)%Q.
Proof. pose proof (two_power_pos k). lra. Qed.

Lemma two_power_Z (n : Z) : 0 <= n -> (inject_Z (2 ^ n) == 2 ^ n)%Q.
Proof. intros H. now rewrite Zpower_Qpower. Qed.


(** [Qlog2] is the exponent of the leading binary digit. *)
Lemma Qlog2_spec (q : Q) :
  (0 < q)%Q -> (2 ^ Qlog2 q <= q)%Q /\ (q < 2 ^ (Qlog2 q + 1))%Q.
Proof.
  intros Hq. destruct q as [n d].
  assert (Hn : 0 < n) by (unfold Qlt in Hq; simpl in Hq; lia).
  unfold Qlog2. cbn [Qnum Qden].
  set (a := Z.log2 n). set (b := Z.log2 (Z.pos d)).
  assert (Ha0 : 0 <= a) by apply Z.log2_nonneg.
  assert (Hb0 : 0 <= b) by apply Z.log2_nonneg.
  destruct (Z.log2_spec n Hn) as [Ha1 Ha2]. fold a in Ha1, Ha2.
  destruct (Z.log2_spec (Z.pos d) eq_refl) as [Hb1 Hb2]. fold b in Hb1, Hb2.
  rewrite <- Z.add_1_r in Ha2, Hb2.
  assert (HA : (2 ^ a == inject_Z (2 ^ a))%Q) by now rewrite two_power_Z.
  assert (HB : (2 ^ b == inject_Z (2 ^ b))%Q) by now rewrite two_power_Z.
  assert (Hpa : 0 < 2 ^ a) by (apply Z.pow_pos_nonneg; lia).
  assert (Hpb : 0 < 2 ^ b) by (apply Z.pow_pos_nonneg; lia).
  rewrite Z.pow_add_r in Ha2, Hb2 by lia. change (2 ^ 1) with 2 in Ha2, Hb2.
  assert (Hk : forall j, (2 ^ (a - b + j) == 2 ^ j * inject_Z (2 ^ a) / inject_Z (2 ^ b))%Q).
  { intros j. rewrite Qpower_plus, Qpower_minus by discriminate.
    rewrite HA, HB. field. rewrite <- HB. apply two_power_nonzero. }
  assert (Hq' : (n # d == inject_Z n / inject_Z (Z.pos d))%Q) by apply Qmake_Qdiv.
  assert (Hd : (0 < inject_Z (Z.pos d))%Q) by (unfold Qlt; simpl; lia).
  assert (HpB : (0 < inject_Z (2 ^ b))%Q) by (unfold Qlt; simpl; lia).
  destruct (Qle_bool (2 ^ (a - b)) (n # d)) eqn:E.
  - apply Qle_bool_iff in E. split; [exact E |].
    rewrite Hk, Hq'. change (2 ^ 1)%Q with 2%Q.
    apply Qlt_shift_div_r; [exact Hd |].
    unfold Qdiv. rewrite <- Qmult_assoc, (Qmult_comm (/ _)), Qmult_assoc.
    apply Qlt_shift_div_l; [exact HpB |].
    rewrite <- !inject_Z_mult. change 2%Q with (inject_Z 2).
    rewrite <- !inject_Z_mult. rewrite <- Zlt_Qlt. nia.
  - assert (E' : ~ (2 ^ (a - b) <= n # d)%Q).
    { intros H. apply Qle_bool_iff in H. congruence. }
    apply Qnot_le_lt in E'.
    replace (a - b - 1 + 1) with (a - b) by lia. split; [| exact E'].
    replace (a - b - 1) with (a - b + -1) by lia.
    rewrite Hk, Hq'. change (2 ^ (-1))%Q with (1 # 2)%Q.
    apply Qle_shift_div_l; [exact Hd |].
    unfold Qdiv. rewrite <- Qmult_assoc, (Qmult_comm (/ _)), Qmult_assoc.
    apply Qle_shift_div_r; [exact HpB |].
    assert (Hh : ((1 # 2) * inject_Z (2 ^ a) * inject_Z (Z.pos d)
                  == inject_Z (2 ^ a * Z.pos d) / 2)%Q)
      by (rewrite inject_Z_mult; field).
    rewrite Hh.
    apply Qle_shift_div_r; [reflexivity |].
    change 2%Q with (inject_Z 2).
    rewrite <- !inject_Z_mult. rewrite <- Zle_Qle. nia.
Qed.

Lemma Qlog2_unique (q : Q) (k : Z) :
  (2 ^ k <= q)%Q -> (q < 2 ^ (k + 1))%Q -> Qlog2 q = k.
Proof.
  intros H1 H2.
  assert (Hq : (0 < q)%Q) by (pose proof (two_power_pos k); lra).
  destruct (Qlog2_spec q Hq) as [H3 H4].
  assert (k < Qlog2 q + 1).
  { apply (Qpower_lt_compat_l_inv 2); [lra | reflexivity]. }
  assert (Qlog2 q < k + 1).
  { apply (Qpower_lt_compat_l_inv 2); [lra | reflexivity]. }
  lia.
Qed.

Lemma Qlog2_comp (x y : Q) : (0 < x)%Q -> (x == y)%Q -> Qlog2 x = Qlog2 y.
Proof.
  intros Hx H. symmetry. destruct (Qlog2_spec x Hx).
  apply Qlog2_unique; rewrite <- H; assumption.
Qed.

Lemma Qeq_bool_false (x y : Q) : Qeq_bool x y = false <-> ~ (x == y)%Q.
Proof.
  split.
  - intros H E. apply Qeq_bool_iff in E. congruence.
  - intros H. destruct (Qeq_bool x y) eqn:E; [| reflexivity].
    apply Qeq_bool_iff in E. contradiction.
Qed.

Lemma Qabs_pos_iff (q : Q) : ~ (q == 0)%Q -> (0 < Qabs q)%Q.
Proof.
  intros H. pose proof (Qabs_nonneg q) as H0.
  apply Qle_lteq in H0. destruct H0 as [H0 | H0]; [exact H0 |].
  exfalso. apply H.
  assert (H1 : (Qabs q <= 0)%Q) by (rewrite <- H0; apply Qle_refl).
  apply Qabs_Qle_condition in H1. lra.
Qed.

Lemma round64_comp (x y : Q) : (x == y)%Q -> round64 x = round64 y.
Proof.
  intros H. unfold round64.
  destruct (Qeq_bool x 0) eqn:Ex.
  - apply Qeq_bool_iff in Ex. rewrite H in Ex. apply Qeq_bool_iff in Ex.
    now rewrite Ex.
  - apply Qeq_bool_false in Ex.
    assert (Ey : Qeq_bool y 0 = false).
    { apply Qeq_bool_false. now rewrite <- H. }
    rewrite Ey.
    rewrite (Qlog2_comp (Qabs x) (Qabs y));
      [| now apply Qabs_pos_iff | now rewrite H].
    apply Qred_complete.
    rewrite (round_nearest_comp (x / _) (y / _)) by now rewrite H.
    reflexivity.
Qed.

Lemma Qabs_inject_Z (m : Z) : Qabs (inject_Z m) = inject_Z (Z.abs m).
Proof. reflexivity. Qed.

Lemma Qlog2_scaled (m e : Z) :
  m <> 0 -> Qlog2 (Qabs (inject_Z m * 2 ^ e)) = Z.log2 (Z.abs m) + e.
Proof.
  intros Hm.
  assert (Habs : (Qabs (inject_Z m * 2 ^ e) == inject_Z (Z.abs m) * 2 ^ e)%Q).
  { rewrite Qabs_Qmult, Qabs_inject_Z.
    rewrite (Qabs_pos (2 ^ e)); [reflexivity |].
    apply Qlt_le_weak, two_power_pos. }
  destruct (Z.log2_spec (Z.abs m)) as [H1 H2]; [lia |].
  rewrite <- Z.add_1_r in H2.
  pose proof (Z.log2_nonneg (Z.abs m)) as Hl.
  pose proof (two_power_pos e) as He.
  apply Qlog2_unique; rewrite Habs.
  - rewrite Qpower_plus by discriminate.
    apply Qmult_le_compat_r; [| lra].
    rewrite <- two_power_Z by assumption. now rewrite <- Zle_Qle.
  - replace (Z.log2 (Z.abs m) + e + 1) with (Z.log2 (Z.abs m) + 1 + e) by lia.
    rewrite Qpower_plus by discriminate.
    apply Qmult_lt_compat_r; [exact He |].
    rewrite <- two_power_Z by lia. now rewrite <- Zlt_Qlt.
Qed.

(** A binary64 value is a fixed point of the rounding. *)
Lemma round64_binary64 (q : Q) : binary64 q -> round64 q = Qred q.
Proof.
  intros (m & e & Hm & He & Hq).
  rewrite (round64_comp _ _ Hq), (Qred_complete _ _ Hq).
  unfold round64.
  destruct (Qeq_bool (inject_Z m * 2 ^ e) 0) eqn:E0.
  - apply Qeq_bool_iff in E0. symmetry.
    change 0%Q with (Qred 0). now apply Qred_complete.
  - apply Qeq_bool_false in E0.
    assert (Hm0 : m <> 0).
    { intros ->. apply E0. ring. }
    rewrite Qlog2_scaled by assumption.
    set (e' := Z.max (Z.log2 (Z.abs m) + e - 52) (-1074)).
    assert (Hl : Z.log2 (Z.abs m) < 53).
    { apply Z.log2_lt_pow2; lia. }
    assert (He' : e' <= e) by (unfold e'; lia).
    apply Qred_complete.
    assert (Hx : (inject_Z m * 2 ^ e / 2 ^ e'
                  == inject_Z (m * 2 ^ (e - e')))%Q).
    { rewrite inject_Z_mult, two_power_Z by lia.
      rewrite Qpower_minus by discriminate.
      field. apply two_power_nonzero. }
    rewrite (round_nearest_comp _ _ Hx), round_nearest_Z.
    rewrite <- Hx. field. apply two_power_nonzero.
Qed.


Lemma two_power_le (n m : Z) : n <= m -> (2 ^ n <= 2 ^ m)%Q.
Proof. intros H. apply Qpower_le_compat_l; [exact H | discriminate]. Qed.

(** The scaled value that [round64] rounds to an integer lies between
    [-2 ^ 53] and [2 ^ 53], at or beyond one when [q] is at least the least
    subnormal. *)
Lemma round64_scaled_bounds (q : Q) :
  ~ (q == 0)%Q ->
  let e := Z.max (Qlog2 (Qabs q) - 52) (-1074) in
  (Qabs (q / 2 ^ e) <= inject_Z (2 ^ 53))%Q /\
  ((2 ^ (-1074) <= Qabs q)%Q -> (1 <= Qabs (q / 2 ^ e))%Q).
Proof.
  intros Hq e.
  destruct (Qlog2_spec (Qabs q) (Qabs_pos_iff q Hq)) as [H1 H2].
  pose proof (two_power_pos e) as He.
  assert (Habs : (Qabs (q / 2 ^ e) == Qabs q / 2 ^ e)%Q).
  { unfold Qdiv. rewrite Qabs_Qmult, Qabs_Qinv.
    rewrite (Qabs_pos (2 ^ e)); [reflexivity | lra]. }
  rewrite Habs. split.
  - apply Qle_shift_div_r; [exact He |].
    rewrite two_power_Z by lia. rewrite <- Qpower_plus by discriminate.
    apply Qlt_le_weak. eapply Qlt_le_trans; [exact H2 |].
    apply two_power_le. unfold e. lia.
  - intros Hmin. apply Qle_shift_div_l; [exact He |]. rewrite Qmult_1_l.
    eapply Qle_trans; [| exact H1]. apply two_power_le.
    assert (-1074 < Qlog2 (Qabs q) + 1).
    { apply (Qpower_lt_compat_l_inv 2); [lra | reflexivity]. }
    unfold e. lia.
Qed.


Lemma round_nearest_nonzero (x : Q) : (1 <= Qabs x)%Q -> round_nearest x <> 0.
Proof.
  intros H. destruct (Qlt_le_dec x 0) as [Hx | Hx].
  - rewrite Qabs_neg in H by lra.
    assert (H1 : (x <= inject_Z (-1))%Q) by (change (inject_Z (-1)) with (-1)%Q; lra).
    assert (H0 : (inject_Z (Qfloor x) <= x)%Q) by apply Qfloor_le.
    pose proof (round_nearest_between x (Qfloor x) (-1) H0 H1). lia.
  - rewrite Qabs_pos in H by assumption.
    assert (H1 : (inject_Z 1 <= x)%Q) by (change (inject_Z 1) with 1%Q; lra).
    assert (H0 : (x <= inject_Z (Qfloor x + 1))%Q)
      by apply Qlt_le_weak, Qlt_floor.
    pose proof (round_nearest_between x 1 (Qfloor x + 1) H1 H0). lia.
Qed.




(** Nothing at or above the least subnormal is rounded to zero. *)
Lemma round64_nonzero (q : Q) :
  (2 ^ (-1074) <= Qabs q)%Q -> ~ (round64 q == 0)%Q.
Proof.
  intros Hmin.
  assert (Hq : ~ (q == 0)%Q).
  { intros H. rewrite H in Hmin. pose proof (two_power_pos (-1074)).
    change (Qabs 0) with 0%Q in Hmin. lra. }
  unfold round64. rewrite (proj2 (Qeq_bool_false q 0) Hq).
  destruct (round64_scaled_bounds q Hq) as [_ Hb]. specialize (Hb Hmin).
  apply round_nearest_nonzero in Hb.
  rewrite Qred_correct. intros H.
  apply Qmult_integral in H. destruct H as [H | H].
  - apply Hb. unfold Qeq in H. simpl in H. lia.
  - now apply two_power_nonzero in H.
Qed.

Lemma float_of_int_nonzero (z : Z) : z <> 0 -> ~ (float_of_int z == 0)%Q.
Proof.
  intros Hz. apply round64_nonzero. rewrite Qabs_inject_Z.
  apply Qle_trans with 1%Q.
  - change 1%Q with (2 ^ 0)%Q. apply two_power_le. lia.
  - change 1%Q with (inject_Z 1). rewrite <- Zle_Qle. lia.
Qed.

Lemma float_of_int_small (z : Z) :
  Z.abs z < 2 ^ 53 -> float_of_int z = inject_Z z.
Proof.
  intros Hz. unfold float_of_int. rewrite round64_binary64.
  - unfold Qred, inject_Z.
    pose proof (Z.ggcd_gcd z 1) as Hg.
    pose proof (Z.ggcd_correct_divisors z 1) as Hd.
    destruct (Z.ggcd z 1) as [g [aa bb]]. simpl in Hg, Hd.
    rewrite Z.gcd_1_r in Hg. subst g. destruct Hd as [Ha Hb].
    replace aa with z by lia. replace bb with 1 by lia. reflexivity.
  - exists z, 0. split; [exact Hz |]. split; [lia |].
    change (2 ^ 0)%Q with 1%Q. ring.
Qed.

(** ** The sampling plan *)

Lemma fdiv_ok (x y : Q) : ~ (y == 0)%Q -> fdiv x y = Ok (round64 (x / y)).
Proof.
  intros H. unfold fdiv. now rewrite (proj2 (Qeq_bool_false y 0) H).
Qed.

Lemma fdiv_zero (x y : Q) : (y == 0)%Q -> fdiv x y = Raise ZeroDivisionError.
Proof.
  intros H. unfold fdiv. apply Qeq_bool_iff in H. now rewrite H.
Qed.

Lemma sampling_plan_ok (D : Q) (C : WorkerConfig.t) :
  WorkerConfig.interval_count C <> 0 ->
  sampling_plan D C =
    Ok (mkPlan (spec_interval D C) (spec_bridge_interval D C)
          (Z.max 1 (py_int (fadd (spec_main_units C)
                                 (spec_bridge_units D C))))).
Proof.
  intros Hic. unfold sampling_plan, interval.
  rewrite fdiv_ok by now apply float_of_int_nonzero.
  change (bridge_interval _ C) with (spec_bridge_interval D C).
  unfold bridge_frames, spec_bridge_units.
  destruct (Qltb 0 (spec_bridge_interval D C)) eqn:E; [| reflexivity].
  apply Qltb_lt in E. rewrite fdiv_ok by lra. reflexivity.
Qed.

(** The expected frame count is never below one. *)
Lemma plan_expected_frames_positive (duration : Q) (config : WorkerConfig.t)
  (p : SamplingPlan) :
  sampling_plan duration config = Ok p -> 1 <= plan_expected_frames p.
Proof.
  unfold sampling_plan.
  destruct (interval duration config); [| discriminate].
  destruct (bridge_frames _ _ _); [| discriminate].
  intros [= <-]. cbn. lia.
Qed.

(** The example of the specification: a duration of 100 s with the default
    settings gives 30 main and 60 bridge frames. *)
Example sampling_plan_default :
  sampling_plan 100 default_config = Ok (mkPlan 10 (1 # 2) 90) /\
  main_frames default_config = 30%Q /\
  bridge_frames 100 (1 # 2) default_config = Ok 60%Q.
Proof. repeat split; vm_compute; reflexivity. Qed.

(** The products and quotients are those of binary64, not of the
    rationals: a clip length of 0.29 at 100 frames per second gives
    28.999999999999996 and 28 frames, and bridge windows of 0.04 s give
    79.99999999999999 bridge frames over 60 s but 80 over 100 s. *)
Example sampling_plan_binary64 :
  main_frames fine_clip_config = (8162774324609023 # 281474976710656)%Q /\
  plan_expected_frames <$> plan_of (sampling_plan 8 fine_clip_config)
    = Some 28 /\
  plan_expected_frames <$> plan_of (sampling_plan 60 wide_bridge_config)
    = Some 109 /\
  plan_expected_frames <$> plan_of (sampling_plan 100 wide_bridge_config)
    = Some 110.
Proof. repeat split; vm_compute; reflexivity. Qed.


(** C9: for a duration [D > 0] and [interval_count >= 1], the plan's bridge
    interval is [interval * bridge_percent] when [bridge_percent > 0],
    whatever [bridge_interval_abs] is; else [bridge_interval_abs] when that
    is positive; else 0.  The quotient and the product are those of
    binary64. *)
Theorem bridge_interval_priority (D : Q) (C : WorkerConfig.t) :
  (0 < D)%Q -> 1 <= WorkerConfig.interval_count C ->
  exists p,
    sampling_plan D C = Ok p /\
    plan_interval p
    = round64 (D / float_of_int (WorkerConfig.interval_count C)) /\
    ((0 < WorkerConfig.bridge_percent C)%Q ->
     plan_bridge_interval p
     = round64 (plan_interval p * WorkerConfig.bridge_percent C)) /\
    (~ (0 < WorkerConfig.bridge_percent C)%Q ->
     (0 < WorkerConfig.bridge_interval_abs C)%Q ->
     plan_bridge_interval p = WorkerConfig.bridge_interval_abs C) /\
    (~ (0 < WorkerConfig.bridge_percent C)%Q ->
     ~ (0 < WorkerConfig.bridge_interval_abs C)%Q ->
     plan_bridge_interval p = 0%Q).
Proof.
  intros _ Hic. eexists. split; [apply sampling_plan_ok; lia |].
  simpl. unfold spec_bridge_interval, spec_interval, fmul.
  split; [reflexivity |]. repeat split.
  - intros H. apply Qltb_lt in H. now rewrite H.
  - intros H1 H2. apply Qltb_nlt in H1. apply Qltb_lt in H2.
    now rewrite H1, H2.
  - intros H1 H2. apply Qltb_nlt in H1, H2. now rewrite H1, H2.
Qed.

(** ** The duration probe *)

Lemma probe_attempts_step (video_path : Path) (stub : nat -> probe_outcome)
  (a left : nat) :
  probe_attempts video_path stub a (S left) =
    match classify (stub a) with
    | Accepted d => ([RunFfprobe video_path], Ok (Some d))
    | Raised e => ([RunFfprobe video_path], Raise e)
    | Rejected =>
        let (t, r) := probe_attempts video_path stub (S a) left in
        (RunFfprobe video_path :: Sleep (1 # 2) :: t, r)
    end.
Proof.
  cbn [probe_attempts]. unfold classify.
  destruct (stub a) as [e | stdout]; [reflexivity |].
  destruct (String.eqb (strip stdout) "");
    [| destruct (float_of_string (strip stdout)); [reflexivity |]];
    unfold bind; simpl;
    destruct (probe_attempts video_path stub (S a) left) as [t [x | e]];
    reflexivity.
Qed.

Lemma probe_attempts_accept (video_path : Path) (stub : nat -> probe_outcome)
  (left : nat) :
  forall (a k : nat) (d : Q),
    (k < left)%nat ->
    (forall j, (j < k)%nat -> classify (stub (a + j)%nat) = Rejected) ->
    classify (stub (a + k)%nat) = Accepted d ->
    probe_attempts video_path stub a left =
      (attempt_trace video_path k ++ [RunFfprobe video_path], Ok (Some d)).
Proof.
  induction left as [| left IH]; intros a k d Hk Hrej Hacc; [lia |].
  rewrite probe_attempts_step. destruct k as [| k].
  - rewrite Nat.add_0_r in Hacc. now rewrite Hacc.
  - rewrite <- (Nat.add_0_r a) at 1. rewrite (Hrej 0%nat) by lia.
    rewrite (IH (S a) k d); [reflexivity | lia | |].
    + intros j Hj. replace (S a + j)%nat with (a + S j)%nat by lia.
      apply Hrej. lia.
    + now replace (S a + k)%nat with (a + S k)%nat by lia.
Qed.

Lemma probe_attempts_raise (video_path : Path) (stub : nat -> probe_outcome)
  (left : nat) :
  forall (a k : nat) (e : exn),
    (k < left)%nat ->
    (forall j, (j < k)%nat -> classify (stub (a + j)%nat) = Rejected) ->
    classify (stub (a + k)%nat) = Raised e ->
    probe_attempts video_path stub a left =
      (attempt_trace video_path k ++ [RunFfprobe video_path], Raise e).
Proof.
  induction left as [| left IH]; intros a k e Hk Hrej Hacc; [lia |].
  rewrite probe_attempts_step. destruct k as [| k].
  - rewrite Nat.add_0_r in Hacc. now rewrite Hacc.
  - rewrite <- (Nat.add_0_r a) at 1. rewrite (Hrej 0%nat) by lia.
    rewrite (IH (S a) k e); [reflexivity | lia | |].
    + intros j Hj. replace (S a + j)%nat with (a + S j)%nat by lia.
      apply Hrej. lia.
    + now replace (S a + k)%nat with (a + S k)%nat by lia.
Qed.

Lemma probe_attempts_exhaust (video_path : Path) (stub : nat -> probe_outcome)
  (left : nat) :
  forall a : nat,
    (forall j, (j < left)%nat -> classify (stub (a + j)%nat) = Rejected) ->
    probe_attempts video_path stub a left =
      (attempt_trace video_path left, Ok None).
Proof.
  induction left as [| left IH]; intros a Hrej; [reflexivity |].
  rewrite probe_attempts_step.
  rewrite <- (Nat.add_0_r a) at 1. rewrite (Hrej 0%nat) by lia.
  rewrite (IH (S a)); [reflexivity |].
  intros j Hj. replace (S a + j)%nat with (a + S j)%nat by lia.
  apply Hrej. lia.
Qed.

Lemma probe_attempts_count (video_path : Path) (stub : nat -> probe_outcome)
  (left : nat) :
  forall a : nat,
    (count_ffprobe (fst (probe_attempts video_path stub a left)) <= left)%nat.
Proof.
  induction left as [| left IH]; intros a; [apply Nat.le_refl |].
  rewrite probe_attempts_step.
  destruct (classify (stub a)); try (unfold count_ffprobe; simpl; lia).
  specialize (IH (S a)).
  destruct (probe_attempts video_path stub (S a) left) as [t r].
  unfold count_ffprobe in *. cbn in *. lia.
Qed.

(** C4, as amended: [get_video_duration] runs the probe at most 3 times,
    sleeps 0.5 s after every attempt it rejects, and returns the value of
    the first attempt whose output is non-empty and parses as a float,
    whatever its sign (zero and negative values are returned as well); it
    returns [None] after three rejected attempts.  With [k = 2]: a probe
    that fails twice and then succeeds is run exactly 3 times. *)
Theorem get_video_duration_first_parseable (video_path : Path)
  (stub : nat -> probe_outcome) :
  (count_ffprobe (fst (get_video_duration video_path stub)) <= 3)%nat /\
  (forall (k : nat) (d : Q),
     (k < 3)%nat ->
     (forall j, (j < k)%nat -> classify (stub j) = Rejected) ->
     classify (stub k) = Accepted d ->
     get_video_duration video_path stub =
       (attempt_trace video_path k ++ [RunFfprobe video_path], Ok (Some d))
     /\ count_ffprobe (fst (get_video_duration video_path stub)) = S k) /\
  ((forall j, (j < 3)%nat -> classify (stub j) = Rejected) ->
   get_video_duration video_path stub =
     (attempt_trace video_path 3, Ok None)).
Proof.
  unfold get_video_duration, get_video_duration_retries.
  split; [apply probe_attempts_count |]. split.
  - intros k d Hk Hrej Hacc.
    rewrite (probe_attempts_accept video_path stub 3 0 k d Hk Hrej Hacc).
    split; [reflexivity |].
    destruct k as [| [| [| k]]]; [reflexivity .. | lia].
  - intros Hrej. now apply probe_attempts_exhaust.
Qed.

(** ** One job in a worker *)

(** C6: when the output file exists and the job does not overwrite,
    [process_video] puts one [JobComplete] with [success=True] and the
    message "SKIP (exists)" and returns; neither ffprobe nor ffmpeg is
    run. *)
Theorem process_video_skips_existing (job : VideoJob.t)
  (config : WorkerConfig.t) (worker_id : Z) (w : world) :
  output_exists w = true ->
  VideoJob.overwrite_existing job = false ->
  process_video job config worker_id w =
    ([Put (MsgComplete
             (JobComplete.mk worker_id (display_name job) true
                "SKIP (exists)" None (VideoJob.video_duration job)))],
     Ok tt)
  /\ List.filter is_tool_run (fst (process_video job config worker_id w))
     = [].
Proof.
  intros Hex How. unfold process_video. rewrite Hex, How. simpl.
  split; reflexivity.
Qed.

(** C2 fails on the code: when the first run of ffprobe raises, the
    exception leaves [process_video] before anything is put on the progress
    queue; [worker_process] prints it and goes on, so the job has no
    [JobComplete] at all. *)
Theorem process_video_probe_exception_escapes (job : VideoJob.t)
  (config : WorkerConfig.t) (worker_id : Z) (w : world) (e : exn) :
  output_exists w && negb (VideoJob.overwrite_existing job) = false ->
  ffprobe w 0%nat = ProbeRaises e ->
  process_video job config worker_id w =
    ([RunFfprobe (VideoJob.video_path job)], Raise e)
  /\ worker_process worker_id (fun _ => w) config [Some job; None] =
       ([RunFfprobe (VideoJob.video_path job); PrintError worker_id e],
        Exited [])
  /\ List.filter is_job_complete
       (fst (worker_process worker_id (fun _ => w) config [Some job; None]))
     = [].
Proof.
  intros Hskip Hprobe.
  assert (Hpv : process_video job config worker_id w =
                ([RunFfprobe (VideoJob.video_path job)], Raise e)).
  { unfold process_video. rewrite Hskip.
    unfold get_video_duration, get_video_duration_retries.
    rewrite (probe_attempts_raise _ _ 3 0 0 e); [reflexivity | lia | |].
    - intros j Hj. lia.
    - simpl. now rewrite Hprobe. }
  split; [exact Hpv |].
  cbn [worker_process]. rewrite Hpv. split; reflexivity.
Qed.

(** ** Progress of one job *)


(** ** Stopping *)

Lemma clear_queue_steady {A} (q : list A) :
  forall turns : list queue_turn,
    Forall (eq Steady) turns -> clear_queue turns q = [].
Proof.
  induction q as [| x q IH]; intros turns Hturns; [reflexivity |].
  destruct Hturns as [| t turns <- Hturns]; cbn; apply IH; auto.
Qed.

(** The loop ends at the first turn that is not steady and leaves what is
    queued then. *)
Lemma clear_queue_breaks {A} (q : list A) (t : queue_turn)
  (rest : list queue_turn) :
  forall k : nat,
    (k < length q)%nat -> t <> Steady ->
    clear_queue (List.repeat Steady k ++ t :: rest) q = drop k q.
Proof.
  intros k. revert q. induction k as [| k IH]; intros q Hk Ht.
  - destruct q as [| x q]; [simpl in Hk; lia |].
    destruct t; [contradiction | reflexivity | reflexivity].
  - destruct q as [| x q]; [simpl in Hk; lia |].
    cbn. apply IH; [simpl in Hk; lia | exact Ht].
Qed.

Lemma worker_ids_length (n : Z) : length (worker_ids n) = Z.to_nat n.
Proof. unfold worker_ids. now rewrite length_map, length_seq. Qed.

Lemma stop_processing_fields (turns : list queue_turn)
  (self : JellyfinLandscapeGUI) :
  is_running self = true ->
  job_queue (stop_processing turns self)
  = clear_queue turns (job_queue self)
      ++ List.repeat None (length (workers self))
  /\ workers (stop_processing turns self) = workers self
  /\ is_stopping (stop_processing turns self) = true
  /\ is_running (stop_processing turns self) = false
  /\ completed_videos (stop_processing turns self) = completed_videos self
  /\ total_videos (stop_processing turns self) = total_videos self.
Proof.
  intros Hrun. unfold stop_processing. rewrite Hrun. cbv zeta.
  destruct self. repeat split.
Qed.

(** When every turn of the drain loop sees the queue as it is, a stop
    request while running empties the job queue of every pending item and
    leaves one pill per worker, [N] of them for a batch started with [N]
    workers. *)
Lemma stop_processing_queue (turns : list queue_turn)
  (self : JellyfinLandscapeGUI) :
  is_running self = true ->
  Forall (eq Steady) turns ->
  (job_queue (stop_processing turns self)
   = List.repeat None (length (workers self))
   /\ is_stopping (stop_processing turns self) = true
   /\ is_running (stop_processing turns self) = false)
  /\ (forall mp4_files folder overwrite N now,
        job_queue
          (stop_processing turns
             (_finalize_scan_and_start mp4_files folder overwrite N now
                self))
        = List.repeat None (Z.to_nat N)).
Proof.
  intros Hrun Hturns. split.
  - destruct (stop_processing_fields turns self Hrun)
      as (Hq & _ & Hs & Hr & _).
    rewrite Hq, clear_queue_steady by assumption. auto.
  - intros mp4_files folder overwrite N now.
    match goal with
    | |- job_queue (stop_processing _ ?s) = _ =>
        destruct (stop_processing_fields turns s) as (Hq & _);
        [destruct self; exact Hrun |]; rewrite Hq
    end.
    rewrite clear_queue_steady by assumption. cbn [app].
    f_equal. destruct self. cbn. apply worker_ids_length.
Qed.

(** C5: the drain loop of [stop_processing] ends at the first turn on
    which [empty()] answers true or [get_nowait()] raises, with items still
    queued: after [k] steady turns the items from the [k]-th on stay in the
    queue, ahead of the one pill per worker, and are not all pills when a
    job is among them.  [_finish_stop] reports
    [cancelled = total_videos - completed_videos]. *)
Theorem stop_drain_breaks_early (self : JellyfinLandscapeGUI) (k : nat)
  (t : queue_turn) (rest : list queue_turn) :
  is_running self = true ->
  (k < length (job_queue self))%nat ->
  t <> Steady ->
  let self' := stop_processing (List.repeat Steady k ++ t :: rest) self in
  (job_queue self'
   = drop k (job_queue self) ++ List.repeat None (length (workers self))
   /\ (forall job, In (Some job) (drop k (job_queue self)) ->
       In (Some job) (job_queue self')
       /\ job_queue self' <> List.repeat None (length (workers self)))
   /\ is_stopping self' = true
   /\ is_running self' = false)
  /\ (forall s : JellyfinLandscapeGUI,
        overall_label (_finish_stop s)
        = LabelStopped (completed_videos s) (total_videos s)
            (total_videos s - completed_videos s)).
Proof.
  intros Hrun Hk Ht self'. split.
  - destruct (stop_processing_fields (List.repeat Steady k ++ t :: rest)
                self Hrun) as (Hq & _ & Hs & Hr & _).
    fold self' in Hq, Hs, Hr.
    rewrite clear_queue_breaks in Hq by assumption.
    split; [exact Hq |]. split; [| auto].
    intros job Hin.
    assert (Hin' : In (Some job) (job_queue self')).
    { rewrite Hq. apply in_or_app. now left. }
    split; [exact Hin' |].
    intros Heq. rewrite Heq in Hin'. apply repeat_spec in Hin'.
    discriminate.
  - intros s. destruct s. unfold _finish_stop. cbn.
    try match goal with |- context [0 <? ?x] => destruct (0 <? x) end;
      reflexivity.
Qed.

(** ** The monitor *)

(** C3, as amended: while stopping, a [JobComplete] increments
    [completed_videos] exactly when it is a success whose message is not
    "SKIP (exists)"; failed and skipped results leave the counter as it
    is. *)
Theorem stopping_counts_real_successes (self : JellyfinLandscapeGUI)
  (m : JobComplete.t) (now : Q) (alive_workers : Z) :
  is_stopping self = true ->
  completed_videos
    (fst (monitor_turn (Some (MsgComplete m)) now alive_workers self))
  = completed_videos self
    + (if JobComplete.success m
          && negb (String.eqb (JobComplete.message m) "SKIP (exists)")
       then 1 else 0).
Proof.
  intros Hstop. unfold monitor_turn. rewrite Hstop.
  unfold on_complete_stopping.
  destruct (JobComplete.success m
            && negb (String.eqb (JobComplete.message m) "SKIP (exists)"));
    destruct (alive_workers =? 0); destruct self; cbn;
    try match goal with |- context [0 <? ?x] => destruct (0 <? x) end;
    cbn; lia.
Qed.



(** Past the warm-up with no time elapsed the rate cannot be computed:
    the division raises, the label keeps its previous text and the log
    ends with the line of the result. *)
Lemma monitor_turn_zero_elapsed (self : JellyfinLandscapeGUI)
  (m : JobComplete.t) (now t0 : Q) (alive_workers : Z) :
  is_stopping self = false ->
  batch_start_time self = Some t0 ->
  1 <= completed_videos self ->
  (now - t0 == 0)%Q ->
  let self' :=
    fst (monitor_turn (Some (MsgComplete m)) now alive_workers self) in
  overall_label self' = overall_label self /\
  log self'
  = log self
      ++ [LogJob (JobComplete.success m) (completed_videos self + 1)
            (total_videos self) (JobComplete.video_name m)
            (JobComplete.message m)
            (if JobComplete.success m
             then default [] (JobComplete.deleted_files m) else [])].
Proof.
  intros Hstop Ht0 Hc Hz. unfold monitor_turn, on_complete_running.
  rewrite Hstop. destruct self. cbn in *. subst.
  unfold eta_report. cbn.
  assert ((2 <=? completed_videos0 + 1) = true) as ->
    by (apply Z.leb_le; lia).
  cbn. rewrite py_div_zero by exact Hz. cbn.
  split; reflexivity.
Qed.

(** ** The pre-pass *)

Lemma probe_attempts_no_raise (video_path : Path)
  (stub : nat -> probe_outcome) (left : nat) :
  forall a : nat,
    (forall j, (j < left)%nat ->
               exists stdout, stub (a + j)%nat = ProbeStdout stdout) ->
    exists t r, probe_attempts video_path stub a left = (t, Ok r).
Proof.
  induction left as [| left IH]; intros a Hruns.
  - eexists. eexists. reflexivity.
  - rewrite probe_attempts_step.
    destruct (Hruns 0%nat) as [stdout Hs]; [lia |].
    rewrite Nat.add_0_r in Hs. unfold classify. rewrite Hs.
    destruct (IH (S a)) as (t & r & Hrec).
    { intros j Hj. replace (S a + j)%nat with (a + S j)%nat by lia.
      apply Hruns. lia. }
    rewrite Hrec.
    destruct (String.eqb (strip stdout) "");
      [| destruct (float_of_string (strip stdout))];
      eexists; eexists; reflexivity.
Qed.

Lemma get_video_duration_no_raise (video_path : Path)
  (stub : nat -> probe_outcome) :
  probe_runs stub ->
  exists t r, get_video_duration video_path stub = (t, Ok r).
Proof.
  intros Hruns. apply probe_attempts_no_raise. intros j Hj.
  now apply Hruns.
Qed.

Lemma probe_attempts_result (v1 v2 : Path) (stub : nat -> probe_outcome)
  (left : nat) :
  forall a : nat,
    snd (probe_attempts v1 stub a left) = snd (probe_attempts v2 stub a left).
Proof.
  induction left as [| left IH]; intros a; [reflexivity |].
  rewrite !probe_attempts_step. specialize (IH (S a)).
  destruct (classify (stub a)); try reflexivity.
  destruct (probe_attempts v1 stub (S a) left),
           (probe_attempts v2 stub (S a) left). exact IH.
Qed.

(** The probe is run on [str(video)]: two paths of the same name are
    probed alike. *)
Lemma probed_by_name (probe_of : string -> nat -> probe_outcome)
  (v1 v2 : Path) :
  path_str v1 = path_str v2 -> probed probe_of v1 = probed probe_of v2.
Proof.
  intros Heq. unfold probed, get_video_duration, get_video_duration_retries.
  rewrite Heq.
  now rewrite (probe_attempts_result v1 v2).
Qed.

Lemma truthy_false (d : Q) : truthy d = false -> (d == 0)%Q.
Proof.
  unfold truthy. rewrite negb_false_iff. apply Qeq_bool_iff.
Qed.

(** The scan keeps every counter but the two it fills, adds each probed
    duration to the total and records no duration under the name of a file
    whose probe gave nothing. *)
Lemma _scan_videos_spec (probe_of : string -> nat -> probe_outcome)
  (mp4_files : list Path) :
  forall self : JellyfinLandscapeGUI,
    (forall v, In v mp4_files -> probe_runs (probe_of (path_str v))) ->
    exists t self',
      _scan_videos probe_of mp4_files self = (t, Ok self') /\
      total_videos self' = total_videos self /\
      (total_video_duration self' ==
       total_video_duration self
       + Qsum (List.map (fun v => default 0%Q (probed probe_of v))
                 mp4_files))%Q /\
      (forall key : string,
         video_durations self !! key = None ->
         (forall v, In v mp4_files -> path_str v = key ->
                    probed probe_of v = None) ->
         video_durations self' !! key = None).
Proof.
  induction mp4_files as [| video rest IH]; intros self Hruns.
  - exists [], self. cbn. repeat split; [lra | auto].
  - destruct (get_video_duration_no_raise video
                (probe_of (path_str video))) as (t1 & r & Hprobe).
    { apply Hruns. now left. }
    assert (Hprobed : probed probe_of video = r).
    { unfold probed. now rewrite Hprobe. }
    cbn [_scan_videos]. rewrite Hprobe. unfold bind at 1.
    match goal with
    | |- context [_scan_videos probe_of rest ?s] =>
        destruct (IH s) as (t2 & self' & Hrec & Htv & Htot & Hmap)
    end.
    { intros v Hv. apply Hruns. now right. }
    rewrite Hrec. exists (t1 ++ t2), self'.
    split; [reflexivity |].
    cbn [List.map Qsum List.fold_right]. rewrite Hprobed.
    fold (Qsum (List.map (fun v => default 0%Q (probed probe_of v)) rest)).
    destruct r as [d |]; [destruct (truthy d) eqn:Ht |].
    + destruct self. cbn in *. repeat split; [exact Htv | lra |].
      intros key Hnone Hfail. apply Hmap.
      * rewrite lookup_insert_ne; [exact Hnone |].
        intros Heq. specialize (Hfail video (or_introl eq_refl) Heq).
        congruence.
      * intros v Hv. apply Hfail. now right.
    + apply truthy_false in Ht. cbn in *.
      repeat split; [exact Htv | lra |].
      intros key Hnone Hfail. apply Hmap; [exact Hnone |].
      intros v Hv. apply Hfail. now right.
    + cbn in *. repeat split; [exact Htv | lra |].
      intros key Hnone Hfail. apply Hmap; [exact Hnone |].
      intros v Hv. apply Hfail. now right.
Qed.

Lemma make_jobs_spec (folder : Path) (overwrite : bool)
  (self : JellyfinLandscapeGUI) (mp4_files : list Path) :
  forall idx : Z,
    List.map VideoJob.video_path
      (make_jobs mp4_files idx folder overwrite self) = mp4_files /\
    (forall job,
       In job (make_jobs mp4_files idx folder overwrite self) ->
       In (VideoJob.video_path job) mp4_files /\
       VideoJob.video_duration job =
         default 0%Q
           (video_durations self !! path_str (VideoJob.video_path job))).
Proof.
  induction mp4_files as [| video rest IH]; intros idx.
  - split; [reflexivity | intros job []].
  - destruct (IH (idx + 1)) as [Hmap Hjobs]. cbn [make_jobs List.map].
    split; [cbn; now rewrite Hmap |].
    intros job [<- | Hin]; [cbn; auto |].
    destruct (Hjobs job Hin). split; [now right | assumption].
Qed.

(** The queue that [_finalize_scan_and_start] builds: the jobs, one per
    file with the duration recorded under its name or 0, then the pills. *)
Lemma _finalize_scan_and_start_spec (mp4_files : list Path) (folder : Path)
  (overwrite : bool) (N : Z) (now : Q) (self : JellyfinLandscapeGUI) :
  exists jobs,
    job_queue (_finalize_scan_and_start mp4_files folder overwrite N now self)
    = List.map Some jobs ++ List.repeat None (Z.to_nat N) /\
    List.map VideoJob.video_path jobs = mp4_files /\
    (forall job,
       In job jobs ->
       In (VideoJob.video_path job) mp4_files /\
       VideoJob.video_duration job =
         default 0%Q
           (video_durations self !! path_str (VideoJob.video_path job))) /\
    total_video_duration
      (_finalize_scan_and_start mp4_files folder overwrite N now self)
    = total_video_duration self.
Proof.
  unfold _finalize_scan_and_start. cbv zeta.
  match goal with
  | |- context [make_jobs mp4_files 1 folder overwrite ?s] =>
      destruct (make_jobs_spec folder overwrite s mp4_files 1)
        as [Hpaths Hjobs];
      exists (make_jobs mp4_files 1 folder overwrite s)
  end.
  split; [destruct self; reflexivity |].
  split; [exact Hpaths |].
  split; [| destruct self; reflexivity].
  intros job Hin. destruct (Hjobs job Hin) as [Hfile Hdur].
  split; [exact Hfile |]. rewrite Hdur. destruct self. reflexivity.
Qed.

(** The tolerated failures of the probe: when ffprobe can be run on every
    file, the pre-pass ends without error with one job per input file, in
    order, followed by the pills; the job of a file whose probe gave no
    duration carries [video_duration = 0], and [total_video_duration] is
    the sum of the probed durations, where such a file counts for 0. *)
Theorem prepass_failed_probe_still_enqueued
  (probe_of : string -> nat -> probe_outcome) (mp4_files : list Path)
  (folder : Path) (overwrite : bool) (N : Z) (now : Q)
  (self : JellyfinLandscapeGUI) :
  mp4_files <> [] ->
  (forall v, In v mp4_files -> probe_runs (probe_of (path_str v))) ->
  exists t self',
    _scan_videos_and_start probe_of mp4_files folder overwrite N now
      (start_processing mp4_files self) = (t, Ok self') /\
    List.map (option_map VideoJob.video_path) (job_queue self')
    = List.map Some mp4_files ++ List.repeat None (Z.to_nat N) /\
    (forall job,
       In (Some job) (job_queue self') ->
       probed probe_of (VideoJob.video_path job) = None ->
       VideoJob.video_duration job = 0%Q) /\
    (total_video_duration self' ==
     Qsum (List.map (fun v => default 0%Q (probed probe_of v)) mp4_files))%Q.
Proof.
  intros Hne Hruns.
  destruct (_scan_videos_spec probe_of mp4_files
              (start_processing mp4_files self) Hruns)
    as (t & s1 & Hscan & _ & Htot & Hmap).
  assert (Hstart : video_durations (start_processing mp4_files self) = ∅
                   /\ total_video_duration (start_processing mp4_files self)
                      = 0%Q).
  { destruct mp4_files; [congruence |]. destruct self. split; reflexivity. }
  destruct Hstart as [Hempty Hzero]. rewrite Hzero in Htot.
  destruct (_finalize_scan_and_start_spec mp4_files folder overwrite N now s1)
    as (jobs & Hq & Hpaths & Hjobs & Ht).
  unfold _scan_videos_and_start. rewrite Hscan. unfold bind, ret.
  eexists. eexists. split; [rewrite app_nil_r; reflexivity |].
  rewrite Hq, Ht. split; [| split].
  - rewrite List.map_app. f_equal.
    + rewrite <- Hpaths, !List.map_map. reflexivity.
    + clear. induction (Z.to_nat N); [reflexivity |]. cbn. now f_equal.
  - intros job Hin Hfail. apply in_app_or in Hin as [Hin | Hin].
    + apply in_map_iff in Hin as (job' & Heq & Hin'). injection Heq as ->.
      destruct (Hjobs job Hin') as [Hfile Hdur].
      rewrite Hdur, (Hmap (path_str (VideoJob.video_path job))).
      * reflexivity.
      * rewrite Hempty. apply lookup_empty.
      * intros v Hv Hstr. rewrite <- Hfail. now apply probed_by_name.
    + apply repeat_spec in Hin. discriminate.
  - rewrite Htot. lra.
Qed.

Lemma _scan_videos_raises (probe_of : string -> nat -> probe_outcome)
  (before : list Path) (video : Path) (after : list Path) (e : exn)
  (tv : list effect) :
  (forall v, In v before -> probe_runs (probe_of (path_str v))) ->
  get_video_duration video (probe_of (path_str video)) = (tv, Raise e) ->
  forall self : JellyfinLandscapeGUI,
    exists t0,
      _scan_videos probe_of (before ++ video :: after) self
      = (t0 ++ tv, Raise e).
Proof.
  intros Hruns Hraise.
  induction before as [| v before IH]; intros self.
  - exists []. cbn [app _scan_videos]. now rewrite Hraise.
  - destruct (get_video_duration_no_raise v (probe_of (path_str v)))
      as (t1 & r & Hprobe).
    { apply Hruns. now left. }
    cbn [app _scan_videos]. rewrite Hprobe. unfold bind at 1.
    match goal with
    | |- context [_scan_videos probe_of (before ++ video :: after) ?s] =>
        destruct (IH (fun u Hu => Hruns u (or_intror Hu)) s) as [t0 Hrest];
        rewrite Hrest
    end.
    exists (t1 ++ t0). now rewrite app_assoc.
Qed.

(** C10: a probe that raises ends the pre-pass.  With the files before it
    probed without exception, the scan of a list of files in which one
    probe raises [e] on its attempt [k], the attempts before it rejected,
    ends with [e] at that run of ffprobe: the files after it are not
    probed and [_finalize_scan_and_start] does not run, so that no job is
    made for any file of the batch. *)
Theorem prepass_probe_exception_aborts
  (probe_of : string -> nat -> probe_outcome)
  (before : list Path) (video : Path) (after : list Path)
  (folder : Path) (overwrite : bool) (N : Z) (now : Q)
  (self : JellyfinLandscapeGUI) (k : nat) (e : exn) :
  (forall v, In v before -> probe_runs (probe_of (path_str v))) ->
  (k < 3)%nat ->
  (forall j, (j < k)%nat ->
             classify (probe_of (path_str video) j) = Rejected) ->
  probe_of (path_str video) k = ProbeRaises e ->
  let mp4_files := before ++ video :: after in
  exists t0,
    _scan_videos_and_start probe_of mp4_files folder overwrite N now
      (start_processing mp4_files self)
    = (t0 ++ attempt_trace video k ++ [RunFfprobe video], Raise e) /\
    forall t self',
      _scan_videos_and_start probe_of mp4_files folder overwrite N now
        (start_processing mp4_files self) <> (t, Ok self').
Proof.
  intros Hruns Hk Hrej Hraise mp4_files.
  assert (Hprobe : get_video_duration video (probe_of (path_str video))
                   = (attempt_trace video k ++ [RunFfprobe video], Raise e)).
  { unfold get_video_duration, get_video_duration_retries.
    apply (probe_attempts_raise video (probe_of (path_str video)) 3 0 k e);
      [exact Hk | exact Hrej |].
    cbn [Nat.add]. now rewrite Hraise. }
  destruct (_scan_videos_raises probe_of before video after e _ Hruns Hprobe
              (start_processing mp4_files self)) as [t0 Hscan].
  exists t0. unfold _scan_videos_and_start. fold mp4_files in Hscan.
  rewrite Hscan. unfold bind. split; [reflexivity | discriminate].
Qed.

(** ** Every path of [process_video] behind the probe reports once *)







(** ** The shape of a worker's trace *)

Lemma probe_attempts_silent (video_path : Path) (stub : nat -> probe_outcome)
  (left : nat) :
  forall a : nat,
    results_of (fst (probe_attempts video_path stub a left)) = [] /\
    updates_of (fst (probe_attempts video_path stub a left)) = [] /\
    unlinked (fst (probe_attempts video_path stub a left)) = [].
Proof.
  induction left as [| left IH]; intros a; [repeat split |].
  rewrite probe_attempts_step. specialize (IH (S a)).
  destruct (classify (stub a)); [repeat split | | repeat split].
  destruct (probe_attempts video_path stub (S a) left). exact IH.
Qed.

Lemma py_min100_le (x : Q) : (py_min100 x <= 100)%Q.
Proof.
  unfold py_min100. destruct (Qltb x 100) eqn:E; [| lra].
  apply Qltb_lt in E. lra.
Qed.

Lemma progress_update_of_job (worker_id : Z) (name : string)
  (expected_frames current_frame : Z) (elapsed : Q) (u : ProgressUpdate.t) :
  progress_update worker_id name expected_frames current_frame elapsed = Ok u ->
  update_of_job worker_id name expected_frames u.
Proof.
  unfold progress_update. destruct (py_div _ _); [| discriminate].
  intros [= <-]. repeat split. cbn. apply py_min100_le.
Qed.

Lemma on_line_shape (worker_id : Z) (name : string) (expected_frames : Z)
  (start_time : Q) (line : string) (now : Q) :
  exists us,
    on_line worker_id name expected_frames start_time line now
    = (List.map (fun u => Put (MsgProgress u)) us, Ok tt) /\
    (length us <= 1)%nat /\
    Forall (update_of_job worker_id name expected_frames) us.
Proof.
  unfold on_line.
  destruct (contains "frame=" line);
    [| exists []; repeat split; [cbn; lia | constructor]].
  destruct (2 <=? length (split_on "=" line))%nat;
    [| exists []; repeat split; [cbn; lia | constructor]].
  destruct (nth_error (split_on "=" line) 1) as [field |];
    [| exists []; repeat split; [cbn; lia | constructor]].
  destruct (int_of_string (strip field)) as [current |];
    [| exists []; repeat split; [cbn; lia | constructor]].
  destruct (progress_update _ _ _ _ _) as [u | e] eqn:E;
    [| exists []; repeat split; [cbn; lia | constructor]].
  exists [u]. repeat split; [cbn; lia |].
  constructor; [| constructor]. eapply progress_update_of_job, E.
Qed.

Lemma read_lines_shape (worker_id : Z) (name : string) (expected_frames : Z)
  (start_time : Q) (lines : list (string * Q)) :
  exists us,
    read_lines worker_id name expected_frames start_time lines
    = (List.map (fun u => Put (MsgProgress u)) us, Ok tt) /\
    (length us <= length lines)%nat /\
    Forall (update_of_job worker_id name expected_frames) us.
Proof.
  induction lines as [| [line now] rest (us2 & Hrec & Hlen & Hall)].
  - exists []. repeat split; [cbn; lia | constructor].
  - destruct (on_line_shape worker_id name expected_frames start_time line
                now) as (us1 & Hline & Hlen1 & Hall1).
    exists (us1 ++ us2). cbn [read_lines]. rewrite Hline. unfold bind.
    rewrite Hrec, List.map_app. repeat split.
    + rewrite length_app. cbn. lia.
    + apply Forall_app. split; assumption.
Qed.

Lemma unlink_old_eq (files : list sibling) :
  unlink_old files
  = (List.map Unlink (to_delete files), Ok (to_delete files)).
Proof.
  induction files as [| file rest IH]; [reflexivity |].
  cbn [unlink_old]. unfold to_delete in *. cbn [List.filter].
  destruct (negb (String.eqb (lower (sib_suffix file)) ".webp"));
    [destruct (sib_unlink_ok file) |]; cbn [andb]; try exact IH.
  unfold bind, perform, ret. rewrite IH. cbn. now rewrite app_nil_r.
Qed.

(** [process_video], path by path. *)
Lemma process_video_cases (job : VideoJob.t) (config : WorkerConfig.t)
  (worker_id : Z) (w : world) :
  process_video job config worker_id w =
    let video := VideoJob.video_path job in
    let name := display_name job in
    if output_exists w && negb (VideoJob.overwrite_existing job) then
      ([job_complete worker_id name true "SKIP (exists)" None job], Ok tt)
    else
      match get_video_duration video (ffprobe w) with
      | (t1, Raise e) => (t1, Raise e)
      | (t1, Ok None) =>
          (t1 ++ [job_complete worker_id name false "Duration read failed"
                    None job], Ok tt)
      | (t1, Ok (Some duration)) =>
          match sampling_plan duration config with
          | Raise e => (t1, Raise e)
          | Ok plan =>
              match ffmpeg w with
              | PopenRaises e =>
                  (t1 ++ [job_complete worker_id name false (exn_str e) None
                            job], Ok tt)
              | PopenRuns lines returncode =>
                  (t1 ++ RunFfmpeg video plan config
                      :: fst (read_lines worker_id name
                                (plan_expected_frames plan) (start_time w)
                                lines)
                      ++ (if returncode =? 0 then
                            match siblings w with
                            | GlobFinds files =>
                                List.map Unlink (to_delete files)
                                ++ [job_complete worker_id name true
                                      (if output_exists w
                                       then "OK (overwritten)" else "OK")
                                      (Some (to_delete files)) job]
                            | GlobRaises e =>
                                [job_complete worker_id name false
                                   (exn_str e) None job]
                            end
                          else
                            [job_complete worker_id name false
                               "ffmpeg error" None job]),
                   Ok tt)
              end
          end
      end.
Proof.
  cbv zeta. unfold process_video.
  destruct (output_exists w && negb (VideoJob.overwrite_existing job));
    [reflexivity |].
  destruct (get_video_duration (VideoJob.video_path job) (ffprobe w))
    as [t1 [[duration |] | e]]; try reflexivity.
  unfold bind at 1.
  destruct (sampling_plan duration config) as [plan | e];
    [| cbn; now rewrite app_nil_r].
  unfold lift, bind at 1. cbn [app].
  destruct (ffmpeg w) as [e | lines returncode].
  - unfold try_except, raise, perform. cbn. reflexivity.
  - destruct (read_lines_shape worker_id (display_name job)
                (plan_expected_frames plan) (start_time w) lines)
      as (us & Hread & _).
    rewrite Hread. unfold cleanup_old_landscapes.
    destruct (siblings w) as [e | files]; rewrite ?unlink_old_eq;
      unfold bind, perform, try_except, raise; cbn [fst];
      destruct (returncode =? 0); cbn; rewrite ?app_nil_r, <- ?app_assoc;
      reflexivity.
Qed.

Lemma results_of_app (t1 t2 : list effect) :
  results_of (t1 ++ t2) = results_of t1 ++ results_of t2.
Proof. apply omap_app. Qed.

Lemma updates_of_app (t1 t2 : list effect) :
  updates_of (t1 ++ t2) = updates_of t1 ++ updates_of t2.
Proof. apply omap_app. Qed.

Lemma unlinked_app (t1 t2 : list effect) :
  unlinked (t1 ++ t2) = unlinked t1 ++ unlinked t2.
Proof. apply omap_app. Qed.

Lemma results_of_updates (us : list ProgressUpdate.t) :
  results_of (List.map (fun u => Put (MsgProgress u)) us) = [].
Proof. induction us; [reflexivity | exact IHus]. Qed.

Lemma unlinked_updates (us : list ProgressUpdate.t) :
  unlinked (List.map (fun u => Put (MsgProgress u)) us) = [].
Proof. induction us; [reflexivity | exact IHus]. Qed.

Lemma updates_of_updates (us : list ProgressUpdate.t) :
  updates_of (List.map (fun u => Put (MsgProgress u)) us) = us.
Proof. induction us; [reflexivity | cbn; now f_equal]. Qed.

Lemma results_of_unlinks (names : list string) :
  results_of (List.map Unlink names) = [].
Proof. induction names; [reflexivity | exact IHnames]. Qed.

Lemma updates_of_unlinks (names : list string) :
  updates_of (List.map Unlink names) = [].
Proof. induction names; [reflexivity | exact IHnames]. Qed.

Lemma unlinked_unlinks (names : list string) :
  unlinked (List.map Unlink names) = names.
Proof. induction names; [reflexivity | cbn; now f_equal]. Qed.

(** ** More on the duration probe *)

(** An exception of the probe ends [get_video_duration] at once: the
    attempts before it were rejected and slept on, no attempt and no sleep
    follows it. *)
Theorem get_video_duration_exception_stops_retries (video_path : Path)
  (stub : nat -> probe_outcome) (k : nat) (e : exn) :
  (k < 3)%nat ->
  (forall j, (j < k)%nat -> classify (stub j) = Rejected) ->
  classify (stub k) = Raised e ->
  get_video_duration video_path stub =
    (attempt_trace video_path k ++ [RunFfprobe video_path], Raise e)
  /\ count_ffprobe (fst (get_video_duration video_path stub)) = S k.
Proof.
  intros Hk Hrej Hraise.
  unfold get_video_duration, get_video_duration_retries.
  rewrite (probe_attempts_raise video_path stub 3 0 k e Hk Hrej Hraise).
  split; [reflexivity |].
  destruct k as [| [| [| k]]]; [reflexivity .. | lia].
Qed.

Lemma probe_attempts_slept (video_path : Path) (stub : nat -> probe_outcome)
  (left : nat) :
  forall a : nat,
    (0 <= slept (fst (probe_attempts video_path stub a left)))%Q /\
    (slept (fst (probe_attempts video_path stub a left))
     <= inject_Z (Z.of_nat left) * (1 # 2))%Q.
Proof.
  induction left as [| left IH]; intros a;
    [split; unfold Qle; cbn; lia |].
  rewrite probe_attempts_step. specialize (IH (S a)).
  rewrite Nat2Z.inj_succ, <- Z.add_1_r, inject_Z_plus.
  change (inject_Z 1) with 1%Q.
  assert (0 <= inject_Z (Z.of_nat left))%Q.
  { change 0%Q with (inject_Z 0). rewrite <- Zle_Qle. lia. }
  destruct (classify (stub a)); try (cbn [fst slept]; split; lra).
  destruct (probe_attempts video_path stub (S a) left) as [t r].
  cbn in *. destruct IH. split; lra.
Qed.

(** Whatever ffprobe answers, one call of [get_video_duration] sleeps at
    most 1.5 s in all, and with [retries] attempts at most half a second
    per attempt. *)
Theorem get_video_duration_sleep_bound (video_path : Path)
  (stub : nat -> probe_outcome) (retries : nat) :
  (slept (fst (get_video_duration_retries video_path stub retries))
   <= inject_Z (Z.of_nat retries) * (1 # 2))%Q /\
  (slept (fst (get_video_duration video_path stub)) <= 3 # 2)%Q.
Proof.
  split.
  - apply probe_attempts_slept.
  - destruct (probe_attempts_slept video_path stub 3 0) as [_ H].
    unfold get_video_duration, get_video_duration_retries.
    eapply Qle_trans; [exact H |]. unfold Qle. cbn. lia.
Qed.

(** ** Cleanup *)

(** [cleanup_old_landscapes] raises when the iteration of [glob] does,
    before any file is removed.  On the files that [glob] finds it does
    not raise, returns exactly the names it has unlinked, and unlinks a
    sibling if and only if its suffix is not ".webp" in any letter case and
    the file can be removed. *)
Theorem cleanup_spares_webp (found : glob_outcome) :
  match found with
  | GlobRaises e => cleanup_old_landscapes found = ([], Raise e)
  | GlobFinds files =>
      exists deleted,
        cleanup_old_landscapes found
        = (List.map Unlink deleted, Ok deleted) /\
        forall name,
          In name deleted <->
          exists file,
            In file files /\ sib_name file = name /\
            lower (sib_suffix file) <> ".webp" /\ sib_unlink_ok file = true
  end.
Proof.
  destruct found as [e | files]; [reflexivity |].
  exists (to_delete files). split; [apply unlink_old_eq |].
  intros name. unfold to_delete. rewrite in_map_iff. split.
  - intros (file & Hname & Hin). apply filter_In in Hin as [Hin Hkeep].
    apply andb_true_iff in Hkeep as [Hsuffix Hok].
    exists file. repeat split; try assumption.
    apply negb_true_iff, String.eqb_neq in Hsuffix. exact Hsuffix.
  - intros (file & Hin & Hname & Hsuffix & Hok).
    exists file. split; [exact Hname |]. apply filter_In. split; [exact Hin |].
    apply andb_true_iff. split; [| exact Hok].
    apply negb_true_iff, String.eqb_neq. exact Hsuffix.
Qed.

(** ** The paths of [process_video] *)

Lemma get_video_duration_silent (video_path : Path)
  (stub : nat -> probe_outcome) :
  results_of (fst (get_video_duration video_path stub)) = [] /\
  updates_of (fst (get_video_duration video_path stub)) = [] /\
  unlinked (fst (get_video_duration video_path stub)) = [].
Proof. apply probe_attempts_silent. Qed.

(** When ffmpeg exits with status 0 there is a single result.  If [glob]
    lists the siblings it is a success whose message is "OK (overwritten)"
    if the output file was there before and "OK" otherwise; it lists the
    deleted siblings, which are exactly the files unlinked.  If [glob]
    raises, the result is a failure with the text of the exception and no
    file is unlinked. *)
Theorem process_video_success_message (job : VideoJob.t)
  (config : WorkerConfig.t) (worker_id : Z) (w : world) (d : Q)
  (lines : list (string * Q)) :
  output_exists w && negb (VideoJob.overwrite_existing job) = false ->
  snd (get_video_duration (VideoJob.video_path job) (ffprobe w))
  = Ok (Some d) ->
  WorkerConfig.interval_count config <> 0 ->
  ffmpeg w = PopenRuns lines 0 ->
  snd (process_video job config worker_id w) = Ok tt /\
  match siblings w with
  | GlobFinds files =>
      results_of (fst (process_video job config worker_id w)) =
        [JobComplete.mk worker_id (display_name job) true
           (if output_exists w then "OK (overwritten)" else "OK")
           (Some (to_delete files)) (VideoJob.video_duration job)] /\
      unlinked (fst (process_video job config worker_id w))
      = to_delete files
  | GlobRaises e =>
      results_of (fst (process_video job config worker_id w)) =
        [JobComplete.mk worker_id (display_name job) false (exn_str e)
           None (VideoJob.video_duration job)] /\
      unlinked (fst (process_video job config worker_id w)) = []
  end.
Proof.
  intros Hskip Hd Hic Hff. rewrite process_video_cases. cbv zeta.
  rewrite Hskip.
  destruct (get_video_duration_silent (VideoJob.video_path job) (ffprobe w))
    as (Hr & _ & Hu).
  destruct (get_video_duration (VideoJob.video_path job) (ffprobe w))
    as [t1 r]. cbn [fst snd] in Hd, Hr, Hu. subst r.
  rewrite (sampling_plan_ok d config Hic), Hff.
  match goal with
  | |- context [read_lines ?a ?b ?c ?e ?l] =>
      destruct (read_lines_shape a b c e l) as (us & -> & _)
  end.
  cbn [fst snd Z.eqb].
  split; [reflexivity |].
  destruct (siblings w) as [e | files];
    rewrite results_of_app, unlinked_app, Hr, Hu; cbn [app];
    change (RunFfmpeg ?a ?b ?c :: ?t) with ([RunFfmpeg a b c] ++ t);
    rewrite !results_of_app, !unlinked_app, results_of_updates,
      unlinked_updates, ?results_of_unlinks, ?unlinked_unlinks;
    cbn; now rewrite ?app_nil_r.
Qed.

(** When no attempt of the probe gives a duration, the job ends with the
    failed result "Duration read failed" after three probes, and ffmpeg
    is not run. *)
Theorem process_video_duration_read_failed (job : VideoJob.t)
  (config : WorkerConfig.t) (worker_id : Z) (w : world) :
  output_exists w && negb (VideoJob.overwrite_existing job) = false ->
  (forall j, (j < 3)%nat -> classify (ffprobe w j) = Rejected) ->
  process_video job config worker_id w =
    (attempt_trace (VideoJob.video_path job) 3
     ++ [Put (MsgComplete
                (JobComplete.mk worker_id (display_name job) false
                   "Duration read failed" None
                   (VideoJob.video_duration job)))],
     Ok tt).
Proof.
  intros Hskip Hrej. rewrite process_video_cases. cbv zeta. rewrite Hskip.
  unfold get_video_duration, get_video_duration_retries.
  now rewrite (probe_attempts_exhaust (VideoJob.video_path job) (ffprobe w)
                 3 0 Hrej).
Qed.


(** When ffmpeg cannot be started the exception is caught inside
    [process_video]: the function returns normally and the single result
    is a failure whose message is the text of the exception. *)
Theorem process_video_popen_exception (job : VideoJob.t)
  (config : WorkerConfig.t) (worker_id : Z) (w : world) (d : Q) (e : exn) :
  output_exists w && negb (VideoJob.overwrite_existing job) = false ->
  snd (get_video_duration (VideoJob.video_path job) (ffprobe w))
  = Ok (Some d) ->
  WorkerConfig.interval_count config <> 0 ->
  ffmpeg w = PopenRaises e ->
  process_video job config worker_id w =
    (fst (get_video_duration (VideoJob.video_path job) (ffprobe w))
     ++ [Put (MsgComplete
                (JobComplete.mk worker_id (display_name job) false
                   (exn_str e) None (VideoJob.video_duration job)))],
     Ok tt).
Proof.
  intros Hskip Hd Hic Hff. rewrite process_video_cases. cbv zeta.
  rewrite Hskip.
  destruct (get_video_duration (VideoJob.video_path job) (ffprobe w))
    as [t1 r]. cbn in Hd. subst r.
  now rewrite (sampling_plan_ok d config Hic), Hff.
Qed.

Lemma sampling_plan_zero_intervals (duration : Q) (config : WorkerConfig.t) :
  WorkerConfig.interval_count config = 0 ->
  sampling_plan duration config = Raise ZeroDivisionError.
Proof.
  intros Hic. unfold sampling_plan, interval. rewrite Hic.
  now rewrite fdiv_zero.
Qed.

(** With [interval_count = 0] a job whose duration is read ends in a
    [ZeroDivisionError] that leaves [process_video]: nothing but the probe
    has run and no result is put. *)
Theorem process_video_zero_intervals (job : VideoJob.t)
  (config : WorkerConfig.t) (worker_id : Z) (w : world) (d : Q) :
  output_exists w && negb (VideoJob.overwrite_existing job) = false ->
  snd (get_video_duration (VideoJob.video_path job) (ffprobe w))
  = Ok (Some d) ->
  WorkerConfig.interval_count config = 0 ->
  process_video job config worker_id w =
    (fst (get_video_duration (VideoJob.video_path job) (ffprobe w)),
     Raise ZeroDivisionError)
  /\ results_of (fst (process_video job config worker_id w)) = [].
Proof.
  intros Hskip Hd Hic.
  assert (H : process_video job config worker_id w =
              (fst (get_video_duration (VideoJob.video_path job) (ffprobe w)),
               Raise ZeroDivisionError)).
  { rewrite process_video_cases. cbv zeta. rewrite Hskip.
    destruct (get_video_duration (VideoJob.video_path job) (ffprobe w))
      as [t1 r]. cbn in Hd. subst r.
    now rewrite (sampling_plan_zero_intervals d config Hic). }
  split; [exact H |]. rewrite H. apply get_video_duration_silent.
Qed.

Lemma snoc_app3 {A} (a c : list A) (r x : A) :
  a ++ r :: c ++ [x] = (a ++ r :: c) ++ [x].
Proof. now rewrite <- !app_assoc. Qed.

Lemma snoc_app4 {A} (a c d : list A) (r x : A) :
  a ++ r :: c ++ d ++ [x] = (a ++ r :: c ++ d) ++ [x].
Proof. rewrite <- !app_assoc. cbn. now rewrite <- !app_assoc. Qed.

Lemma results_of_cons_quiet (x : effect) (t : list effect) :
  is_job_complete x = false -> results_of (x :: t) = results_of t.
Proof. destruct x as [| | | | [u | c] |]; (discriminate || reflexivity). Qed.


(** All that a trace of [process_video] holds, on every path. *)
Lemma process_video_trace (job : VideoJob.t) (config : WorkerConfig.t)
  (worker_id : Z) (w : world) :
  Forall (fun c =>
            JobComplete.worker_id c = worker_id /\
            JobComplete.video_name c = display_name job /\
            JobComplete.video_duration c = VideoJob.video_duration job)
    (results_of (fst (process_video job config worker_id w))) /\
  Forall (fun u =>
            ProgressUpdate.worker_id u = worker_id /\
            ProgressUpdate.video_name u = display_name job /\
            1 <= ProgressUpdate.total_frames u /\
            (ProgressUpdate.progress u <= 100)%Q)
    (updates_of (fst (process_video job config worker_id w))) /\
  match snd (process_video job config worker_id w) with
  | Ok _ =>
      exists t0 c,
        fst (process_video job config worker_id w)
        = t0 ++ [Put (MsgComplete c)] /\ results_of t0 = []
  | Raise _ => results_of (fst (process_video job config worker_id w)) = []
  end.
Proof.
  rewrite (process_video_cases job config worker_id w). cbv zeta.
  destruct (output_exists w && negb (VideoJob.overwrite_existing job)).
  { cbn. repeat split; [repeat constructor | constructor |].
    eexists [], _. split; reflexivity. }
  destruct (get_video_duration_silent (VideoJob.video_path job) (ffprobe w))
    as (Hr & Hu & _).
  destruct (get_video_duration (VideoJob.video_path job) (ffprobe w))
    as [t1 [[duration |] | e]]; cbn [fst] in Hr, Hu.
  2:{ cbn [fst snd]. rewrite results_of_app, updates_of_app, Hr, Hu.
      repeat split; [repeat constructor | constructor |].
      eexists t1, _. split; [reflexivity | exact Hr]. }
  2:{ cbn [fst snd]. rewrite Hr, Hu. repeat split; constructor. }
  destruct (sampling_plan duration config) as [plan | e] eqn:Hplan.
  2:{ cbn [fst snd]. rewrite Hr, Hu. repeat split; constructor. }
  apply plan_expected_frames_positive in Hplan.
  destruct (ffmpeg w) as [e | lines returncode].
  { cbn [fst snd]. rewrite results_of_app, updates_of_app, Hr, Hu.
    repeat split; [repeat constructor | constructor |].
    eexists t1, _. split; [reflexivity | exact Hr]. }
  destruct (read_lines_shape worker_id (display_name job)
              (plan_expected_frames plan) (start_time w) lines)
    as (us & Hread & _ & Hall).
  rewrite Hread. cbn [fst snd].
  assert (Hus : Forall (fun u =>
                  ProgressUpdate.worker_id u = worker_id /\
                  ProgressUpdate.video_name u = display_name job /\
                  1 <= ProgressUpdate.total_frames u /\
                  (ProgressUpdate.progress u <= 100)%Q) us).
  { eapply List.Forall_impl; [| exact Hall].
    intros u (Hw & Hn & Ht & Hp). rewrite Ht. auto. }
  change (RunFfmpeg ?a ?b ?c :: ?t) with ([RunFfmpeg a b c] ++ t).
  destruct (returncode =? 0); [destruct (siblings w) as [eg | files] |].
  - rewrite !results_of_app, !updates_of_app, Hr, Hu, results_of_updates,
      updates_of_updates.
    cbn [app]. change (updates_of [RunFfmpeg _ _ _]) with (@nil ProgressUpdate.t).
    change (results_of [RunFfmpeg _ _ _]) with (@nil JobComplete.t).
    cbn [app]. rewrite app_nil_r.
    repeat split; [repeat constructor | exact Hus |].
    eexists _, _. split; [apply snoc_app3 |].
    rewrite results_of_app, Hr. cbn [app].
    rewrite results_of_cons_quiet by reflexivity.
    now rewrite results_of_updates.
  - rewrite !results_of_app, !updates_of_app, Hr, Hu, results_of_updates,
      updates_of_updates, results_of_unlinks, updates_of_unlinks.
    cbn [app]. change (updates_of [RunFfmpeg _ _ _]) with (@nil ProgressUpdate.t).
    change (results_of [RunFfmpeg _ _ _]) with (@nil JobComplete.t).
    cbn [app]. rewrite app_nil_r.
    repeat split; [repeat constructor | exact Hus |].
    eexists _, _. split; [apply snoc_app4 |].
    rewrite results_of_app, Hr. cbn [app].
    rewrite results_of_cons_quiet by reflexivity.
    now rewrite results_of_app, results_of_updates, results_of_unlinks.
  - rewrite !results_of_app, !updates_of_app, Hr, Hu, results_of_updates,
      updates_of_updates.
    cbn [app]. change (updates_of [RunFfmpeg _ _ _]) with (@nil ProgressUpdate.t).
    change (results_of [RunFfmpeg _ _ _]) with (@nil JobComplete.t).
    cbn [app]. rewrite app_nil_r.
    repeat split; [repeat constructor | exact Hus |].
    eexists _, _. split; [apply snoc_app3 |].
    rewrite results_of_app, Hr. cbn [app].
    rewrite results_of_cons_quiet by reflexivity.
    now rewrite results_of_updates.
Qed.

(** Every [JobComplete] that [process_video] puts names the worker and
    the display name of the job and carries the duration stored in the
    job, not the one just probed. *)
Theorem process_video_results_carry_job (job : VideoJob.t)
  (config : WorkerConfig.t) (worker_id : Z) (w : world)
  (c : JobComplete.t) :
  In c (results_of (fst (process_video job config worker_id w))) ->
  JobComplete.worker_id c = worker_id /\
  JobComplete.video_name c = display_name job /\
  JobComplete.video_duration c = VideoJob.video_duration job.
Proof.
  intros Hin.
  destruct (process_video_trace job config worker_id w) as (Hall & _).
  rewrite List.Forall_forall in Hall. now apply Hall.
Qed.

(** Every [ProgressUpdate] that [process_video] puts names the worker and
    the job, reports a percentage of at most 100 and an expected frame
    count of at least 1. *)
Theorem process_video_updates_bounded (job : VideoJob.t)
  (config : WorkerConfig.t) (worker_id : Z) (w : world)
  (u : ProgressUpdate.t) :
  In u (updates_of (fst (process_video job config worker_id w))) ->
  ProgressUpdate.worker_id u = worker_id /\
  ProgressUpdate.video_name u = display_name job /\
  1 <= ProgressUpdate.total_frames u /\
  (ProgressUpdate.progress u <= 100)%Q.
Proof.
  intros Hin.
  destruct (process_video_trace job config worker_id w) as (_ & Hall & _).
  rewrite List.Forall_forall in Hall. now apply Hall.
Qed.

(** [process_video] puts a result exactly when it returns: a normal return
    ends the trace with the one [JobComplete] of the job, after every
    progress update, and an exception leaves the trace without any. *)
Theorem process_video_result_iff_return (job : VideoJob.t)
  (config : WorkerConfig.t) (worker_id : Z) (w : world) :
  match snd (process_video job config worker_id w) with
  | Ok _ =>
      exists t0 c,
        fst (process_video job config worker_id w)
        = t0 ++ [Put (MsgComplete c)] /\ results_of t0 = []
  | Raise _ => results_of (fst (process_video job config worker_id w)) = []
  end.
Proof. apply process_video_trace. Qed.

(** ** The worker loop *)










(** ** More on the sampling plan *)

Lemma py_int_comp (x y : Q) : (x == y)%Q -> py_int x = py_int y.
Proof.
  intros Heq. destruct (Qlt_le_dec x 0) as [Hneg | Hpos].
  - rewrite !py_int_neg by lra. f_equal. apply Qfloor_comp. lra.
  - rewrite !py_int_nonneg by lra. now apply Qfloor_comp.
Qed.



(** ** More on the monitor *)

(** While running with a start time, the monitor counts every result it
    receives: [completed_videos] grows by one and
    [processed_video_duration] by the duration in the result, also when
    the ETA computation that follows raises. *)
Theorem monitor_counts_every_result (self : JellyfinLandscapeGUI)
  (m : JobComplete.t) (now t0 : Q) (alive_workers : Z) :
  is_stopping self = false ->
  batch_start_time self = Some t0 ->
  let self' :=
    fst (monitor_turn (Some (MsgComplete m)) now alive_workers self) in
  completed_videos self' = completed_videos self + 1 /\
  processed_video_duration self' =
    (processed_video_duration self + JobComplete.video_duration m)%Q /\
  total_videos self' = total_videos self /\
  total_video_duration self' = total_video_duration self /\
  job_queue self' = job_queue self /\
  snd (monitor_turn (Some (MsgComplete m)) now alive_workers self) = false.
Proof.
  intros Hstop Ht0. unfold monitor_turn, on_complete_running.
  rewrite Hstop. destruct self. cbn in *. subst.
  match goal with
  | |- context [eta_report ?el ?st] =>
      destruct (eta_report el st) as [[p l] | e]
  end; cbn; [| repeat split].
  match goal with
  | |- context [if ?a <=? ?b then _ else _] => destruct (a <=? b)
  end; repeat split.
Qed.

Lemma monitor_counts_every_result_aux (self : JellyfinLandscapeGUI)
  (m : JobComplete.t) (now t0 : Q) (alive_workers : Z) :
  is_stopping self = false ->
  batch_start_time self = Some t0 ->
  completed_videos
    (fst (monitor_turn (Some (MsgComplete m)) now alive_workers self))
  = completed_videos self + 1 /\
  processed_video_duration
    (fst (monitor_turn (Some (MsgComplete m)) now alive_workers self))
  = (processed_video_duration self + JobComplete.video_duration m)%Q /\
  total_videos
    (fst (monitor_turn (Some (MsgComplete m)) now alive_workers self))
  = total_videos self /\
  snd (monitor_turn (Some (MsgComplete m)) now alive_workers self) = false.
Proof.
  intros Hstop Ht0. unfold monitor_turn, on_complete_running.
  rewrite Hstop. destruct self. cbn in *. subst.
  match goal with
  | |- context [eta_report ?el ?st] =>
      destruct (eta_report el st) as [[p l] | e]
  end; cbn; [| repeat split].
  match goal with
  | |- context [if ?a <=? ?b then _ else _] => destruct (a <=? b)
  end; repeat split.
Qed.

Lemma eta_report_ok (elapsed : Q) (self : JellyfinLandscapeGUI) :
  total_videos self <> 0 ->
  ~ (elapsed == 0)%Q ->
  exists progress text, eta_report elapsed self = Ok (progress, text).
Proof.
  intros Htot Hne. unfold eta_report.
  rewrite (py_div_ok _ (inject_Z (total_videos self)))
    by (now apply inject_Z_nonzero).
  rewrite py_div_ok by exact Hne.
  destruct (_ || _); [destruct (Qltb _ _) |]; eexists; eexists; reflexivity.
Qed.

(** One result while running, at a time other than the start time. *)
Lemma monitor_turn_running_step (self : JellyfinLandscapeGUI)
  (m : JobComplete.t) (now t0 : Q) (alive_workers : Z) :
  is_stopping self = false ->
  batch_start_time self = Some t0 ->
  total_videos self <> 0 ->
  ~ (now - t0 == 0)%Q ->
  let self' :=
    fst (monitor_turn (Some (MsgComplete m)) now alive_workers self) in
  is_stopping self' = false /\
  batch_start_time self' = Some t0 /\
  is_running self' =
    (if total_videos self <=? completed_videos self + 1
     then false else is_running self) /\
  (total_videos self <= completed_videos self + 1 ->
   exists timing,
     List.last (log self') LogNoFiles
     = LogAllDone (completed_videos self + 1) (total_videos self) timing).
Proof.
  intros Hstop Ht0 Htot Hne. unfold monitor_turn, on_complete_running.
  rewrite Hstop. destruct self. cbn in *. subst.
  match goal with
  | |- context [eta_report ?e ?s] =>
      destruct (eta_report_ok e s) as (p & l & ->); [exact Htot | exact Hne |]
  end.
  cbn.
  match goal with
  | |- context [if ?a <=? ?b then _ else _] => destruct (a <=? b) eqn:E
  end; cbn; repeat split.
  - intros _. eexists. apply last_last.
  - intros H. apply Z.leb_gt in E. lia.
Qed.

(** The inputs of the monitor that are results. *)
Lemma monitor_completes_batch_aux (t0 : Q)
  (results : list (JobComplete.t * Q * Z)) :
  forall self : JellyfinLandscapeGUI,
    is_running self = true ->
    is_stopping self = false ->
    batch_start_time self = Some t0 ->
    0 <= completed_videos self ->
    total_videos self = completed_videos self + Z.of_nat (length results) ->
    results <> [] ->
    (forall m now alive, In (m, now, alive) results -> ~ (now - t0 == 0)%Q) ->
    let self' :=
      monitor_progress
        (List.map (fun r => (Some (MsgComplete r.1.1), r.1.2, r.2)) results)
        self in
    is_running self' = false /\
    is_stopping self' = false /\
    completed_videos self' = total_videos self /\
    (processed_video_duration self' ==
     processed_video_duration self
     + Qsum (List.map (fun r => JobComplete.video_duration r.1.1) results))%Q
    /\
    exists timing,
      List.last (log self') LogNoFiles
      = LogAllDone (total_videos self) (total_videos self) timing.
Proof.
  induction results as [| [[m now] alive] rest IH];
    intros self Hrun Hstop Ht0 Hc Htot Hne Htime; [congruence |].
  cbn [List.map monitor_progress fst snd]. rewrite Hrun. cbn [orb].
  assert (Htot0 : total_videos self <> 0) by (cbn in Htot; lia).
  assert (Hnow : ~ (now - t0 == 0)%Q) by (apply (Htime m now alive); now left).
  destruct (monitor_counts_every_result_aux self m now t0 alive Hstop Ht0)
    as (Hc' & Hp' & Htv' & Hbreak).
  destruct (monitor_turn_running_step self m now t0 alive Hstop Ht0 Htot0 Hnow)
    as (Hstop' & Ht0' & Hrun' & Hlog').
  destruct (monitor_turn (Some (MsgComplete m)) now alive self)
    as [self1 broke]. cbn [fst snd] in *. subst broke.
  destruct rest as [| r rest].
  - cbn [monitor_progress List.map]. cbn in Htot.
    assert (E : (total_videos self <=? completed_videos self + 1) = true)
      by (apply Z.leb_le; lia).
    rewrite E in Hrun'. repeat split; try assumption.
    + lia.
    + rewrite Hp'. cbn. lra.
    + destruct Hlog' as [timing Hl]; [lia |].
      exists timing. rewrite Hl. f_equal. lia.
  - assert (E : (total_videos self <=? completed_videos self + 1) = false).
    { apply Z.leb_gt. cbn [length] in Htot. lia. }
    rewrite E in Hrun'.
    destruct (IH self1) as (H1 & H2 & H3 & H4 & H5); try assumption.
    + congruence.
    + lia.
    + cbn [length] in *. lia.
    + discriminate.
    + intros m' now' alive' Hin. apply (Htime m' now' alive'). now right.
    + rewrite Htv' in *. repeat split; try assumption.
      rewrite H4, Hp'. cbn [List.map Qsum List.fold_right fst]. lra.
Qed.

(** A batch that is running with [n] results still to come, each received
    at a time other than the start time, ends with the [n]-th of them:
    [completed_videos] reaches [total_videos], [is_running] is cleared,
    the processed duration has grown by the durations in the results and
    the log ends with the "All done" entry. *)
Theorem monitor_completes_batch (t0 : Q)
  (results : list (JobComplete.t * Q * Z)) (self : JellyfinLandscapeGUI) :
  is_running self = true ->
  is_stopping self = false ->
  batch_start_time self = Some t0 ->
  0 <= completed_videos self ->
  total_videos self = completed_videos self + Z.of_nat (length results) ->
  results <> [] ->
  (forall m now alive, In (m, now, alive) results -> ~ (now - t0 == 0)%Q) ->
  let self' :=
    monitor_progress
      (List.map (fun r => (Some (MsgComplete r.1.1), r.1.2, r.2)) results)
      self in
  is_running self' = false /\
  is_stopping self' = false /\
  completed_videos self' = total_videos self /\
  (processed_video_duration self' ==
   processed_video_duration self
   + Qsum (List.map (fun r => JobComplete.video_duration r.1.1) results))%Q
  /\
  exists timing,
    List.last (log self') LogNoFiles
    = LogAllDone (total_videos self) (total_videos self) timing.
Proof. apply monitor_completes_batch_aux. Qed.

(** A result received past the warm-up at the very time of the batch
    start makes the rate division raise: the result is counted and its
    line is logged, nothing is logged about the error, the label keeps its
    text and the completion check is skipped, so [is_running] stays as it
    was even if this was the last result. *)
Theorem monitor_zero_elapsed_skips_completion (self : JellyfinLandscapeGUI)
  (m : JobComplete.t) (now t0 : Q) (alive_workers : Z) :
  is_stopping self = false ->
  batch_start_time self = Some t0 ->
  1 <= completed_videos self ->
  (now - t0 == 0)%Q ->
  let self' :=
    fst (monitor_turn (Some (MsgComplete m)) now alive_workers self) in
  completed_videos self' = completed_videos self + 1 /\
  is_running self' = is_running self /\
  overall_label self' = overall_label self /\
  log self'
  = log self
      ++ [LogJob (JobComplete.success m) (completed_videos self + 1)
            (total_videos self) (JobComplete.video_name m)
            (JobComplete.message m)
            (if JobComplete.success m
             then default [] (JobComplete.deleted_files m) else [])].
Proof.
  intros Hstop Ht0 Hc Hz. unfold monitor_turn, on_complete_running.
  rewrite Hstop. destruct self. cbn in *. subst.
  unfold eta_report. cbn.
  assert ((2 <=? completed_videos0 + 1) = true) as ->
    by (apply Z.leb_le; lia).
  cbn. rewrite py_div_zero by exact Hz. cbn.
  repeat split.
Qed.

(** ** More on stopping *)

(** [stop_processing] touches no counter, does nothing on a batch that is
    not running, and so does nothing when asked a second time. *)
Theorem stop_processing_idempotent (turns turns' : list queue_turn)
  (self : JellyfinLandscapeGUI) :
  (is_running self = false -> stop_processing turns self = self) /\
  stop_processing turns' (stop_processing turns self)
  = stop_processing turns self /\
  completed_videos (stop_processing turns self) = completed_videos self /\
  total_videos (stop_processing turns self) = total_videos self /\
  processed_video_duration (stop_processing turns self)
  = processed_video_duration self /\
  total_video_duration (stop_processing turns self)
  = total_video_duration self.
Proof.
  assert (Hidle : forall ts s,
             is_running s = false -> stop_processing ts s = s).
  { intros ts s Hs. unfold stop_processing. now rewrite Hs. }
  split; [apply Hidle |]. split.
  - apply Hidle. unfold stop_processing.
    destruct (is_running self) eqn:E; [| exact E].
    destruct self. reflexivity.
  - unfold stop_processing. destruct (is_running self); destruct self;
      repeat split.
Qed.

(** While stopping, no turn of the monitor changes the processed or the
    total duration, the number of videos or the job queue; a result adds
    at most one to [completed_videos]. *)
Theorem stopping_leaves_durations (self : JellyfinLandscapeGUI)
  (got : option msg) (now : Q) (alive_workers : Z) :
  is_stopping self = true ->
  let self' := fst (monitor_turn got now alive_workers self) in
  processed_video_duration self' = processed_video_duration self /\
  total_video_duration self' = total_video_duration self /\
  total_videos self' = total_videos self /\
  job_queue self' = job_queue self /\
  completed_videos self <= completed_videos self'
  <= completed_videos self + 1.
Proof.
  intros Hstop. unfold monitor_turn. rewrite Hstop.
  destruct got as [[u | m] |].
  - cbn. repeat split; lia.
  - unfold on_complete_stopping.
    destruct (JobComplete.success m && _);
      destruct (alive_workers =? 0); destruct self; unfold _finish_stop;
      cbn;
      try match goal with |- context [0 <? ?x] => destruct (0 <? x) end;
      cbn; repeat split; lia.
  - destruct (alive_workers =? 0); destruct self; unfold _finish_stop; cbn;
      try match goal with |- context [0 <? ?x] => destruct (0 <? x) end;
      cbn; repeat split; lia.
Qed.

(** While stopping, the first result or empty poll after the last worker
    has exited ends the monitor loop: later inputs are not read, the
    worker handles are released, both flags are off and the label reports
    [total_videos - completed_videos] cancelled videos. *)
Theorem monitor_finishes_stop (self : JellyfinLandscapeGUI)
  (got : option msg) (now : Q) (rest : list (option msg * Q * Z)) :
  is_stopping self = true ->
  (forall u, got <> Some (MsgProgress u)) ->
  let self' := monitor_progress ((got, now, 0) :: rest) self in
  self' = fst (monitor_turn got now 0 self) /\
  is_stopping self' = false /\
  is_running self' = is_running self /\
  workers self' = [] /\
  overall_label self'
  = LabelStopped (completed_videos self') (total_videos self')
      (total_videos self' - completed_videos self').
Proof.
  intros Hstop Hgot. cbn [monitor_progress]. rewrite Hstop, orb_true_r.
  unfold monitor_turn. rewrite Hstop.
  destruct got as [[u | m] |]; [now destruct (Hgot u) | |].
  - unfold on_complete_stopping. cbn [Z.eqb].
    destruct (JobComplete.success m && _); destruct self;
      unfold _finish_stop; cbn;
      try match goal with |- context [0 <? ?x] => destruct (0 <? x) end;
      cbn; repeat split.
  - destruct self. unfold _finish_stop. cbn.
    try match goal with |- context [0 <? ?x] => destruct (0 <? x) end;
      cbn; repeat split.
Qed.

(** ** More on the pre-pass *)




Lemma recorded_by_name (probe_of : string -> nat -> probe_outcome)
  (v1 v2 : Path) :
  path_str v1 = path_str v2 -> recorded probe_of v1 = recorded probe_of v2.
Proof.
  intros Heq. unfold recorded, get_video_duration, get_video_duration_retries.
  rewrite Heq. now rewrite (probe_attempts_result v1 v2).
Qed.

Lemma recorded_probed (probe_of : string -> nat -> probe_outcome)
  (v : Path) :
  (default 0 (recorded probe_of v) == default 0 (probed probe_of v))%Q.
Proof.
  unfold recorded, probed.
  destruct (snd (get_video_duration v (probe_of (path_str v))))
    as [[d |] |]; try reflexivity.
  destruct (truthy d) eqn:E; [reflexivity |].
  apply truthy_false in E. cbn. lra.
Qed.

(** One file of the scan: the cache gets the duration recorded for the
    file under its name, and nothing else changes in it. *)
Lemma _scan_videos_step (probe_of : string -> nat -> probe_outcome)
  (video : Path) (rest : list Path) (self self' : JellyfinLandscapeGUI)
  (t : list effect) :
  _scan_videos probe_of (video :: rest) self = (t, Ok self') ->
  exists t2 s1,
    _scan_videos probe_of rest s1 = (t2, Ok self') /\
    video_durations s1 =
      match recorded probe_of video with
      | Some d => <[path_str video := d]> (video_durations self)
      | None => video_durations self
      end.
Proof.
  cbn [_scan_videos]. unfold recorded.
  destruct (get_video_duration video (probe_of (path_str video)))
    as [t1 [r | e]]; [| discriminate]. cbn [snd].
  unfold bind.
  match goal with
  | |- context [_scan_videos probe_of rest ?s] =>
      destruct (_scan_videos probe_of rest s) as [t2 res] eqn:Hrest;
      intros [= _ ->]; exists t2, s
  end.
  split; [exact Hrest |].
  destruct r as [d |]; [destruct (truthy d) |]; destruct self; reflexivity.
Qed.

Lemma _scan_videos_keeps (probe_of : string -> nat -> probe_outcome)
  (v : Path) (mp4_files : list Path) :
  forall (self self' : JellyfinLandscapeGUI) (t : list effect),
    _scan_videos probe_of mp4_files self = (t, Ok self') ->
    video_durations self !! path_str v = recorded probe_of v ->
    video_durations self' !! path_str v = recorded probe_of v.
Proof.
  induction mp4_files as [| video rest IH]; intros self self' t Hscan Hinit.
  - now injection Hscan as _ <-.
  - apply _scan_videos_step in Hscan as (t2 & s1 & Hrest & Hvd).
    apply (IH s1 self' t2 Hrest). rewrite Hvd.
    destruct (String.eqb_spec (path_str video) (path_str v)) as [Heq | Hne].
    + rewrite <- (recorded_by_name probe_of video v Heq) in *.
      destruct (recorded probe_of video); [| exact Hinit].
      rewrite <- Heq. apply lookup_insert_eq.
    + destruct (recorded probe_of video); [| exact Hinit].
      now rewrite lookup_insert_ne.
Qed.

(** After the scan, the duration cached under the name of a scanned file
    is the one recorded for it. *)
Lemma _scan_videos_lookup (probe_of : string -> nat -> probe_outcome)
  (v : Path) (mp4_files : list Path) :
  forall (self self' : JellyfinLandscapeGUI) (t : list effect),
    _scan_videos probe_of mp4_files self = (t, Ok self') ->
    video_durations self !! path_str v = None ->
    In v mp4_files ->
    video_durations self' !! path_str v = recorded probe_of v.
Proof.
  induction mp4_files as [| video rest IH];
    intros self self' t Hscan Hinit Hin; [destruct Hin |].
  apply _scan_videos_step in Hscan as (t2 & s1 & Hrest & Hvd).
  destruct (String.eqb_spec (path_str video) (path_str v)) as [Heq | Hne].
  - apply (_scan_videos_keeps probe_of v rest s1 self' t2 Hrest).
    rewrite Hvd, <- (recorded_by_name probe_of video v Heq).
    destruct (recorded probe_of video); [| exact Hinit].
    rewrite <- Heq. apply lookup_insert_eq.
  - destruct Hin as [-> | Hin]; [congruence |].
    apply (IH s1 self' t2 Hrest); [| exact Hin]. rewrite Hvd.
    destruct (recorded probe_of video); [| exact Hinit].
    now rewrite lookup_insert_ne.
Qed.

Lemma Qsum_map_ext {A} (f g : A -> Q) (l : list A) :
  (forall x, In x l -> (f x == g x)%Q) ->
  (Qsum (List.map f l) == Qsum (List.map g l))%Q.
Proof.
  induction l as [| x l IH]; intros H; [reflexivity |].
  cbn. rewrite (H x) by now left. rewrite IH; [reflexivity |].
  intros y Hy. apply H. now right.
Qed.

Lemma jobs_of_queue (jobs : list VideoJob.t) (n : nat) :
  jobs_of (List.map Some jobs ++ List.repeat None n) = jobs.
Proof.
  unfold jobs_of. rewrite omap_app.
  assert (H1 : omap id (List.map Some jobs) = jobs).
  { induction jobs; [reflexivity | cbn; now f_equal]. }
  assert (H2 : omap id (List.repeat (@None VideoJob.t) n) = []).
  { induction n; [reflexivity | exact IHn]. }
  now rewrite H1, H2, app_nil_r.
Qed.

Lemma _scan_videos_frame (probe_of : string -> nat -> probe_outcome)
  (mp4_files : list Path) :
  forall (self self' : JellyfinLandscapeGUI) (t : list effect),
    _scan_videos probe_of mp4_files self = (t, Ok self') ->
    is_running self' = is_running self /\
    is_stopping self' = is_stopping self /\
    completed_videos self' = completed_videos self /\
    processed_video_duration self' = processed_video_duration self.
Proof.
  induction mp4_files as [| video rest IH]; intros self self' t Hscan.
  - injection Hscan as _ <-. repeat split.
  - cbn [_scan_videos] in Hscan.
    destruct (get_video_duration video (probe_of (path_str video)))
      as [t1 [r | e]]; [| discriminate].
    unfold bind in Hscan.
    match type of Hscan with
    | context [_scan_videos probe_of rest ?s] =>
        specialize (IH s);
        destruct (_scan_videos probe_of rest s) as [t2 res] eqn:Hrest
    end.
    injection Hscan as _ ->.
    destruct (IH self' t2 eq_refl) as (H1 & H2 & H3 & H4).
    rewrite H1, H2, H3, H4.
    destruct r as [d |]; [destruct (truthy d) |]; destruct self;
      repeat split.
Qed.

(** The state that the pre-pass hands to the workers and the monitor. *)
Lemma prepass_state (probe_of : string -> nat -> probe_outcome)
  (mp4_files : list Path) (folder : Path) (overwrite : bool) (N : Z)
  (now : Q) (self : JellyfinLandscapeGUI) :
  mp4_files <> [] ->
  (forall v, In v mp4_files -> probe_runs (probe_of (path_str v))) ->
  exists t self' jobs,
    _scan_videos_and_start probe_of mp4_files folder overwrite N now
      (start_processing mp4_files self) = (t, Ok self') /\
    job_queue self' = List.map Some jobs ++ List.repeat None (Z.to_nat N) /\
    (total_video_duration self' ==
     Qsum (List.map VideoJob.video_duration jobs))%Q /\
    total_videos self' = Z.of_nat (length jobs) /\
    length jobs = length mp4_files /\
    is_running self' = true /\
    is_stopping self' = false /\
    completed_videos self' = 0 /\
    processed_video_duration self' = 0%Q /\
    batch_start_time self' = Some now.
Proof.
  intros Hne Hruns.
  destruct (_scan_videos_spec probe_of mp4_files
              (start_processing mp4_files self) Hruns)
    as (t & s1 & Hscan & Htv & Htot & _).
  destruct (_scan_videos_frame probe_of mp4_files _ s1 t Hscan)
    as (Hrun & Hstop & Hcompl & Hproc).
  assert (Hstart : video_durations (start_processing mp4_files self) = ∅
                   /\ total_video_duration (start_processing mp4_files self)
                      = 0%Q
                   /\ total_videos (start_processing mp4_files self)
                      = Z.of_nat (length mp4_files)
                   /\ is_running (start_processing mp4_files self) = true
                   /\ is_stopping (start_processing mp4_files self) = false
                   /\ completed_videos (start_processing mp4_files self) = 0
                   /\ processed_video_duration
                        (start_processing mp4_files self) = 0%Q).
  { destruct mp4_files; [congruence |]. destruct self. repeat split. }
  destruct Hstart as (Hempty & Hzero & Hlen & Hr0 & Hs0 & Hc0 & Hp0).
  rewrite Hzero in Htot. rewrite Hr0 in Hrun. rewrite Hs0 in Hstop.
  rewrite Hc0 in Hcompl. rewrite Hp0 in Hproc.
  destruct (_finalize_scan_and_start_spec mp4_files folder overwrite N now s1)
    as (jobs & Hq & Hpaths & Hjobs & Ht).
  unfold _scan_videos_and_start. rewrite Hscan. unfold bind, ret.
  eexists. eexists. exists jobs.
  split; [rewrite app_nil_r; reflexivity |].
  split; [exact Hq |]. rewrite Ht. split; [| split; [| split]].
  - rewrite Htot, Qplus_0_l, <- Hpaths, List.map_map.
    symmetry. apply Qsum_map_ext. intros job Hin.
    destruct (Hjobs job Hin) as [Hfile Hdur]. rewrite Hdur.
    rewrite (_scan_videos_lookup probe_of (VideoJob.video_path job)
               mp4_files _ s1 t Hscan).
    + apply recorded_probed.
    + rewrite Hempty. apply lookup_empty.
    + exact Hfile.
  - assert (Hfin : total_videos
                     (_finalize_scan_and_start mp4_files folder overwrite N
                        now s1) = total_videos s1)
      by (destruct s1; reflexivity).
    rewrite Hfin, Htv, Hlen, <- Hpaths, length_map. reflexivity.
  - rewrite <- Hpaths. now rewrite length_map.
  - destruct s1. cbn in *. repeat split; assumption.
Qed.

(** When ffprobe can be run on every file, the total duration that the
    ETA is weighted against is the sum of the durations carried by the
    queued jobs. *)
Theorem prepass_total_is_sum_of_jobs
  (probe_of : string -> nat -> probe_outcome) (mp4_files : list Path)
  (folder : Path) (overwrite : bool) (N : Z) (now : Q)
  (self : JellyfinLandscapeGUI) :
  mp4_files <> [] ->
  (forall v, In v mp4_files -> probe_runs (probe_of (path_str v))) ->
  exists t self',
    _scan_videos_and_start probe_of mp4_files folder overwrite N now
      (start_processing mp4_files self) = (t, Ok self') /\
    (total_video_duration self' ==
     Qsum (List.map VideoJob.video_duration (jobs_of (job_queue self'))))%Q /\
    total_videos self' = Z.of_nat (length (jobs_of (job_queue self'))).
Proof.
  intros Hne Hruns.
  destruct (prepass_state probe_of mp4_files folder overwrite N now self
              Hne Hruns) as (t & self' & jobs & Hrun & Hq & Hsum & Hn & _).
  exists t, self'. split; [exact Hrun |].
  rewrite Hq, jobs_of_queue. split; assumption.
Qed.

Lemma make_jobs_fields (folder : Path) (overwrite : bool)
  (self : JellyfinLandscapeGUI) (mp4_files : list Path) :
  forall idx : Z,
    List.map VideoJob.index (make_jobs mp4_files idx folder overwrite self)
    = List.map (fun i => idx + Z.of_nat i) (List.seq 0 (length mp4_files))
    /\
    Forall (fun job =>
              VideoJob.total job = total_videos self /\
              VideoJob.base_path job = Some folder /\
              VideoJob.overwrite_existing job = overwrite)
      (make_jobs mp4_files idx folder overwrite self).
Proof.
  induction mp4_files as [| video rest IH]; intros idx.
  - split; [reflexivity | constructor].
  - destruct (IH (idx + 1)) as [Hidx Hall]. cbn [make_jobs List.map length].
    split.
    + cbn [List.seq List.map]. f_equal; [cbn; lia |].
      rewrite Hidx, <- List.seq_shift, List.map_map.
      apply List.map_ext. intros i. lia.
    + constructor; [repeat split | exact Hall].
Qed.

(** The queue that the coordinator hands to the workers: the jobs are
    numbered from 1 in the order of the files, each carries the number of
    videos of the batch, the scanned folder and the overwrite choice; [N]
    pills follow; the worker ids are 1 to [N]; the start time is set. *)
Theorem finalize_queue_layout (mp4_files : list Path) (folder : Path)
  (overwrite : bool) (N : Z) (now : Q) (self : JellyfinLandscapeGUI) :
  let self' :=
    _finalize_scan_and_start mp4_files folder overwrite N now self in
  job_queue self'
  = List.map Some (jobs_of (job_queue self'))
    ++ List.repeat None (Z.to_nat N) /\
  List.map VideoJob.video_path (jobs_of (job_queue self')) = mp4_files /\
  List.map VideoJob.index (jobs_of (job_queue self'))
  = List.map (fun i => 1 + Z.of_nat i) (List.seq 0 (length mp4_files)) /\
  Forall (fun job =>
            VideoJob.total job = total_videos self /\
            VideoJob.base_path job = Some folder /\
            VideoJob.overwrite_existing job = overwrite)
    (jobs_of (job_queue self')) /\
  (forall id, In id (workers self') <-> 1 <= id <= N) /\
  batch_start_time self' = Some now.
Proof.
  cbv zeta.
  assert (Hq : exists s,
            total_videos s = total_videos self /\
            job_queue (_finalize_scan_and_start mp4_files folder overwrite N
                         now self)
            = List.map Some (make_jobs mp4_files 1 folder overwrite s)
              ++ List.repeat None (Z.to_nat N)).
  { unfold _finalize_scan_and_start. cbv zeta. eexists.
    split; [| destruct self; reflexivity]. destruct self. reflexivity. }
  destruct Hq as (s0 & Hs0 & Hq). rewrite Hq, jobs_of_queue.
  destruct (make_jobs_spec folder overwrite s0 mp4_files 1) as [Hpaths _].
  destruct (make_jobs_fields folder overwrite s0 mp4_files 1) as [Hidx Hall].
  rewrite Hs0 in Hall.
  assert (Hw : workers (_finalize_scan_and_start mp4_files folder overwrite
                          N now self) = worker_ids N)
    by (destruct self; reflexivity).
  assert (Hb : batch_start_time
                 (_finalize_scan_and_start mp4_files folder overwrite N now
                    self) = Some now)
    by (destruct self; reflexivity).
  split; [reflexivity |]. split; [exact Hpaths |]. split; [exact Hidx |].
  split; [exact Hall |]. split; [| exact Hb].
  intros id. rewrite Hw. unfold worker_ids. rewrite in_map_iff. split.
  - intros (i & <- & Hi). apply in_seq in Hi. lia.
  - intros [H1 H2]. exists (Z.to_nat (id - 1)). split; [lia |].
    apply in_seq. lia.
Qed.

(** ** Worker panels *)

Lemma string_length_app (s1 s2 : string) :
  String.length (s1 ++ s2)%string
  = (String.length s1 + String.length s2)%nat.
Proof.
  induction s1 as [| c s1 IH]; [reflexivity |].
  change (String.length (String c (s1 +:+ s2))
          = S (String.length s1 + String.length s2)).
  cbn [String.length]. now f_equal.
Qed.

Lemma substring_all (s : string) :
  String.substring 0 (String.length s) s = s.
Proof.
  induction s as [| c s IH]; [reflexivity |].
  cbn [String.length String.substring]. now f_equal.
Qed.

Lemma substring_split (n : nat) :
  forall s : string,
    (n <= String.length s)%nat ->
    exists prefix,
      s = (prefix ++ String.substring n (String.length s - n) s)%string /\
      String.length prefix = n /\
      String.length (String.substring n (String.length s - n) s)
      = (String.length s - n)%nat.
Proof.
  induction n as [| n IH]; intros s Hn.
  - exists "". rewrite Nat.sub_0_r, substring_all. repeat split.
  - destruct s as [| c s]; [cbn in Hn; lia |].
    cbn [String.length] in Hn.
    destruct (IH s) as (p & Hp & Hlen & Hsub); [lia |].
    exists (String c p).
    change (String.length (String c s) - S n)%nat
      with (String.length s - n)%nat.
    change (String.substring (S n) (String.length s - n) (String c s))
      with (String.substring n (String.length s - n) s).
    repeat split; [| cbn [String.length]; now f_equal | exact Hsub].
    change (String c s = String c (p +:+ String.substring n
                                     (String.length s - n) s)).
    now f_equal.
Qed.

(** A displayed name never has more than 40 characters: a name of up to
    40 characters is shown as it is, a longer one as three dots followed
    by its last 37 characters. *)
Theorem shorten_spec (display_name : string) :
  (String.length (shorten display_name) <= 40)%nat /\
  ((String.length display_name <= 40)%nat ->
   shorten display_name = display_name) /\
  ((40 < String.length display_name)%nat ->
   exists prefix suffix,
     display_name = (prefix ++ suffix)%string /\
     String.length suffix = 37%nat /\
     shorten display_name = ("..." ++ suffix)%string).
Proof.
  unfold shorten.
  destruct (40 <? String.length display_name)%nat eqn:E.
  - apply Nat.ltb_lt in E.
    destruct (substring_split (String.length display_name - 37) display_name)
      as (p & Hp & Hlen & Hsub); [lia |].
    replace (String.length display_name
             - (String.length display_name - 37))%nat
      with 37%nat in * by lia.
    repeat split.
    + rewrite string_length_app, Hsub. cbn. lia.
    + lia.
    + intros _. eexists p, _. repeat split; [exact Hp | exact Hsub].
  - apply Nat.ltb_ge in E. repeat split; [exact E | lia].
Qed.

(** A message only reaches the panel of its worker: the number of panels
    never changes, an id outside [1 .. len(worker_panels)] changes
    nothing, and an id inside changes the panel at index [id - 1] and no
    other. *)
Theorem on_panel_bounds (worker_id : Z)
  (f : WorkerPanel.t -> WorkerPanel.t) (worker_panels : list WorkerPanel.t) :
  length (on_panel worker_id f worker_panels) = length worker_panels /\
  (~ (1 <= worker_id <= Z.of_nat (length worker_panels)) ->
   on_panel worker_id f worker_panels = worker_panels) /\
  (1 <= worker_id <= Z.of_nat (length worker_panels) ->
   on_panel worker_id f worker_panels !! Z.to_nat (worker_id - 1)
   = f <$> worker_panels !! Z.to_nat (worker_id - 1) /\
   forall i, i <> Z.to_nat (worker_id - 1) ->
             on_panel worker_id f worker_panels !! i = worker_panels !! i).
Proof.
  unfold on_panel.
  destruct ((0 <? worker_id)
            && (worker_id <=? Z.of_nat (length worker_panels))) eqn:E.
  - apply andb_true_iff in E as [E1 E2].
    apply Z.ltb_lt in E1. apply Z.leb_le in E2.
    split; [apply length_alter |]. split; [lia |]. intros _. split.
    + apply list_lookup_alter_eq.
    + intros i Hi. apply list_lookup_alter_ne. congruence.
  - apply andb_false_iff in E.
    split; [reflexivity |]. split; [reflexivity |].
    intros [H1 H2]. destruct E as [E | E].
    + apply Z.ltb_ge in E. lia.
    + apply Z.leb_gt in E. lia.
Qed.

Lemma on_panel_ids (worker_id : Z) (f : WorkerPanel.t -> WorkerPanel.t)
  (worker_panels : list WorkerPanel.t) :
  (forall p, WorkerPanel.worker_id (f p) = WorkerPanel.worker_id p) ->
  List.map WorkerPanel.worker_id (on_panel worker_id f worker_panels)
  = List.map WorkerPanel.worker_id worker_panels.
Proof.
  intros Hf. unfold on_panel. destruct (_ && _); [| reflexivity].
  generalize (Z.to_nat (worker_id - 1)). intros i. revert i.
  induction worker_panels as [| p ps IH]; intros i; [reflexivity |].
  destruct i as [| i]; cbn; [now rewrite Hf |]. f_equal. apply IH.
Qed.

Lemma map_set_idle_ids (worker_panels : list WorkerPanel.t) :
  List.map WorkerPanel.worker_id (List.map set_idle worker_panels)
  = List.map WorkerPanel.worker_id worker_panels.
Proof. rewrite List.map_map. reflexivity. Qed.

Lemma show_result_ids (m : JobComplete.t)
  (worker_panels : list WorkerPanel.t) :
  List.map WorkerPanel.worker_id (show_result m worker_panels)
  = List.map WorkerPanel.worker_id worker_panels.
Proof.
  unfold show_result. apply on_panel_ids. intros p.
  destruct (JobComplete.success m); reflexivity.
Qed.

(** No turn of the monitor adds, removes or renumbers a panel. *)
Theorem monitor_turn_panels_ids (got : option msg) (now : Q)
  (alive_workers : Z) (self : JellyfinLandscapeGUI)
  (worker_panels : list WorkerPanel.t) :
  List.map WorkerPanel.worker_id
    (monitor_turn_panels got now alive_workers self worker_panels)
  = List.map WorkerPanel.worker_id worker_panels.
Proof.
  unfold monitor_turn_panels. destruct got as [[u | m] |].
  - apply on_panel_ids. reflexivity.
  - destruct (is_stopping self).
    + destruct (alive_workers =? 0);
        rewrite ?map_set_idle_ids; apply show_result_ids.
    + destruct (batch_start_time self); [| reflexivity].
      destruct (on_complete_running m now self) as [s' [u | e]];
        [destruct (_ <=? _) |];
        rewrite ?map_set_idle_ids; apply show_result_ids.
  - destruct (_ && _); rewrite ?map_set_idle_ids; reflexivity.
Qed.

Lemma all_idle (worker_panels : list WorkerPanel.t) :
  Forall (fun p =>
            WorkerPanel.video_label p = PanelIdle /\
            WorkerPanel.progress p = 0%Q /\
            WorkerPanel.stats_label p = StatsIdle)
    (List.map set_idle worker_panels).
Proof.
  induction worker_panels; constructor; [repeat split | assumption].
Qed.

(** When the monitor ends a stop (a result or an empty poll with no
    worker alive), every panel is idle afterwards, the one of the result
    included. *)
Theorem panels_idle_after_stop (got : option msg) (now : Q)
  (self : JellyfinLandscapeGUI) (worker_panels : list WorkerPanel.t) :
  is_stopping self = true ->
  (forall u, got <> Some (MsgProgress u)) ->
  Forall (fun p =>
            WorkerPanel.video_label p = PanelIdle /\
            WorkerPanel.progress p = 0%Q /\
            WorkerPanel.stats_label p = StatsIdle)
    (monitor_turn_panels got now 0 self worker_panels).
Proof.
  intros Hstop Hgot. unfold monitor_turn_panels. rewrite Hstop.
  destruct got as [[u | m] |]; [now destruct (Hgot u) | |];
    apply all_idle.
Qed.

(** ** Settings *)

Lemma save_settings_lookups (e : Entries.t) :
  save_settings e !! "folder" = Some (VStr (Entries.folder e)) /\
  save_settings e !! "workers" = Some (VInt (Entries.workers e)) /\
  save_settings e !! "fps" = Some (VInt (Entries.fps e)) /\
  save_settings e !! "width" = Some (VInt (Entries.width e)) /\
  save_settings e !! "quality" = Some (VInt (Entries.quality e)) /\
  save_settings e !! "intervals" = Some (VInt (Entries.intervals e)) /\
  save_settings e !! "clip_length" = Some (VFloat (Entries.clip_length e)) /\
  save_settings e !! "bridge_percent"
  = Some (VFloat (Entries.bridge_percent e)) /\
  save_settings e !! "bridge_abs" = Some (VFloat (Entries.bridge_abs e)) /\
  save_settings e !! "bridge_window"
  = Some (VFloat (Entries.bridge_window e)) /\
  save_settings e !! "recursive" = Some (VBool (Entries.recursive e)) /\
  save_settings e !! "overwrite" = Some (VBool (Entries.overwrite e)).
Proof. unfold save_settings. repeat split; by simplify_map_eq. Qed.

(** Settings survive a session: loading the dictionary that
    [save_settings] built sets every variable to the saved value; only
    the folder keeps its current value when the saved folder no longer
    exists. *)
Theorem load_settings_round_trip (folder_exists : string -> bool)
  (e : Entries.t) (vars : Vars.t) :
  load_settings folder_exists (save_settings e) vars =
    (Vars.mk
       (if folder_exists (Entries.folder e)
        then VStr (Entries.folder e) else Vars.folder_var vars)
       (VInt (Entries.workers e)) (VInt (Entries.fps e))
       (VInt (Entries.width e)) (VInt (Entries.quality e))
       (VInt (Entries.intervals e)) (VFloat (Entries.clip_length e))
       (VFloat (Entries.bridge_percent e)) (VFloat (Entries.bridge_abs e))
       (VFloat (Entries.bridge_window e)) (VBool (Entries.recursive e))
       (VBool (Entries.overwrite e)),
     SettingsLoaded)
  /\ (folder_exists (Entries.folder e) = true ->
      load_settings folder_exists (save_settings e) vars
      = (vars_of e, SettingsLoaded)).
Proof.
  assert (Hload :
    load_settings folder_exists (save_settings e) vars =
    (Vars.mk
       (if folder_exists (Entries.folder e)
        then VStr (Entries.folder e) else Vars.folder_var vars)
       (VInt (Entries.workers e)) (VInt (Entries.fps e))
       (VInt (Entries.width e)) (VInt (Entries.quality e))
       (VInt (Entries.intervals e)) (VFloat (Entries.clip_length e))
       (VFloat (Entries.bridge_percent e)) (VFloat (Entries.bridge_abs e))
       (VFloat (Entries.bridge_window e)) (VBool (Entries.recursive e))
       (VBool (Entries.overwrite e)),
     SettingsLoaded)).
  { destruct (save_settings_lookups e)
      as (H1 & H2 & H3 & H4 & H5 & H6 & H7 & H8 & H9 & H10 & H11 & H12).
    unfold load_settings, load_folder, saved.
    destruct (decide (save_settings e = ∅)) as [Hempty | _].
    { rewrite Hempty, lookup_empty in H1. discriminate. }
    rewrite H1, H2, H3, H4, H5, H6, H7, H8, H9, H10, H11, H12.
    destruct (folder_exists (Entries.folder e)); reflexivity. }
  split; [exact Hload |]. intros Hex. rewrite Hload, Hex. reflexivity.
Qed.

(** A saved folder that is not text makes [Path(...)] raise at the first
    setting: the error is reported and none of the other saved settings
    is loaded. *)
Theorem load_settings_bad_folder (folder_exists : string -> bool)
  (saved_config : gmap string value) (vars : Vars.t) (v : value) :
  saved_config !! "folder" = Some v ->
  (forall s, v <> VStr s) ->
  load_settings folder_exists saved_config vars
  = (vars, CouldNotLoad TypeError).
Proof.
  intros Hf Hv. unfold load_settings, load_folder.
  destruct (decide (saved_config = ∅)) as [-> | _];
    [rewrite lookup_empty in Hf; discriminate |].
  rewrite Hf. destruct v; try reflexivity. now destruct (Hv s).
Qed.

(** A setting that is missing from the file keeps the current value of
    its variable, and an empty file changes nothing. *)
Theorem load_settings_missing_keys (folder_exists : string -> bool)
  (saved_config : gmap string value) (vars : Vars.t) :
  let vars' := fst (load_settings folder_exists saved_config vars) in
  (saved_config !! "folder" = None ->
   Vars.folder_var vars' = Vars.folder_var vars) /\
  (saved_config !! "workers" = None ->
   Vars.workers_var vars' = Vars.workers_var vars) /\
  (saved_config !! "fps" = None -> Vars.fps_var vars' = Vars.fps_var vars) /\
  (saved_config !! "width" = None ->
   Vars.width_var vars' = Vars.width_var vars) /\
  (saved_config !! "quality" = None ->
   Vars.quality_var vars' = Vars.quality_var vars) /\
  (saved_config !! "intervals" = None ->
   Vars.intervals_var vars' = Vars.intervals_var vars) /\
  (saved_config !! "clip_length" = None ->
   Vars.clip_length_var vars' = Vars.clip_length_var vars) /\
  (saved_config !! "bridge_percent" = None ->
   Vars.bridge_percent_var vars' = Vars.bridge_percent_var vars) /\
  (saved_config !! "bridge_abs" = None ->
   Vars.bridge_abs_var vars' = Vars.bridge_abs_var vars) /\
  (saved_config !! "bridge_window" = None ->
   Vars.bridge_window_var vars' = Vars.bridge_window_var vars) /\
  (saved_config !! "recursive" = None ->
   Vars.recursive_var vars' = Vars.recursive_var vars) /\
  (saved_config !! "overwrite" = None ->
   Vars.overwrite_var vars' = Vars.overwrite_var vars) /\
  (saved_config = ∅ -> vars' = vars).
Proof.
  cbv zeta. unfold load_settings, load_folder, saved.
  destruct (decide (saved_config = ∅)) as [Hempty | Hne];
    [repeat split |].
  destruct (saved_config !! "folder") as [[folder_path | | |] |] eqn:Hf;
    try (cbn; repeat split; congruence).
  - destruct (folder_exists folder_path); cbn;
      repeat split; try congruence; intros ->; reflexivity.
  - cbn. repeat split; try congruence; intros ->; reflexivity.
Qed.

(** ** A whole batch with one worker *)






End Program.


(** With clips of 0.29 s at 100 frames per second the binary64 product
    is just below 29: the code expects 28 frames, the rounded count is
    29. *)
Example expected_frames_truncated_product :
  sampling_plan 8 fine_clip_config = Ok (mkPlan 8 0 28) /\
  spec_expected_unit_count 8 fine_clip_config = 29.
Proof. split; vm_compute; reflexivity. Qed.


Lemma bridge_interval_priority_witness :
  exists p,
    sampling_plan 100 abs_bridge_config = Ok p /\
    plan_interval p = round64 (100 / float_of_int 10) /\
    ((0 < 0)%Q -> plan_bridge_interval p = round64 (plan_interval p * 0)) /\
    (~ (0 < 0)%Q -> (0 < 1 # 2)%Q -> plan_bridge_interval p = (1 # 2)%Q) /\
    (~ (0 < 0)%Q -> ~ (0 < 1 # 2)%Q -> plan_bridge_interval p = 0%Q).
Proof.
  apply (bridge_interval_priority 100 abs_bridge_config);
    [reflexivity | simpl; lia].
Defined.

(** C4 as stated fails: a zero and a negative duration printed by the probe
    are both returned as the result. *)
Lemma get_video_duration_accepts_nonpositive :
  get_video_duration decimal_float movie prints_zero =
    ([RunFfprobe movie], Ok (Some 0%Q)) /\
  get_video_duration decimal_float movie prints_negative =
    ([RunFfprobe movie], Ok (Some (- 2)%Q)).
Proof. split; vm_compute; reflexivity. Qed.

Lemma get_video_duration_first_parseable_witness :
  get_video_duration decimal_float movie fails_twice =
    (attempt_trace movie 2 ++ [RunFfprobe movie], Ok (Some (25 # 2)))
  /\ count_ffprobe (fst (get_video_duration decimal_float movie fails_twice))
     = 3%nat.
Proof.
  apply (proj1 (proj2 (get_video_duration_first_parseable decimal_float
                         movie fails_twice)) 2%nat (25 # 2)).
  - lia.
  - intros j Hj. destruct j as [| [| j]]; [reflexivity | reflexivity | lia].
  - reflexivity.
Defined.

Lemma process_video_skips_existing_witness :
  process_video decimal_float decimal_int first_job default_config 1
    world_with_output =
    ([Put (MsgComplete
             (JobComplete.mk 1 "films/a.mp4" true "SKIP (exists)" None 0))],
     Ok tt)
  /\ List.filter is_tool_run
       (fst (process_video decimal_float decimal_int first_job
               default_config 1 world_with_output))
     = [].
Proof.
  apply (process_video_skips_existing decimal_float decimal_int first_job
           default_config 1 world_with_output); reflexivity.
Defined.

Lemma process_video_probe_exception_escapes_witness :
  worker_process decimal_float decimal_int 1
    (fun _ => world_without_ffprobe) default_config [Some first_job; None] =
    ([RunFfprobe movie;
      PrintError 1 (OSError "[Errno 2] No such file or directory: 'ffprobe'")],
     Exited []).
Proof.
  apply (process_video_probe_exception_escapes decimal_float decimal_int
           first_job default_config 1 world_without_ffprobe
           (OSError "[Errno 2] No such file or directory: 'ffprobe'"));
    reflexivity.
Defined.

Lemma process_video_reports_once_example :
  exists t,
    process_video decimal_float decimal_int first_job default_config 1
      (mkWorld false fails_twice
         (PopenRuns [("frame=45
", 9%Q); ("progress=end
", 18%Q)] 0) 0
         (GlobFinds [mkSibling "a-landscape.gif" ".gif" true]))
    = (t, Ok tt) /\
    List.filter is_job_complete t =
      [Put (MsgComplete
              (JobComplete.mk 1 "films/a.mp4" true "OK"
                 (Some ["a-landscape.gif"]) 0))].
Proof. eexists. split; vm_compute; reflexivity. Qed.



(** A stop whose first [get_nowait()] raises: both pending jobs stay in
    the queue, ahead of the pills. *)
Lemma stop_drain_breaks_early_witness :
  let self' := stop_processing [GetRaises] running_state in
  job_queue self'
  = [Some second_job; Some third_job; None; None; None; None]
  /\ (forall job,
        In (Some job) [Some second_job; Some third_job; None; None] ->
        In (Some job) (job_queue self')
        /\ job_queue self' <> [None; None])
  /\ is_stopping self' = true
  /\ is_running self' = false.
Proof.
  apply (proj1 (stop_drain_breaks_early running_state 0 GetRaises []
                  eq_refl ltac:(simpl; lia) ltac:(discriminate))).
Defined.

(** The same stop when the feeder thread has flushed nothing yet. *)
Example stop_on_unflushed_queue :
  job_queue (stop_processing [LooksEmpty] running_state)
  = [Some second_job; Some third_job; None; None; None; None].
Proof. reflexivity. Qed.

(** A stop whose turns are all steady leaves the pills alone. *)
Example stop_on_steady_queue :
  job_queue (stop_processing [] running_state) = [None; None]
  /\ is_stopping (stop_processing [] running_state) = true
  /\ is_running (stop_processing [] running_state) = false.
Proof. repeat split. Qed.

(** C3 as stated fails: while stopping, a failed result and a skipped one
    leave [completed_videos] at 1. *)
Lemma stopping_ignores_failed_and_skipped :
  is_stopping (stop_processing [] running_state) = true /\
  completed_videos (stop_processing [] running_state) = 1 /\
  completed_videos
    (fst (monitor_turn (Some (MsgComplete failed_result)) 30 1
            (stop_processing [] running_state))) = 1 /\
  completed_videos
    (fst (monitor_turn (Some (MsgComplete skipped_result)) 30 1
            (stop_processing [] running_state))) = 1.
Proof. repeat split. Qed.

Lemma stopping_counts_real_successes_witness :
  completed_videos
    (fst (monitor_turn (Some (MsgComplete ok_result)) 30 1
            (stop_processing [] running_state)))
  = completed_videos (stop_processing [] running_state) + 1.
Proof.
  apply (stopping_counts_real_successes (stop_processing [] running_state)
           ok_result 30 1).
  reflexivity.
Defined.


(** At the same instant as the batch start, the second result is
    counted and logged; the division by zero of the rate leaves the label
    as it was and no line in the log. *)
Example monitor_turn_zero_elapsed_example :
  let s := fst (monitor_turn (Some (MsgComplete ok_result)) 0 2
                  running_state) in
  completed_videos s = 2 /\
  overall_label s = LabelCalculating 1 3 2 /\
  log s = [LogJob true 2 3 "films/b.mp4" "OK" []].
Proof. repeat split. Qed.

Lemma prepass_failed_probe_still_enqueued_witness :
  exists t self',
    _scan_videos_and_start decimal_float probe_a_fails [movie; movie_b]
      ["media"] false 2 0 (start_processing [movie; movie_b] fresh_gui)
    = (t, Ok self') /\
    List.map (option_map VideoJob.video_path) (job_queue self')
    = List.map Some [movie; movie_b] ++ List.repeat None (Z.to_nat 2) /\
    (forall job,
       In (Some job) (job_queue self') ->
       probed decimal_float probe_a_fails (VideoJob.video_path job) = None ->
       VideoJob.video_duration job = 0%Q) /\
    (total_video_duration self' ==
     Qsum (List.map
             (fun v => default 0%Q (probed decimal_float probe_a_fails v))
             [movie; movie_b]))%Q.
Proof.
  apply (prepass_failed_probe_still_enqueued decimal_float probe_a_fails
           [movie; movie_b] ["media"] false 2 0 fresh_gui).
  - discriminate.
  - intros v _ k _. unfold probe_a_fails.
    destruct (String.eqb (path_str v) "media/films/a.mp4");
      eexists; reflexivity.
Defined.

(** The same batch, run: a.mp4 is queued with duration 0, b.mp4 with
    12.5 s, and the total is 12.5 s. *)
Example prepass_example :
  exists t self',
    _scan_videos_and_start decimal_float probe_a_fails [movie; movie_b]
      ["media"] false 2 0 (start_processing [movie; movie_b] fresh_gui)
    = (t, Ok self') /\
    List.map (option_map VideoJob.video_duration) (job_queue self')
    = [Some 0%Q; Some (25 # 2); None; None] /\
    (total_video_duration self' == 25 # 2)%Q.
Proof.
  eexists. eexists. split; [reflexivity |]. split; vm_compute; reflexivity.
Qed.

Lemma prepass_probe_exception_aborts_witness :
  exists t0,
    _scan_videos_and_start decimal_float probe_b_raises [movie; movie_b]
      ["media"] false 2 0 (start_processing [movie; movie_b] fresh_gui)
    = (t0 ++ attempt_trace movie_b 0 ++ [RunFfprobe movie_b],
       Raise (OSError "[Errno 12] Cannot allocate memory")) /\
    forall t self',
      _scan_videos_and_start decimal_float probe_b_raises [movie; movie_b]
        ["media"] false 2 0 (start_processing [movie; movie_b] fresh_gui)
      <> (t, Ok self').
Proof.
  apply (prepass_probe_exception_aborts decimal_float probe_b_raises
           [movie] movie_b [] ["media"] false 2 0 fresh_gui 0
           (OSError "[Errno 12] Cannot allocate memory")).
  - intros v [<- | []] k _. eexists. reflexivity.
  - lia.
  - intros j Hj. lia.
  - reflexivity.
Defined.

(** When ffprobe cannot be started the scan thread ends with the
    exception and no job is queued. *)
Example prepass_without_ffprobe :
  _scan_videos_and_start decimal_float (fun _ => not_installed) [movie]
    ["media"] false 2 0 (start_processing [movie] fresh_gui)
  = ([RunFfprobe movie],
     Raise (OSError "[Errno 2] No such file or directory: 'ffprobe'")).
Proof. reflexivity. Qed.

(** A stop with one job in flight: its success is counted, then the last
    worker exits and the final label reports one cancelled video. *)
Example stop_then_finish :
  let s := monitor_progress
             [(Some (MsgComplete ok_result), 30%Q, 1); (None, 31%Q, 0)]
             (stop_processing [] running_state) in
  overall_label s = LabelStopped 2 3 1 /\
  workers s = [] /\ is_stopping s = false /\ is_running s = false.
Proof. repeat split. Qed.

(** ** The further properties at concrete inputs *)

Lemma get_video_duration_exception_stops_retries_witness :
  get_video_duration decimal_float movie rejects_then_raises =
    (attempt_trace movie 1 ++ [RunFfprobe movie],
     Raise (OSError "[Errno 12] Cannot allocate memory"))
  /\ count_ffprobe
       (fst (get_video_duration decimal_float movie rejects_then_raises))
     = 2%nat.
Proof.
  apply (get_video_duration_exception_stops_retries decimal_float movie
           rejects_then_raises 1).
  - lia.
  - intros j Hj. destruct j as [| j]; [reflexivity | lia].
  - reflexivity.
Defined.

Lemma process_video_success_message_witness :
  snd (process_video decimal_float decimal_int overwrite_job default_config 1
         world_overwrite) = Ok tt /\
  results_of (fst (process_video decimal_float decimal_int overwrite_job
                     default_config 1 world_overwrite)) =
    [JobComplete.mk 1 "films/a.mp4" true "OK (overwritten)"
       (Some ["a-landscape.gif"]) 0] /\
  unlinked (fst (process_video decimal_float decimal_int overwrite_job
                   default_config 1 world_overwrite))
  = ["a-landscape.gif"].
Proof.
  apply (process_video_success_message decimal_float decimal_int
           overwrite_job default_config 1 world_overwrite (25 # 2)
           one_status_line);
    [reflexivity | reflexivity | discriminate | reflexivity].
Defined.

(** A video whose stem holds two asterisks in a row: ffmpeg has written
    the output, [glob] refuses the pattern, and the job is reported as
    failed with the message of the [ValueError]. *)
Example process_video_starred_stem :
  snd (process_video decimal_float decimal_int starred_job default_config 1
         world_starred) = Ok tt /\
  results_of (fst (process_video decimal_float decimal_int starred_job
                     default_config 1 world_starred)) =
    [JobComplete.mk 1 "films/a**.mp4" false
       "Invalid pattern: '**' can only be an entire path component" None 0]
  /\ List.filter is_tool_run
       (fst (process_video decimal_float decimal_int starred_job
               default_config 1 world_starred))
     = [RunFfprobe ["media"; "films"; "a**.mp4"];
        RunFfmpeg ["media"; "films"; "a**.mp4"] (mkPlan (5 # 4) (1 # 16) 90)
          default_config].
Proof. repeat split; vm_compute; reflexivity. Qed.

Lemma process_video_duration_read_failed_witness :
  process_video decimal_float decimal_int first_job default_config 1
    world_unreadable =
    (attempt_trace movie 3
     ++ [Put (MsgComplete
                (JobComplete.mk 1 "films/a.mp4" false "Duration read failed"
                   None 0))],
     Ok tt).
Proof.
  apply (process_video_duration_read_failed decimal_float decimal_int
           first_job default_config 1 world_unreadable);
    [reflexivity | intros j _; reflexivity].
Defined.


Lemma process_video_popen_exception_witness :
  process_video decimal_float decimal_int first_job default_config 1
    world_without_ffmpeg =
    ([RunFfprobe movie;
      Put (MsgComplete
             (JobComplete.mk 1 "films/a.mp4" false
                "[Errno 2] No such file or directory: 'ffmpeg'" None 0))],
     Ok tt).
Proof.
  apply (process_video_popen_exception decimal_float decimal_int first_job
           default_config 1 world_without_ffmpeg (25 # 2)
           (OSError "[Errno 2] No such file or directory: 'ffmpeg'"));
    [reflexivity | reflexivity | discriminate | reflexivity].
Defined.

Lemma process_video_zero_intervals_witness :
  process_video decimal_float decimal_int first_job zero_intervals_config 1
    world_plain = ([RunFfprobe movie], Raise ZeroDivisionError)
  /\ results_of (fst (process_video decimal_float decimal_int first_job
                        zero_intervals_config 1 world_plain)) = [].
Proof.
  apply (process_video_zero_intervals decimal_float decimal_int first_job
           zero_intervals_config 1 world_plain (25 # 2));
    reflexivity.
Defined.

Lemma process_video_results_carry_job_witness :
  JobComplete.worker_id
    (JobComplete.mk 1 "films/a.mp4" true "SKIP (exists)" None 0) = 1 /\
  JobComplete.video_name
    (JobComplete.mk 1 "films/a.mp4" true "SKIP (exists)" None 0)
  = display_name first_job /\
  JobComplete.video_duration
    (JobComplete.mk 1 "films/a.mp4" true "SKIP (exists)" None 0)
  = VideoJob.video_duration first_job.
Proof.
  apply (process_video_results_carry_job decimal_float decimal_int first_job
           default_config 1 world_with_output).
  left. reflexivity.
Defined.

Lemma process_video_updates_bounded_witness :
  exists u,
    In u (updates_of (fst (process_video decimal_float decimal_int first_job
                             default_config 1 world_plain))) /\
    ProgressUpdate.worker_id u = 1 /\
    ProgressUpdate.video_name u = display_name first_job /\
    1 <= ProgressUpdate.total_frames u /\
    (ProgressUpdate.progress u <= 100)%Q.
Proof.
  eexists. split; [vm_compute; left; reflexivity |].
  apply (process_video_updates_bounded decimal_float decimal_int first_job
           default_config 1 world_plain).
  vm_compute. left. reflexivity.
Defined.



(** The entries of the GUI as it starts give the default configuration:
    5 percent is the float 0.05. *)
Example get_config_default : get_config default_entries = default_config.
Proof. vm_compute. reflexivity. Qed.

Lemma monitor_counts_every_result_witness :
  let self' :=
    fst (monitor_turn (Some (MsgComplete failed_result)) 0 2 running_state) in
  completed_videos self' = completed_videos running_state + 1 /\
  processed_video_duration self' =
    (processed_video_duration running_state
     + JobComplete.video_duration failed_result)%Q /\
  total_videos self' = total_videos running_state /\
  total_video_duration self' = total_video_duration running_state /\
  job_queue self' = job_queue running_state /\
  snd (monitor_turn (Some (MsgComplete failed_result)) 0 2 running_state)
  = false.
Proof.
  apply (monitor_counts_every_result running_state failed_result 0 0 2);
    reflexivity.
Defined.

Lemma monitor_completes_batch_witness :
  let self' :=
    monitor_progress
      (List.map (fun r => (Some (MsgComplete r.1.1), r.1.2, r.2))
         two_results) running_state in
  is_running self' = false /\
  is_stopping self' = false /\
  completed_videos self' = total_videos running_state /\
  (processed_video_duration self' ==
   processed_video_duration running_state
   + Qsum (List.map (fun r => JobComplete.video_duration r.1.1)
             two_results))%Q /\
  exists timing,
    List.last (log self') LogNoFiles
    = LogAllDone (total_videos running_state) (total_videos running_state)
        timing.
Proof.
  apply (monitor_completes_batch 0 two_results running_state);
    try reflexivity.
  - cbn. lia.
  - discriminate.
  - intros m now alive [H | [H | []]]; injection H as _ <- _;
      intros Hz; vm_compute in Hz; discriminate Hz.
Defined.

Lemma monitor_zero_elapsed_skips_completion_witness :
  let self' :=
    fst (monitor_turn (Some (MsgComplete ok_result)) 0 2 running_state) in
  completed_videos self' = completed_videos running_state + 1 /\
  is_running self' = is_running running_state /\
  overall_label self' = overall_label running_state /\
  log self' = log running_state ++ [LogJob true 2 3 "films/b.mp4" "OK" []].
Proof.
  apply (monitor_zero_elapsed_skips_completion running_state ok_result 0 0 2);
    [reflexivity | reflexivity | cbn; lia | reflexivity].
Defined.

Lemma stopping_leaves_durations_witness :
  let self' :=
    fst (monitor_turn (Some (MsgComplete ok_result)) 30 1
           (stop_processing [] running_state)) in
  processed_video_duration self'
  = processed_video_duration (stop_processing [] running_state) /\
  total_video_duration self'
  = total_video_duration (stop_processing [] running_state) /\
  total_videos self' = total_videos (stop_processing [] running_state) /\
  job_queue self' = job_queue (stop_processing [] running_state) /\
  completed_videos (stop_processing [] running_state) <= completed_videos self'
  <= completed_videos (stop_processing [] running_state) + 1.
Proof.
  apply (stopping_leaves_durations (stop_processing [] running_state)
           (Some (MsgComplete ok_result)) 30 1).
  reflexivity.
Defined.

Lemma monitor_finishes_stop_witness :
  let self' :=
    monitor_progress
      [(None, 31%Q, 0); (Some (MsgComplete ok_result), 32%Q, 0)]
      (stop_processing [] running_state) in
  self' = fst (monitor_turn None 31 0 (stop_processing [] running_state)) /\
  is_stopping self' = false /\
  is_running self' = is_running (stop_processing [] running_state) /\
  workers self' = [] /\
  overall_label self'
  = LabelStopped (completed_videos self') (total_videos self')
      (total_videos self' - completed_videos self').
Proof.
  apply (monitor_finishes_stop (stop_processing [] running_state) None 31
           [(Some (MsgComplete ok_result), 32%Q, 0)]);
    [reflexivity | discriminate].
Defined.

Lemma prepass_total_is_sum_of_jobs_witness :
  exists t self',
    _scan_videos_and_start decimal_float probe_a_fails [movie; movie_b]
      ["media"] false 2 0 (start_processing [movie; movie_b] fresh_gui)
    = (t, Ok self') /\
    (total_video_duration self' ==
     Qsum (List.map VideoJob.video_duration (jobs_of (job_queue self'))))%Q /\
    total_videos self' = Z.of_nat (length (jobs_of (job_queue self'))).
Proof.
  apply (prepass_total_is_sum_of_jobs decimal_float probe_a_fails
           [movie; movie_b] ["media"] false 2 0 fresh_gui).
  - discriminate.
  - intros v _ k _. unfold probe_a_fails.
    destruct (String.eqb (path_str v) "media/films/a.mp4");
      eexists; reflexivity.
Defined.

Lemma panels_idle_after_stop_witness :
  Forall (fun p =>
            WorkerPanel.video_label p = PanelIdle /\
            WorkerPanel.progress p = 0%Q /\
            WorkerPanel.stats_label p = StatsIdle)
    (monitor_turn_panels (Some (MsgComplete ok_result)) 30 0
       (stop_processing [] running_state) one_panel_busy).
Proof.
  apply (panels_idle_after_stop (Some (MsgComplete ok_result)) 30
           (stop_processing [] running_state) one_panel_busy);
    [reflexivity | discriminate].
Defined.

Lemma load_settings_bad_folder_witness :
  load_settings (fun _ => true) odd_settings some_vars
  = (some_vars, CouldNotLoad TypeError).
Proof.
  apply (load_settings_bad_folder (fun _ => true) odd_settings some_vars
           (VInt 3)); [reflexivity | discriminate].
Defined.


(** Runs of the further definitions. *)
Example shorten_example :
  shorten "a-very-long-folder-name/and-a-long-file-name.mp4"
  = "...-folder-name/and-a-long-file-name.mp4".
Proof. reflexivity. Qed.

Example load_settings_example :
  load_settings (fun _ => false) (save_settings default_entries) some_vars
  = (Vars.mk (VStr "/home") (VInt 2) (VInt 10) (VInt 480) (VInt 50)
       (VInt 10) (VFloat (round64 (3 # 10))) (VFloat 5) (VFloat 0)
       (VFloat (round64 (3 # 100))) (VBool false) (VBool false),
     SettingsLoaded).
Proof. vm_compute. reflexivity. Qed.

Lemma shorten_spec_witness :
  exists prefix suffix,
    "a-very-long-folder-name/and-a-long-file-name.mp4"
    = (prefix ++ suffix)%string /\
    String.length suffix = 37%nat /\
    shorten "a-very-long-folder-name/and-a-long-file-name.mp4"
    = ("..." ++ suffix)%string.
Proof.
  apply (proj2 (proj2 (shorten_spec
                         "a-very-long-folder-name/and-a-long-file-name.mp4"))).
  cbn. lia.
Defined.

Lemma on_panel_bounds_witness :
  on_panel 1 set_idle one_panel_busy !! Z.to_nat (1 - 1)
  = set_idle <$> one_panel_busy !! Z.to_nat (1 - 1) /\
  forall i, i <> Z.to_nat (1 - 1) ->
            on_panel 1 set_idle one_panel_busy !! i = one_panel_busy !! i.
Proof.
  apply (proj2 (proj2 (on_panel_bounds 1 set_idle one_panel_busy))).
  cbn. lia.
Defined.

Lemma load_settings_round_trip_witness :
  load_settings (fun _ => true) (save_settings default_entries) some_vars
  = (vars_of default_entries, SettingsLoaded).
Proof.
  apply (proj2 (load_settings_round_trip (fun _ => true) default_entries
                  some_vars)).
  reflexivity.
Defined.
